(** * Hydro-Quebec coordinator: scheduling and per-tick update logic

    Shallow embedding of [custom_components/hydroqc/coordinator/base.py]
    (class [HydroQcDataCoordinator]): the timing policy
    ([_is_winter_season], [_should_update_opendata], [_should_update_portal]
    and the two window predicates) and the per-tick driver
    [_async_update_data], followed by the properties of the specification
    that concern them.

    The coordinator object is a record of its attributes; one execution of
    [_async_update_data] is a computation in a small state-and-exception
    monad over a [World] (the object, the event loop's tasks, the log and
    the trace of capability calls).  Everything the method obtains from
    outside (wall-clock readings, results of the network capabilities) is
    supplied by an environment [Env]. *)

From Stdlib Require Import ZArith Lia Bool.
From stdpp Require Import base numbers list strings.

Open Scope Z_scope.

(** ** Wall-clock values

    [datetime.datetime] values as the fields Python stores.  Two aware
    values carrying the same [tzinfo] object are subtracted field-wise
    (no offset adjustment), which is what CPython's [datetime.__sub__]
    does and what every subtraction in the coordinator falls under: all
    stored stamps and all [now] values it subtracts come from
    [ZoneInfo("America/Toronto")]. *)
Module DateTime.

Record datetime := mk_datetime {
  year : Z; month : Z; day : Z;
  hour : Z; minute : Z; second : Z; microsecond : Z
}.

Definition is_leap (y : Z) : bool :=
  (y mod 4 =? 0) && (negb (y mod 100 =? 0) || (y mod 400 =? 0)).

(** number of days before January 1st of year [y] *)
Definition days_before_year (y : Z) : Z :=
  let y1 := y - 1 in y1 * 365 + y1 / 4 - y1 / 100 + y1 / 400.

(** number of days in year [y] before the first day of month [m] *)
Definition days_before_month (y m : Z) : Z :=
  nth (Z.to_nat m) [0; 0; 31; 59; 90; 120; 151; 181; 212; 243; 273; 304; 334] 0
  + (if (2 <? m) && is_leap y then 1 else 0).

Definition toordinal (d : datetime) : Z :=
  days_before_year (year d) + days_before_month (year d) (month d) + day d.

Definition seconds_of_day (d : datetime) : Z :=
  second d + minute d * 60 + hour d * 3600.

(** [(a - b)] as a count of microseconds: the timedelta
    [(days, seconds, microseconds)] flattened. *)
Definition sub_us (a b : datetime) : Z :=
  ((toordinal a - toordinal b) * 86400
   + (seconds_of_day a - seconds_of_day b)) * 1000000
  + (microsecond a - microsecond b).

(** [(a - b).total_seconds() >= n] for an integer literal [n].
    [total_seconds] is the correctly rounded quotient of the microsecond
    count by [10**6]; for the literals used here (300, 3600, 10800) the
    rounded quotient reaches [n] exactly when the microsecond count
    reaches [n * 10**6], so the comparison is carried out on integers. *)
Definition total_seconds_ge (a b : datetime) (n : Z) : bool :=
  n * 1000000 <=? sub_us a b.

(** order of two wall-clock values, as Python compares them *)
Definition le (a b : datetime) : Prop := 0 <= sub_us b a.

(** [d.replace(hour=h, minute=m, second=s)] *)
Definition replace_time (d : datetime) (h m s : Z) : datetime :=
  mk_datetime (year d) (month d) (day d) h m s (microsecond d).

End DateTime.
Export DateTime.

(** ** Data model *)

(** [entry.data[CONF_AUTH_MODE]] compared against the two constants of
    [const.py]; any other stored value is kept as it is. *)
Inductive AuthMode :=
| AUTH_MODE_PORTAL
| AUTH_MODE_OPENDATA
| AUTH_MODE_other (raw : string).

(** Objects handed out by the [hydroqc] library are references; [oid] is
    the identity of the object. *)
Record WebUser := mk_WebUser { username : string; password : string }.
Record Customer := mk_Customer { customer_oid : N }.
Record Account := mk_Account { account_oid : N }.

(** the three contract classes the method tests for, and any other one *)
Inductive ContractClass := ContractDCPC | ContractDPC | ContractDT | ContractPlain.
Record Contract := mk_Contract { contract_oid : N; contract_class : ContractClass }.

(** [public_client.peak_handler]: only the length of [_events] is read *)
Record PeakHandler := mk_PeakHandler { _events : list N }.

(** The dict built and returned by [_async_update_data].  Its
    ["public_client"] entry is always the coordinator's own client object,
    so it carries no information of its own. *)
Record Snapshot := mk_Snapshot {
  contract : option Contract;
  account : option Account;
  customer : option Customer
}.

(** Tasks of the event loop.  A task is created running and may later be
    done (finished, failed or cancelled: [Task.done()] is true for all). *)
Inductive TaskName := calendar_sync | consumption_sync.
Inductive TaskState := Running | Done.
Record Task := mk_Task { task_name : TaskName; task_state : TaskState }.

#[global] Instance TaskName_eq_dec : EqDecision TaskName.
Proof. solve_decision. Defined.
#[global] Instance TaskState_eq_dec : EqDecision TaskState.
Proof. solve_decision. Defined.

Inductive Level := DEBUG | INFO | WARNING | ERROR.
(** a log record: level and format string (arguments are not rendered) *)
Definition LogRecord : Type := Level * string.

(** Exceptions.  [HydroQcHTTPError] stands for that class and its
    subclasses, [OtherException] for every other [Exception];
    [UpdateFailed] is the one the coordinator raises itself.  The argument
    is [str(err)]. *)
Inductive Exn :=
| HydroQcHTTPError (msg : string)
| OtherException (msg : string)
| UpdateFailed (msg : string).

Definition str (e : Exn) : string :=
  match e with HydroQcHTTPError m | OtherException m | UpdateFailed m => m end.

(** Capability calls on the two upstream clients, as they appear in
    [_async_update_data]. *)
Inductive Call :=
| fetch_peak_data
| check_hq_portal_status
| login
| get_info
| fetch_customers_info
| get_customer
| customer_get_info
| get_account
| get_contract
| get_periods_info
| refresh_outages
| set_preheat_duration
| peak_handler_refresh_data
| get_dpc_data
| get_annual_consumption.

#[global] Instance Call_eq_dec : EqDecision Call.
Proof. solve_decision. Defined.

(** The configuration entry: [entry.data] and [entry.options], read only. *)
Record Entry := mk_Entry {
  _auth_mode : AuthMode;
  _rate : string;
  _rate_option : string;
  _preheat_duration : Z;
  _customer_id : string;
  _account_id : string;
  _contract_id : string;
  options_enable_consumption_sync : option bool;
  data_enable_consumption_sync : option bool
}.

(** The coordinator object: the attributes [_async_update_data] reads or
    writes.  [peak_handler] is [public_client.peak_handler]; [data] is the
    attribute of [DataUpdateCoordinator] that observers read; the two task
    attributes hold the index of the task in the event loop. *)
Record Coordinator := mk_Coordinator {
  entry : Entry;
  _webuser : option WebUser;
  _calendar_entity_id : option string;
  _customer : option Customer;
  _account : option Account;
  _contract : option Contract;
  peak_handler : option PeakHandler;
  last_update_success_time : option datetime;
  _last_peak_update_hour : option Z;
  _last_opendata_update : option datetime;
  _last_portal_update : option datetime;
  _last_consumption_sync : option datetime;
  _last_peak_events_count : Z;
  _portal_last_offline_log : option datetime;
  _portal_available : option bool;
  _calendar_sync_task : option nat;
  _regular_sync_task : option nat;
  data : option Snapshot
}.

(** Attribute assignment [self.x = v], one function per assigned attribute. *)
Definition set__customer (v : option Customer) (c : Coordinator) : Coordinator :=
  {|
    entry := entry c; _webuser := _webuser c;
    _calendar_entity_id := _calendar_entity_id c; _customer := v;
    _account := _account c; _contract := _contract c;
    peak_handler := peak_handler c;
    last_update_success_time := last_update_success_time c;
    _last_peak_update_hour := _last_peak_update_hour c;
    _last_opendata_update := _last_opendata_update c;
    _last_portal_update := _last_portal_update c;
    _last_consumption_sync := _last_consumption_sync c;
    _last_peak_events_count := _last_peak_events_count c;
    _portal_last_offline_log := _portal_last_offline_log c;
    _portal_available := _portal_available c;
    _calendar_sync_task := _calendar_sync_task c;
    _regular_sync_task := _regular_sync_task c; data := data c
  |}.
Definition set__account (v : option Account) (c : Coordinator) : Coordinator :=
  {|
    entry := entry c; _webuser := _webuser c;
    _calendar_entity_id := _calendar_entity_id c; _customer := _customer c;
    _account := v; _contract := _contract c; peak_handler := peak_handler c;
    last_update_success_time := last_update_success_time c;
    _last_peak_update_hour := _last_peak_update_hour c;
    _last_opendata_update := _last_opendata_update c;
    _last_portal_update := _last_portal_update c;
    _last_consumption_sync := _last_consumption_sync c;
    _last_peak_events_count := _last_peak_events_count c;
    _portal_last_offline_log := _portal_last_offline_log c;
    _portal_available := _portal_available c;
    _calendar_sync_task := _calendar_sync_task c;
    _regular_sync_task := _regular_sync_task c; data := data c
  |}.
Definition set__contract (v : option Contract) (c : Coordinator) : Coordinator :=
  {|
    entry := entry c; _webuser := _webuser c;
    _calendar_entity_id := _calendar_entity_id c; _customer := _customer c;
    _account := _account c; _contract := v; peak_handler := peak_handler c;
    last_update_success_time := last_update_success_time c;
    _last_peak_update_hour := _last_peak_update_hour c;
    _last_opendata_update := _last_opendata_update c;
    _last_portal_update := _last_portal_update c;
    _last_consumption_sync := _last_consumption_sync c;
    _last_peak_events_count := _last_peak_events_count c;
    _portal_last_offline_log := _portal_last_offline_log c;
    _portal_available := _portal_available c;
    _calendar_sync_task := _calendar_sync_task c;
    _regular_sync_task := _regular_sync_task c; data := data c
  |}.
Definition set_peak_handler (v : option PeakHandler) (c : Coordinator) : Coordinator :=
  {|
    entry := entry c; _webuser := _webuser c;
    _calendar_entity_id := _calendar_entity_id c; _customer := _customer c;
    _account := _account c; _contract := _contract c; peak_handler := v;
    last_update_success_time := last_update_success_time c;
    _last_peak_update_hour := _last_peak_update_hour c;
    _last_opendata_update := _last_opendata_update c;
    _last_portal_update := _last_portal_update c;
    _last_consumption_sync := _last_consumption_sync c;
    _last_peak_events_count := _last_peak_events_count c;
    _portal_last_offline_log := _portal_last_offline_log c;
    _portal_available := _portal_available c;
    _calendar_sync_task := _calendar_sync_task c;
    _regular_sync_task := _regular_sync_task c; data := data c
  |}.
Definition set_last_update_success_time (v : option datetime) (c : Coordinator) : Coordinator :=
  {|
    entry := entry c; _webuser := _webuser c;
    _calendar_entity_id := _calendar_entity_id c; _customer := _customer c;
    _account := _account c; _contract := _contract c;
    peak_handler := peak_handler c; last_update_success_time := v;
    _last_peak_update_hour := _last_peak_update_hour c;
    _last_opendata_update := _last_opendata_update c;
    _last_portal_update := _last_portal_update c;
    _last_consumption_sync := _last_consumption_sync c;
    _last_peak_events_count := _last_peak_events_count c;
    _portal_last_offline_log := _portal_last_offline_log c;
    _portal_available := _portal_available c;
    _calendar_sync_task := _calendar_sync_task c;
    _regular_sync_task := _regular_sync_task c; data := data c
  |}.
Definition set__last_peak_update_hour (v : option Z) (c : Coordinator) : Coordinator :=
  {|
    entry := entry c; _webuser := _webuser c;
    _calendar_entity_id := _calendar_entity_id c; _customer := _customer c;
    _account := _account c; _contract := _contract c;
    peak_handler := peak_handler c;
    last_update_success_time := last_update_success_time c;
    _last_peak_update_hour := v;
    _last_opendata_update := _last_opendata_update c;
    _last_portal_update := _last_portal_update c;
    _last_consumption_sync := _last_consumption_sync c;
    _last_peak_events_count := _last_peak_events_count c;
    _portal_last_offline_log := _portal_last_offline_log c;
    _portal_available := _portal_available c;
    _calendar_sync_task := _calendar_sync_task c;
    _regular_sync_task := _regular_sync_task c; data := data c
  |}.
Definition set__last_opendata_update (v : option datetime) (c : Coordinator) : Coordinator :=
  {|
    entry := entry c; _webuser := _webuser c;
    _calendar_entity_id := _calendar_entity_id c; _customer := _customer c;
    _account := _account c; _contract := _contract c;
    peak_handler := peak_handler c;
    last_update_success_time := last_update_success_time c;
    _last_peak_update_hour := _last_peak_update_hour c;
    _last_opendata_update := v;
    _last_portal_update := _last_portal_update c;
    _last_consumption_sync := _last_consumption_sync c;
    _last_peak_events_count := _last_peak_events_count c;
    _portal_last_offline_log := _portal_last_offline_log c;
    _portal_available := _portal_available c;
    _calendar_sync_task := _calendar_sync_task c;
    _regular_sync_task := _regular_sync_task c; data := data c
  |}.
Definition set__last_portal_update (v : option datetime) (c : Coordinator) : Coordinator :=
  {|
    entry := entry c; _webuser := _webuser c;
    _calendar_entity_id := _calendar_entity_id c; _customer := _customer c;
    _account := _account c; _contract := _contract c;
    peak_handler := peak_handler c;
    last_update_success_time := last_update_success_time c;
    _last_peak_update_hour := _last_peak_update_hour c;
    _last_opendata_update := _last_opendata_update c;
    _last_portal_update := v;
    _last_consumption_sync := _last_consumption_sync c;
    _last_peak_events_count := _last_peak_events_count c;
    _portal_last_offline_log := _portal_last_offline_log c;
    _portal_available := _portal_available c;
    _calendar_sync_task := _calendar_sync_task c;
    _regular_sync_task := _regular_sync_task c; data := data c
  |}.
Definition set__last_consumption_sync (v : option datetime) (c : Coordinator) : Coordinator :=
  {|
    entry := entry c; _webuser := _webuser c;
    _calendar_entity_id := _calendar_entity_id c; _customer := _customer c;
    _account := _account c; _contract := _contract c;
    peak_handler := peak_handler c;
    last_update_success_time := last_update_success_time c;
    _last_peak_update_hour := _last_peak_update_hour c;
    _last_opendata_update := _last_opendata_update c;
    _last_portal_update := _last_portal_update c;
    _last_consumption_sync := v;
    _last_peak_events_count := _last_peak_events_count c;
    _portal_last_offline_log := _portal_last_offline_log c;
    _portal_available := _portal_available c;
    _calendar_sync_task := _calendar_sync_task c;
    _regular_sync_task := _regular_sync_task c; data := data c
  |}.
Definition set__last_peak_events_count (v : Z) (c : Coordinator) : Coordinator :=
  {|
    entry := entry c; _webuser := _webuser c;
    _calendar_entity_id := _calendar_entity_id c; _customer := _customer c;
    _account := _account c; _contract := _contract c;
    peak_handler := peak_handler c;
    last_update_success_time := last_update_success_time c;
    _last_peak_update_hour := _last_peak_update_hour c;
    _last_opendata_update := _last_opendata_update c;
    _last_portal_update := _last_portal_update c;
    _last_consumption_sync := _last_consumption_sync c;
    _last_peak_events_count := v;
    _portal_last_offline_log := _portal_last_offline_log c;
    _portal_available := _portal_available c;
    _calendar_sync_task := _calendar_sync_task c;
    _regular_sync_task := _regular_sync_task c; data := data c
  |}.
Definition set__portal_last_offline_log (v : option datetime) (c : Coordinator) : Coordinator :=
  {|
    entry := entry c; _webuser := _webuser c;
    _calendar_entity_id := _calendar_entity_id c; _customer := _customer c;
    _account := _account c; _contract := _contract c;
    peak_handler := peak_handler c;
    last_update_success_time := last_update_success_time c;
    _last_peak_update_hour := _last_peak_update_hour c;
    _last_opendata_update := _last_opendata_update c;
    _last_portal_update := _last_portal_update c;
    _last_consumption_sync := _last_consumption_sync c;
    _last_peak_events_count := _last_peak_events_count c;
    _portal_last_offline_log := v; _portal_available := _portal_available c;
    _calendar_sync_task := _calendar_sync_task c;
    _regular_sync_task := _regular_sync_task c; data := data c
  |}.
Definition set__portal_available (v : option bool) (c : Coordinator) : Coordinator :=
  {|
    entry := entry c; _webuser := _webuser c;
    _calendar_entity_id := _calendar_entity_id c; _customer := _customer c;
    _account := _account c; _contract := _contract c;
    peak_handler := peak_handler c;
    last_update_success_time := last_update_success_time c;
    _last_peak_update_hour := _last_peak_update_hour c;
    _last_opendata_update := _last_opendata_update c;
    _last_portal_update := _last_portal_update c;
    _last_consumption_sync := _last_consumption_sync c;
    _last_peak_events_count := _last_peak_events_count c;
    _portal_last_offline_log := _portal_last_offline_log c;
    _portal_available := v; _calendar_sync_task := _calendar_sync_task c;
    _regular_sync_task := _regular_sync_task c; data := data c
  |}.
Definition set__calendar_sync_task (v : option nat) (c : Coordinator) : Coordinator :=
  {|
    entry := entry c; _webuser := _webuser c;
    _calendar_entity_id := _calendar_entity_id c; _customer := _customer c;
    _account := _account c; _contract := _contract c;
    peak_handler := peak_handler c;
    last_update_success_time := last_update_success_time c;
    _last_peak_update_hour := _last_peak_update_hour c;
    _last_opendata_update := _last_opendata_update c;
    _last_portal_update := _last_portal_update c;
    _last_consumption_sync := _last_consumption_sync c;
    _last_peak_events_count := _last_peak_events_count c;
    _portal_last_offline_log := _portal_last_offline_log c;
    _portal_available := _portal_available c; _calendar_sync_task := v;
    _regular_sync_task := _regular_sync_task c; data := data c
  |}.
Definition set__regular_sync_task (v : option nat) (c : Coordinator) : Coordinator :=
  {|
    entry := entry c; _webuser := _webuser c;
    _calendar_entity_id := _calendar_entity_id c; _customer := _customer c;
    _account := _account c; _contract := _contract c;
    peak_handler := peak_handler c;
    last_update_success_time := last_update_success_time c;
    _last_peak_update_hour := _last_peak_update_hour c;
    _last_opendata_update := _last_opendata_update c;
    _last_portal_update := _last_portal_update c;
    _last_consumption_sync := _last_consumption_sync c;
    _last_peak_events_count := _last_peak_events_count c;
    _portal_last_offline_log := _portal_last_offline_log c;
    _portal_available := _portal_available c;
    _calendar_sync_task := _calendar_sync_task c; _regular_sync_task := v;
    data := data c
  |}.
Definition set_data (v : option Snapshot) (c : Coordinator) : Coordinator :=
  {|
    entry := entry c; _webuser := _webuser c;
    _calendar_entity_id := _calendar_entity_id c; _customer := _customer c;
    _account := _account c; _contract := _contract c;
    peak_handler := peak_handler c;
    last_update_success_time := last_update_success_time c;
    _last_peak_update_hour := _last_peak_update_hour c;
    _last_opendata_update := _last_opendata_update c;
    _last_portal_update := _last_portal_update c;
    _last_consumption_sync := _last_consumption_sync c;
    _last_peak_events_count := _last_peak_events_count c;
    _portal_last_offline_log := _portal_last_offline_log c;
    _portal_available := _portal_available c;
    _calendar_sync_task := _calendar_sync_task c;
    _regular_sync_task := _regular_sync_task c; data := v
  |}.

(** ** The world of one tick and its environment *)

Inductive Outcome (A : Type) :=
| Ok (a : A)
| Raise (e : Exn).
Arguments Ok {A} a.
Arguments Raise {A} e.

(** One reading of the wall clock, in the three forms the method asks
    for: [datetime.now()], [datetime.now(ZoneInfo("America/Toronto"))] and
    [datetime.now(datetime.UTC)]. *)
Record Reading := mk_Reading { local : datetime; toronto : datetime; utc : datetime }.

(** What the outside supplies during one tick: the successive clock
    readings and the result of every capability call. *)
Record Env := mk_Env {
  clock : nat -> Reading;
  fetch_peak_data_result : Outcome unit;
  peak_handler_after_fetch : option PeakHandler;
  check_hq_portal_status_result : Outcome bool;
  session_expired : bool;
  get_customer_result : string -> Outcome Customer;
  get_account_result : Customer -> string -> Outcome Account;
  get_contract_result : Account -> string -> Outcome Contract;
  call_result : Call -> Outcome unit
}.

Record World := mk_World {
  self : Coordinator;
  tasks : list Task;
  reads : nat;
  logs : list LogRecord;
  calls : list Call
}.

Definition with_self (f : Coordinator -> Coordinator) (w : World) : World :=
  {| self := f (self w); tasks := tasks w; reads := reads w;
     logs := logs w; calls := calls w |}.
Definition with_tasks (ts : list Task) (w : World) : World :=
  {| self := self w; tasks := ts; reads := reads w;
     logs := logs w; calls := calls w |}.
Definition with_reads (n : nat) (w : World) : World :=
  {| self := self w; tasks := tasks w; reads := n;
     logs := logs w; calls := calls w |}.
Definition with_logs (l : list LogRecord) (w : World) : World :=
  {| self := self w; tasks := tasks w; reads := reads w;
     logs := l; calls := calls w |}.
Definition with_calls (l : list Call) (w : World) : World :=
  {| self := self w; tasks := tasks w; reads := reads w;
     logs := logs w; calls := l |}.

(** *** The monad: state, and exceptions that keep the state reached *)

Definition M (A : Type) : Type := Env -> World -> Outcome A * World.

Definition ret {A} (a : A) : M A := fun _ w => (Ok a, w).

Definition bind {A B} (m : M A) (k : A -> M B) : M B :=
  fun env w =>
    match m env w with
    | (Ok a, w') => k a env w'
    | (Raise e, w') => (Raise e, w')
    end.

Notation "'let*' x := m 'in' k" := (bind m (fun x => k))
  (at level 10, x name, m at level 100, k at level 200, only parsing).
Notation "m >> k" := (bind m (fun _ => k))
  (at level 100, k at level 200, only parsing, right associativity).

Definition raise {A} (e : Exn) : M A := fun _ w => (Raise e, w).

(** [try: m  except Exception as err: h err] *)
Definition try_except {A} (m : M A) (h : Exn -> M A) : M A :=
  fun env w =>
    match m env w with
    | (Ok a, w') => (Ok a, w')
    | (Raise e, w') => h e env w'
    end.

Definition get_self : M Coordinator := fun _ w => (Ok (self w), w).
Definition assign (f : Coordinator -> Coordinator) : M unit :=
  fun _ w => (Ok tt, with_self f w).

(** [datetime.datetime.now(...)]: the next reading of the clock *)
Definition now : M Reading :=
  fun env w => (Ok (clock env (reads w)), with_reads (S (reads w)) w).
Definition now_toronto : M datetime := let* r := now in ret (toronto r).

Definition log (l : Level) (fmt : string) : M unit :=
  fun _ w => (Ok tt, with_logs (logs w ++ [(l, fmt)]) w).

(** a capability call that returns nothing *)
Definition call (c : Call) : M unit :=
  fun env w => (call_result env c, with_calls (calls w ++ [c]) w).

(** a capability call whose result the environment gives *)
Definition call_for {A} (c : Call) (r : Env -> Outcome A) : M A :=
  fun env w => (r env, with_calls (calls w ++ [c]) w).

(** the property [self._webuser.session_expired] *)
Definition webuser_session_expired : M bool :=
  fun env w => (Ok (session_expired env), w).

(** [asyncio.create_task(...)]: a new running task of the loop *)
Definition create_task (n : TaskName) : M nat :=
  fun _ w => (Ok (length (tasks w)),
              with_tasks (tasks w ++ [mk_Task n Running]) w).

(** [task.done()] *)
Definition task_done (t : nat) : M bool :=
  fun _ w => (Ok match tasks w !! t with
                 | Some tk => bool_decide (task_state tk = Done)
                 | None => true
                 end, w).

(** ** Properties of the class *)

Definition is_portal_mode (c : Coordinator) : bool :=
  match _auth_mode (entry c) with AUTH_MODE_PORTAL => true | _ => false end.

Definition is_opendata_mode (c : Coordinator) : bool :=
  match _auth_mode (entry c) with AUTH_MODE_OPENDATA => true | _ => false end.

Definition rate (c : Coordinator) : string := _rate (entry c).
Definition rate_option (c : Coordinator) : string := _rate_option (entry c).

(** ** Timing policy *)

(** [month in (12, 1, 2, 3)] *)
Definition winter_month (m : Z) : bool :=
  (m =? 12) || (m =? 1) || (m =? 2) || (m =? 3).

Definition _is_winter_season : M bool :=
  let* now := now_toronto in
  ret (winter_month (month now)).

Definition _is_opendata_active_window : M bool :=
  let* now := now_toronto in
  ret ((11 <=? hour now) && (hour now <? 18)).

Definition _is_portal_active_window : M bool :=
  let* now := now_toronto in
  ret ((0 <=? hour now) && (hour now <? 8)).

Definition _should_update_opendata : M bool :=
  let* winter := _is_winter_season in
  if negb winter then ret false else
  let* c := get_self in
  match _last_opendata_update c with
  | None => ret true
  | Some last =>
      let* now := now_toronto in
      if (minute now <? 5) && negb (hour last =? hour now) then
        log DEBUG
          "[OpenData] Forcing update at top of hour for peak state accuracy" >>
        ret true
      else
        let* active := _is_opendata_active_window in
        if active then ret (total_seconds_ge now last 300)
        else ret (total_seconds_ge now last 3600)
  end.

Definition _should_update_portal : M bool :=
  let* c := get_self in
  match _last_portal_update c with
  | None => ret true
  | Some last =>
      let* now := now_toronto in
      let* active := _is_portal_active_window in
      if active then ret (total_seconds_ge now last 3600)
      else ret (total_seconds_ge now last 10800)
  end.

(** ** The per-tick driver [_async_update_data] *)

(** truth value of an optional string: [None] and the empty string are false *)
Definition truthy_str (s : option string) : bool :=
  match s with
  | Some s => negb (String.eqb s "")
  | None => false
  end.

(** truth value of an optional object *)
Definition truthy {A} (o : option A) : bool :=
  match o with Some _ => true | None => false end.

(** [a != b] on an optional hour *)
Definition hour_differs (last : option Z) (h : Z) : bool :=
  match last with
  | Some l => negb (l =? h)
  | None => true
  end.

(** [isinstance(contract, cls)] *)
Definition isinstance (c : Contract) (cls : ContractClass) : bool :=
  match contract_class c, cls with
  | ContractDCPC, ContractDCPC | ContractDPC, ContractDPC
  | ContractDT, ContractDT | ContractPlain, ContractPlain => true
  | _, _ => false
  end.

(** [await self.public_client.fetch_peak_data()]: besides succeeding or
    raising, the call leaves the client's peak handler in the state the
    environment gives. *)
Definition await_fetch_peak_data : M unit :=
  fun env w =>
    (fetch_peak_data_result env,
     with_calls (calls w ++ [fetch_peak_data])
       (with_self (set_peak_handler (peak_handler_after_fetch env)) w)).

(** Lines 246-264: the public feed. *)
Definition opendata_block (should_update_peaks : bool) (current_hour : Z) : M unit :=
  let* due := _should_update_opendata in
  if due then
    try_except
      (await_fetch_peak_data >>
       let* now := now_toronto in
       assign (set__last_opendata_update (Some now)) >>
       if should_update_peaks then
         assign (set__last_peak_update_hour (Some current_hour)) >>
         log INFO "[OpenData] Hourly peak data refresh at %02d:00"
       else
         log DEBUG "[OpenData] Public peak data fetched successfully")
      (fun err =>
         log WARNING "[OpenData] Failed to fetch public peak data: %s")
  else
    let* winter := _is_winter_season in
    if negb winter then log DEBUG "[OpenData] Skipped (off-season)"
    else log DEBUG "[OpenData] Skipped (too soon since last update)".

(** Lines 266-275: the calendar synchronisation trigger. *)
Definition calendar_block : M unit :=
  let* c := get_self in
  if truthy_str (_calendar_entity_id c) then
    match peak_handler c with
    | Some ph =>
        let current_peak_count := Z.of_nat (length (_events ph)) in
        if negb (current_peak_count =? _last_peak_events_count c) then
          let* free :=
            match _calendar_sync_task c with
            | None => ret true
            | Some t => task_done t
            end in
          if free then
            let* t := create_task calendar_sync in
            assign (set__calendar_sync_task (Some t)) >>
            assign (set__last_peak_events_count current_peak_count) >>
            log DEBUG "Calendar sync triggered (peak events changed: %d)"
          else
            log DEBUG "Calendar sync already in progress, skipping"
        else ret tt
    | None => ret tt
    end
  else ret tt.

(** Lines 290-297: the offline warning, at most once per hour. *)
Definition portal_offline_log : M unit :=
  let* now := now_toronto in
  let* c := get_self in
  if match _portal_last_offline_log c with
     | None => true
     | Some last => total_seconds_ge now last 3600
     end
  then
    log WARNING "[Portal] Hydro-Québec portal is offline, skipping update" >>
    assign (set__portal_last_offline_log (Some now))
  else ret tt.

(** Lines 322-345: rate-specific fetches. *)
Definition rate_specific (c : Coordinator) (k : Contract) : M unit :=
  if String.eqb (rate c) "D" && String.eqb (rate_option c) "CPC" then
    (if isinstance k ContractDCPC then
       call set_preheat_duration >>
       call peak_handler_refresh_data
     else ret tt) >>
    log DEBUG "[Portal] Fetched DCPC winter credit data"
  else if String.eqb (rate c) "DPC" then
    (if isinstance k ContractDPC then
       call set_preheat_duration >>
       call get_dpc_data >>
       call peak_handler_refresh_data
     else ret tt) >>
    log DEBUG "[Portal] Fetched DPC data"
  else if String.eqb (rate c) "DT" then
    (if isinstance k ContractDT then
       call get_annual_consumption
     else ret tt) >>
    log DEBUG "Fetched DT annual consumption"
  else ret tt.

(** How a block of the method ends: with [return data], or by running
    on to the statement after it (carrying the local [data]). *)
Inductive Flow :=
| Return (d : Snapshot)
| Next (d : Snapshot).

(** Lines 285-352: the body of the [try]. *)
Definition portal_try (data : Snapshot) : M Flow :=
  let* c := get_self in
  let* offline :=
    match _webuser c with
    | Some _ =>
        let* portal_available :=
          call_for check_hq_portal_status check_hq_portal_status_result in
        assign (set__portal_available (Some portal_available)) >>
        if negb portal_available then portal_offline_log >> ret true
        else ret false
    | None => ret false
    end in
  if offline then ret (Return data) else
  match _webuser c with
  | Some _ =>
      let* expired := webuser_session_expired in
      (if expired then
         log DEBUG "Session expired, re-authenticating" >>
         call login
       else ret tt) >>
      call get_info >>
      call fetch_customers_info >>
      let* cu := call_for get_customer
                   (fun env => get_customer_result env (_customer_id (entry c))) in
      assign (set__customer (Some cu)) >>
      call customer_get_info >>
      let* ac := call_for get_account
                   (fun env => get_account_result env cu (_account_id (entry c))) in
      assign (set__account (Some ac)) >>
      let* k := call_for get_contract
                  (fun env => get_contract_result env ac (_contract_id (entry c))) in
      assign (set__contract (Some k)) >>
      call get_periods_info >>
      call refresh_outages >>
      rate_specific c k >>
      let* c' := get_self in
      let data := {| contract := _contract c'; account := _account c';
                     customer := _customer c' |} in
      let* now := now_toronto in
      assign (set__last_portal_update (Some now)) >>
      log DEBUG "[Portal] Successfully fetched authenticated contract data" >>
      ret (Next data)
  | None => ret (Next data)
  end.

(** Lines 354-359: the two [except] clauses. *)
Definition portal_except (err : Exn) : M Flow :=
  match err with
  | HydroQcHTTPError _ =>
      log ERROR "HTTP error fetching Hydro-Québec data: %s" >>
      raise (UpdateFailed ("Error fetching Hydro-Québec data: " ++ str err))
  | _ =>
      log ERROR "Unexpected error fetching data: %s" >>
      raise (UpdateFailed ("Unexpected error: " ++ str err))
  end.

(** Lines 282-361: the authenticated source. *)
Definition portal_block (data : Snapshot) : M Flow :=
  let* due := _should_update_portal in
  if due then try_except (portal_try data) portal_except
  else
    log DEBUG "[Portal] Skipped (too soon since last update)" >>
    ret (Next data).

(** [hasattr(self, "_first_refresh_done")]: the attribute is assigned in
    [__init__], so the test holds on every coordinator. *)
Definition hasattr_first_refresh_done (c : Coordinator) : bool := true.

(** [entry.options.get(k, entry.data.get(k, True))] *)
Definition enable_consumption_sync (c : Coordinator) : bool :=
  match options_enable_consumption_sync (entry c) with
  | Some b => b
  | None =>
      match data_enable_consumption_sync (entry c) with
      | Some b => b
      | None => true
      end
  end.

(** Lines 363-387: completion stamp and consumption synchronisation. *)
Definition finish_block : M unit :=
  let* r := now in
  assign (set_last_update_success_time (Some (utc r))) >>
  let* c := get_self in
  if is_portal_mode c && truthy (_contract c)
     && hasattr_first_refresh_done c && enable_consumption_sync c
  then
    let* now := now_toronto in
    let should_sync :=
      match _last_consumption_sync c with
      | None => true
      | Some last => total_seconds_ge now last 3600
      end in
    if should_sync then
      let* t := create_task consumption_sync in
      assign (set__regular_sync_task (Some t)) >>
      assign (set__last_consumption_sync (Some now))
    else ret tt
  else ret tt.

(** Lines 242-264: the hour of this tick, then the public feed. *)
Definition opendata_part : M unit :=
  let* r := now in
  let current_hour := hour (local r) in
  let* c := get_self in
  let should_update_peaks :=
    hour_differs (_last_peak_update_hour c) current_hour in
  opendata_block should_update_peaks current_hour.

Definition empty_data : Snapshot :=
  {| contract := None; account := None; customer := None |}.

Definition _async_update_data : M Snapshot :=
  let data := empty_data in
  opendata_part >>
  calendar_block >>
  let* c := get_self in
  if is_opendata_mode c then
    log DEBUG "OpenData mode: skipping portal data fetch" >>
    ret data
  else
    let* f := portal_block data in
    match f with
    | Return d => ret d
    | Next d => finish_block >> ret d
    end.

(** The host's refresh ([DataUpdateCoordinator], from which the class
    inherits): what [_async_update_data] returns becomes [self.data]; when
    it raises, [self.data] is left as it is. *)
Definition async_refresh : M unit :=
  try_except
    (let* d := _async_update_data in assign (set_data (Some d)))
    (fun _ => ret tt).

(** Between two ticks the loop runs the tasks: task [t] finishes. *)
Definition finish_task (t : nat) (w : World) : World :=
  match tasks w !! t with
  | Some tk => with_tasks (<[t := mk_Task (task_name tk) Done]> (tasks w)) w
  | None => w
  end.

Definition run {A} (m : M A) (env : Env) (w : World) : Outcome A * World :=
  m env w.

(** the world in which the calendar trigger is evaluated *)
Definition at_calendar (env : Env) (w : World) : World :=
  snd (run opendata_part env w).

(** the world in which the authenticated section is reached *)
Definition at_portal (env : Env) (w : World) : World :=
  snd (run (opendata_part >> calendar_block) env w).

(** the wall-clock value (Toronto) that the [n]-th next reading returns *)
Definition time_at (env : Env) (w : World) (n : nat) : datetime :=
  toronto (clock env (reads w + n)%nat).

(** [__init__] (lines 60-129).  The calendar entity id comes from
    [_init_calendar_sync]; the attributes that the mixins and the public
    client initialise (task handles, peak handler) start as [None]. *)
Definition init (e : Entry) (user pass : string)
    (calendar_entity_id : option string) : Coordinator :=
  {| entry := e;
     _webuser := match _auth_mode e with
                 | AUTH_MODE_PORTAL => Some (mk_WebUser user pass)
                 | _ => None
                 end;
     _calendar_entity_id := calendar_entity_id;
     _customer := None; _account := None; _contract := None;
     peak_handler := None;
     last_update_success_time := None;
     _last_peak_update_hour := None;
     _last_opendata_update := None;
     _last_portal_update := None;
     _last_consumption_sync := None;
     _last_peak_events_count := 0;
     _portal_last_offline_log := None;
     _portal_available := None;
     _calendar_sync_task := None;
     _regular_sync_task := None;
     data := None |}.

Definition init_world (c : Coordinator) : World :=
  {| self := c; tasks := []; reads := 0; logs := []; calls := [] |}.

(** ** Vocabulary of the properties *)

(** the world in which the body of the [try] starts, when the portal is due *)
Definition at_try (env : Env) (w : World) : World :=
  snd (run _should_update_portal env (at_portal env w)).

(** the authenticated update is due on this tick *)
Definition portal_due (env : Env) (w : World) : Prop :=
  fst (run _should_update_portal env (at_portal env w)) = Ok true.

(** the authenticated update is skipped on this tick (not yet due) *)
Definition portal_skipped (env : Env) (w : World) : Prop :=
  fst (run _should_update_portal env (at_portal env w)) = Ok false.

(** the authenticated update is due and the portal reports itself down *)
Definition portal_found_offline (env : Env) (w : World) : Prop :=
  portal_due env w /\ is_Some (_webuser (self w)) /\
  check_hq_portal_status_result env = Ok false.

(** how the body of the [try] ends when it is run on this tick *)
Definition chain_outcome (env : Env) (w : World) : Outcome Flow :=
  fst (run (portal_try empty_data) env (at_try env w)).

(** the authenticated update is due and the body of the [try] raises [e] *)
Definition chain_raises (env : Env) (w : World) (e : Exn) : Prop :=
  portal_due env w /\ chain_outcome env w = Raise e.

(** [e] is what the environment answers to one of the capability calls
    of the authenticated chain *)
Definition raised_by_capability (env : Env) (c : Coordinator) (e : Exn) : Prop :=
  check_hq_portal_status_result env = Raise e \/
  get_customer_result env (_customer_id (entry c)) = Raise e \/
  (exists cu, get_account_result env cu (_account_id (entry c)) = Raise e) \/
  (exists ac, get_contract_result env ac (_contract_id (entry c)) = Raise e) \/
  exists k, call_result env k = Raise e.

(** the two classes of failure the [except] clauses tell apart *)
Inductive ErrorKind := Transport | Unclassified.

Definition kind_of (e : Exn) : ErrorKind :=
  match e with
  | HydroQcHTTPError _ => Transport
  | _ => Unclassified
  end.

(** the tick-level failure raised for [e], and the record logged with it *)
Definition failure_of (e : Exn) : Exn :=
  match kind_of e with
  | Transport => UpdateFailed ("Error fetching Hydro-Québec data: " ++ str e)
  | Unclassified => UpdateFailed ("Unexpected error: " ++ str e)
  end.

Definition failure_log (e : Exn) : LogRecord :=
  match kind_of e with
  | Transport => (ERROR, "HTTP error fetching Hydro-Québec data: %s")
  | Unclassified => (ERROR, "Unexpected error fetching data: %s")
  end.

(** the attributes lines 242-264 may assign: every other one is kept *)
Definition opendata_frame (c c' : Coordinator) : Prop :=
  c' = set_peak_handler (peak_handler c')
         (set__last_peak_update_hour (_last_peak_update_hour c')
            (set__last_opendata_update (_last_opendata_update c') c)).

(** the attributes lines 266-275 may assign *)
Definition calendar_frame (c c' : Coordinator) : Prop :=
  c' = set__calendar_sync_task (_calendar_sync_task c')
         (set__last_peak_events_count (_last_peak_events_count c') c).

(** the attributes lines 282-361 may assign *)
Definition portal_frame (c c' : Coordinator) : Prop :=
  c' = set__portal_available (_portal_available c')
         (set__portal_last_offline_log (_portal_last_offline_log c')
            (set__customer (_customer c')
               (set__account (_account c')
                  (set__contract (_contract c')
                     (set__last_portal_update (_last_portal_update c') c))))).

(** the attributes lines 363-387 may assign *)
Definition finish_frame (c c' : Coordinator) : Prop :=
  c' = set_last_update_success_time (last_update_success_time c')
         (set__regular_sync_task (_regular_sync_task c')
            (set__last_consumption_sync (_last_consumption_sync c') c)).

(** the capability calls every authenticated update makes, whatever the rate *)
Definition base_chain : list Call :=
  [get_info; fetch_customers_info; customer_get_info; get_periods_info;
   refresh_outages].

(** no calendar synchronisation named by the handle is still running *)
Definition calendar_free (w : World) : Prop :=
  match _calendar_sync_task (self w) with
  | None => True
  | Some t =>
      match tasks w !! t with
      | Some tk => task_state tk = Done
      | None => True
      end
  end.

(** every running calendar synchronisation is the one the handle names *)
Definition calendar_single (w : World) : Prop :=
  forall i tk, tasks w !! i = Some tk ->
    task_name tk = calendar_sync -> task_state tk = Running ->
    _calendar_sync_task (self w) = Some i.

(** the record lines 290-297 write when they warn *)
Definition offline_warning : LogRecord :=
  (WARNING, "[Portal] Hydro-Québec portal is offline, skipping update").

(** number of running tasks of a given name *)
Definition running (n : TaskName) (ts : list Task) : nat :=
  length (filter (fun t => task_name t = n /\ task_state t = Running) ts).

(** ** Runs of the coordinator

    Between construction and shutdown the host alternates refreshes (each
    with its own environment) and the completion of background tasks. *)

Inductive Step :=
| Tick (env : Env)
| Finish (t : nat).

Definition step (w : World) (s : Step) : World :=
  match s with
  | Tick env => snd (run async_refresh env w)
  | Finish t => finish_task t w
  end.

(** the worlds a coordinator built by [__init__] can be in *)
Inductive reachable (e : Entry) (user pass : string)
    (calendar_entity_id : option string) : World -> Prop :=
| reachable_init :
    reachable e user pass calendar_entity_id
      (init_world (init e user pass calendar_entity_id))
| reachable_step (w : World) (s : Step) :
    reachable e user pass calendar_entity_id w ->
    reachable e user pass calendar_entity_id (step w s).

(** ** Vocabulary of the further properties *)

(** the three authenticated fields are set *)
Definition full (d : Snapshot) : Prop :=
  is_Some (contract d) /\ is_Some (account d) /\ is_Some (customer d).

(** the hour-boundary condition of line 210 *)
Definition hour_boundary (now last : datetime) : bool :=
  (minute now <? 5) && negb (hour last =? hour now).

(** the interval of lines 215-217 at the time the window is read *)
Definition public_interval (t : datetime) : Z :=
  if (11 <=? hour t) && (hour t <? 18) then 300 else 3600.

(** the interval of lines 230-232 at the time the window is read *)
Definition portal_interval (t : datetime) : Z :=
  if (0 <=? hour t) && (hour t <? 8) then 3600 else 10800.

(** the rate-specific calls of lines 322-345, in the order made *)
Definition rate_calls (c : Coordinator) (k : Contract) : list Call :=
  if String.eqb (rate c) "D" && String.eqb (rate_option c) "CPC" then
    if isinstance k ContractDCPC
    then [set_preheat_duration; peak_handler_refresh_data] else []
  else if String.eqb (rate c) "DPC" then
    if isinstance k ContractDPC
    then [set_preheat_duration; get_dpc_data; peak_handler_refresh_data]
    else []
  else if String.eqb (rate c) "DT" then
    if isinstance k ContractDT then [get_annual_consumption] else []
  else [].

(** the calls of a body of the [try] that runs to its end *)
Definition chain_calls (expired : bool) (c : Coordinator) (k : Contract)
    : list Call :=
  [check_hq_portal_status] ++ (if expired then [login] else [])
  ++ [get_info; fetch_customers_info; get_customer; customer_get_info;
      get_account; get_contract; get_periods_info; refresh_outages]
  ++ rate_calls c k.

(** the published snapshot is entirely null or entirely set, and a portal
    stamp is only ever stored once the three private attributes are set *)
Definition coherent (w : World) : Prop :=
  match data (self w) with
  | None => True
  | Some d => d = empty_data \/ full d
  end /\
  (is_Some (_last_portal_update (self w)) ->
   is_Some (_contract (self w)) /\ is_Some (_account (self w)) /\
   is_Some (_customer (self w))).

(** each task attribute names a task of the loop, of its own kind *)
Definition handles_valid (w : World) : Prop :=
  (forall t, _calendar_sync_task (self w) = Some t ->
     exists tk, tasks w !! t = Some tk /\ task_name tk = calendar_sync) /\
  (forall t, _regular_sync_task (self w) = Some t ->
     exists tk, tasks w !! t = Some tk /\ task_name tk = consumption_sync).

(** what a coordinator in public-data-only mode has never done *)
Definition untouched_by_portal (w : World) : Prop :=
  Forall (fun c => c = fetch_peak_data) (calls w) /\
  _customer (self w) = None /\ _account (self w) = None /\
  _contract (self w) = None /\
  _last_portal_update (self w) = None /\
  _portal_available (self w) = None /\
  last_update_success_time (self w) = None /\
  (data (self w) = None \/ data (self w) = Some empty_data) /\
  Forall (fun t => task_name t = calendar_sync) (tasks w).

(** ** Calendar arithmetic of [datetime + timedelta]

    [date.fromordinal] ([_ord2ymd] of CPython's [datetime.py]) and the
    addition of whole hours, which goes through the normalised timedelta
    (days, seconds, microseconds) of the sum. *)
Module DateTimeAdd.

Definition DAYS_IN_MONTH : list Z :=
  [-1; 31; 28; 31; 30; 31; 30; 31; 31; 30; 31; 30; 31].
Definition DAYS_BEFORE_MONTH : list Z :=
  [-1; 0; 31; 59; 90; 120; 151; 181; 212; 243; 273; 304; 334].
Definition MAXORDINAL : Z := 3652059.

(** month and day of the [n]-th day (counted from 0) of a year *)
Definition month_day (leapyear : bool) (n : Z) : Z * Z :=
  let month := Z.shiftr (n + 50) 5 in
  let preceding := nth (Z.to_nat month) DAYS_BEFORE_MONTH (-1)
                   + (if (2 <? month) && leapyear then 1 else 0) in
  if n <? preceding then
    let month := month - 1 in
    let preceding :=
      preceding - (nth (Z.to_nat month) DAYS_IN_MONTH (-1)
                   + (if (month =? 2) && leapyear then 1 else 0)) in
    (month, n - preceding + 1)
  else (month, n - preceding + 1).

(** [_ord2ymd]: ordinal to (year, month, day) *)
Definition ord2ymd (n : Z) : Z * Z * Z :=
  let n := n - 1 in
  let n400 := n / 146097 in
  let n := n mod 146097 in
  let year := n400 * 400 + 1 in
  let n100 := n / 36524 in
  let n := n mod 36524 in
  let n4 := n / 1461 in
  let n := n mod 1461 in
  let n1 := n / 365 in
  let n := n mod 365 in
  let year := year + n100 * 100 + n4 * 4 + n1 in
  if (n1 =? 4) || (n100 =? 4) then (year - 1, 12, 31)
  else
    let leapyear := (n1 =? 3) && (negb (n4 =? 24) || (n100 =? 3)) in
    let '(month, day) := month_day leapyear n in
    (year, month, day).

(** [d + timedelta(hours=k)]; [None] is the [OverflowError] raised when
    the date leaves the range of ordinals *)
Definition add_hours (d : datetime) (k : Z) : option datetime :=
  let total := (toordinal d * 86400 + seconds_of_day d) * 1000000
               + microsecond d + k * 3600 * 1000000 in
  let days := total / 86400000000 in
  let rest := total mod 86400000000 in
  let secs := rest / 1000000 in
  let us := rest mod 1000000 in
  let h := secs / 3600 in
  let rem := secs mod 3600 in
  let m := rem / 60 in
  let s := rem mod 60 in
  if (0 <? days) && (days <=? MAXORDINAL) then
    let '(y, mo, dd) := ord2ymd days in
    Some (mk_datetime y mo dd h m s us)
  else None.

(** a time of day within its ranges, on a day that has an ordinal *)
Definition well_formed (d : datetime) : Prop :=
  1 <= toordinal d <= MAXORDINAL /\
  0 <= hour d < 24 /\ 0 <= minute d < 60 /\ 0 <= second d < 60 /\
  0 <= microsecond d < 1000000.

End DateTimeAdd.
Export DateTimeAdd.

(** ** The host around the coordinator: shutdown and the hourly schedule

    [async_shutdown], [_schedule_hourly_update] and [_async_hourly_update]
    act on things outside the attributes modelled so far: the CSV import
    task of the consumption mixin, the two client sessions, the points in
    time registered with the host and its refresh requests. *)

Inductive Session := webuser_session | public_client_session.

Record Host := mk_Host {
  world : World;
  (** [self._csv_import_task]: the state of the task, [None] when the
      attribute is missing or holds no task *)
  _csv_import_task : option TaskState;
  (** sessions closed so far, in order *)
  closed : list Session;
  (** points in time registered with [async_track_point_in_time] *)
  tracked : list datetime;
  (** calls of [async_request_refresh] *)
  refresh_requests : nat
}.

Definition with_world (f : World -> World) (h : Host) : Host :=
  {| world := f (world h); _csv_import_task := _csv_import_task h;
     closed := closed h; tracked := tracked h;
     refresh_requests := refresh_requests h |}.
Definition with_csv (v : option TaskState) (h : Host) : Host :=
  {| world := world h; _csv_import_task := v;
     closed := closed h; tracked := tracked h;
     refresh_requests := refresh_requests h |}.
Definition with_closed (l : list Session) (h : Host) : Host :=
  {| world := world h; _csv_import_task := _csv_import_task h;
     closed := l; tracked := tracked h;
     refresh_requests := refresh_requests h |}.
Definition with_tracked (l : list datetime) (h : Host) : Host :=
  {| world := world h; _csv_import_task := _csv_import_task h;
     closed := closed h; tracked := l;
     refresh_requests := refresh_requests h |}.
Definition with_refresh_requests (n : nat) (h : Host) : Host :=
  {| world := world h; _csv_import_task := _csv_import_task h;
     closed := closed h; tracked := tracked h;
     refresh_requests := n |}.

(** How [await task] ends for a task that was asked to cancel: with
    [CancelledError], by returning (the task finished all the same), or
    with the exception the task ended in. *)
Inductive AwaitResult :=
| AwaitCancelled
| AwaitReturned
| AwaitRaised (e : Exn).

(** what the outside supplies during a shutdown *)
Record ShutdownEnv := mk_ShutdownEnv {
  await_csv_import : AwaitResult;
  await_regular_sync : AwaitResult;
  webuser_close_result : Outcome unit;
  public_close_result : Outcome unit
}.

(** a command of the host and its sequencing: an exception ends the
    method, the state reached is kept *)
Definition Cmd : Type := Host -> Outcome unit * Host.

Definition skip : Cmd := fun h => (Ok tt, h).

Definition and_then (f g : Cmd) : Cmd :=
  fun h =>
    match f h with
    | (Ok _, h') => g h'
    | (Raise e, h') => (Raise e, h')
    end.

Definition host_log (l : Level) (fmt : string) : Cmd :=
  fun h => (Ok tt, with_world (fun w => with_logs (logs w ++ [(l, fmt)]) w) h).

(** [try: await task  except asyncio.CancelledError: log] *)
Definition awaited (r : AwaitResult) (fmt : string) : Cmd :=
  match r with
  | AwaitCancelled => host_log DEBUG fmt
  | AwaitReturned => skip
  | AwaitRaised e => fun h => (Raise e, h)
  end.

(** Lines 394-401: the CSV import task. *)
Definition shutdown_csv_import (senv : ShutdownEnv) : Cmd :=
  fun h =>
    match _csv_import_task h with
    | Some Running =>
        awaited (await_csv_import senv) "Cancelled CSV import task"
          (with_csv (Some Done) h)
    | _ => (Ok tt, h)
    end.

(** Lines 403-410: the regular consumption synchronisation. *)
Definition shutdown_regular_sync (senv : ShutdownEnv) : Cmd :=
  fun h =>
    match _regular_sync_task (self (world h)) with
    | Some t =>
        match tasks (world h) !! t with
        | Some tk =>
            if bool_decide (task_state tk = Done) then (Ok tt, h)
            else
              awaited (await_regular_sync senv) "Cancelled regular sync task"
                (with_world (finish_task t) h)
        | None => (Ok tt, h)
        end
    | None => (Ok tt, h)
    end.

(** Lines 412-414: the two sessions. *)
Definition close_session (s : Session) (r : Outcome unit) : Cmd :=
  fun h => (r, with_closed (closed h ++ [s]) h).

Definition async_shutdown (senv : ShutdownEnv) : Cmd :=
  and_then (host_log DEBUG "Shutting down coordinator")
    (and_then (shutdown_csv_import senv)
       (and_then (shutdown_regular_sync senv)
          (and_then
             (fun h =>
                if truthy (_webuser (self (world h)))
                then close_session webuser_session (webuser_close_result senv) h
                else (Ok tt, h))
             (close_session public_client_session (public_close_result senv))))).

(** [(now + timedelta(hours=1)).replace(minute=0, second=0, microsecond=0)] *)
Definition next_hour (now : datetime) : option datetime :=
  match add_hours now 1 with
  | Some d => Some (mk_datetime (year d) (month d) (day d) (hour d) 0 0 0)
  | None => None
  end.

(** [_schedule_hourly_update], given the reading of [datetime.now()]:
    the next top of the hour is registered with the host. *)
Definition _schedule_hourly_update (now : datetime) : Cmd :=
  fun h =>
    match next_hour now with
    | Some nx =>
        and_then (host_log DEBUG "Scheduling next peak update at %s")
          (fun h => (Ok tt, with_tracked (tracked h ++ [nx]) h)) h
    | None => (Raise (OtherException "date value out of range"), h)
    end.

(** [_async_hourly_update]: a refresh is requested, whose result is the
    host's, then the next update is scheduled from the reading of the
    clock taken then. *)
Definition _async_hourly_update (refresh : Outcome unit) (now : datetime) : Cmd :=
  and_then (host_log DEBUG "Triggering hourly peak sensor update")
    (and_then
       (fun h => (refresh, with_refresh_requests (S (refresh_requests h)) h))
       (_schedule_hourly_update now)).

(** ** Concrete scenarios *)

Module Scenario.

Definition entry_portal : Entry :=
  {| _auth_mode := AUTH_MODE_PORTAL; _rate := "D"; _rate_option := "CPC";
     _preheat_duration := 120; _customer_id := "cust"; _account_id := "acct";
     _contract_id := "ctr"; options_enable_consumption_sync := None;
     data_enable_consumption_sync := None |}.

Definition entry_opendata : Entry :=
  {| _auth_mode := AUTH_MODE_OPENDATA; _rate := "D"; _rate_option := "CPC";
     _preheat_duration := 120; _customer_id := ""; _account_id := "";
     _contract_id := ""; options_enable_consumption_sync := None;
     data_enable_consumption_sync := None |}.

(** 15 January 2025, 09:58:00, and later times of the same day *)
Definition jan_0958 : datetime := mk_datetime 2025 1 15 9 58 0 0.
Definition jan_1002 : datetime := replace_time jan_0958 10 2 0.
Definition jan_1003 : datetime := replace_time jan_0958 10 3 0.
Definition jan_1008 : datetime := replace_time jan_0958 10 8 0.
Definition jan_1028 : datetime := replace_time jan_0958 10 28 0.
Definition jan_105801 : datetime := replace_time jan_0958 10 58 1.
Definition jan_1100 : datetime := replace_time jan_0958 11 0 0.
Definition jan_1300 : datetime := replace_time jan_0958 13 0 0.
(** 15 July 2025, 12:00:00 *)
Definition jul_1200 : datetime := mk_datetime 2025 7 15 12 0 0 0.

(** a clock that stands still at [t] for the length of a tick (the three
    forms of a reading agree) *)
Definition frozen (t : datetime) : nat -> Reading :=
  fun _ => mk_Reading t t t.

Definition the_customer : Customer := mk_Customer 1.
Definition the_account : Account := mk_Account 2.
Definition the_contract : Contract := mk_Contract 3 ContractDCPC.

(** every capability succeeds, the portal is up, the session is live, and
    the public feed then holds the given peak events *)
Definition env_peaks (clk : nat -> Reading) (evs : list N) : Env :=
  {| clock := clk;
     fetch_peak_data_result := Ok tt;
     peak_handler_after_fetch := Some (mk_PeakHandler evs);
     check_hq_portal_status_result := Ok true;
     session_expired := false;
     get_customer_result := fun _ => Ok the_customer;
     get_account_result := fun _ _ => Ok the_account;
     get_contract_result := fun _ _ => Ok the_contract;
     call_result := fun _ => Ok tt |}.

(** the same with no peak event *)
Definition env_ok (clk : nat -> Reading) : Env := env_peaks clk [].

(** as [env_ok], with the portal reported offline *)
Definition env_offline (clk : nat -> Reading) : Env :=
  {| clock := clk;
     fetch_peak_data_result := Ok tt;
     peak_handler_after_fetch := Some (mk_PeakHandler []);
     check_hq_portal_status_result := Ok false;
     session_expired := false;
     get_customer_result := fun _ => Ok the_customer;
     get_account_result := fun _ _ => Ok the_account;
     get_contract_result := fun _ _ => Ok the_contract;
     call_result := fun _ => Ok tt |}.

(** as [env_ok], with one capability call raising [e] *)
Definition env_failing (clk : nat -> Reading) (c : Call) (e : Exn) : Env :=
  {| clock := clk;
     fetch_peak_data_result := Ok tt;
     peak_handler_after_fetch := Some (mk_PeakHandler []);
     check_hq_portal_status_result := Ok true;
     session_expired := false;
     get_customer_result := fun _ => Ok the_customer;
     get_account_result := fun _ _ => Ok the_account;
     get_contract_result := fun _ _ => Ok the_contract;
     call_result := fun c' => if decide (c' = c) then Raise e else Ok tt |}.

(** freshly constructed coordinators, one per mode *)
Definition w_portal : World := init_world (init entry_portal "u" "p" None).
Definition w_opendata : World := init_world (init entry_opendata "" "" None).

(** the public feed was last fetched at 09:58 *)
Definition w_public_0958 : World :=
  with_self (set__last_opendata_update (Some jan_0958)) w_portal.

(** the portal coordinator after a first, fully successful refresh at
    09:58, and what that refresh published *)
Definition w_first : World :=
  snd (run async_refresh (env_ok (frozen jan_0958)) w_portal).

Definition first_data : Snapshot :=
  {| contract := Some the_contract; account := Some the_account;
     customer := Some the_customer |}.

(** a public-data-only coordinator with a calendar entity, after a first
    tick at 09:58 that saw two peak events and started the calendar
    synchronisation (task 0, still running) *)
Definition w_calendar : World :=
  snd (run async_refresh (env_peaks (frozen jan_0958) [1; 2]%N)
         (init_world (init entry_opendata "" "" (Some "calendar.hydroqc")))).

End Scenario.

Import Scenario.

(** ** Scenarios of the host *)

Module HostScenario.

(** a portal coordinator with a calendar entity after a first refresh at
    09:58 that saw two peak events: the calendar synchronisation (task 0)
    and the consumption synchronisation (task 1) are running *)
Definition w_both : World :=
  snd (run async_refresh (env_peaks (frozen jan_0958) [1; 2]%N)
         (init_world (init entry_portal "u" "p" (Some "calendar.hydroqc")))).

(** the host around it, with a CSV import under way *)
Definition host_both : Host :=
  {| world := w_both; _csv_import_task := Some Running; closed := [];
     tracked := []; refresh_requests := 0 |}.

(** a shutdown in which the awaited tasks end cancelled and both sessions
    close *)
Definition senv_quiet : ShutdownEnv :=
  {| await_csv_import := AwaitCancelled;
     await_regular_sync := AwaitCancelled;
     webuser_close_result := Ok tt;
     public_close_result := Ok tt |}.

(** one in which the consumption synchronisation ends in an exception of
    its own *)
Definition senv_sync_fails : ShutdownEnv :=
  {| await_csv_import := AwaitCancelled;
     await_regular_sync := AwaitRaised (OtherException "sync failed");
     webuser_close_result := Ok tt;
     public_close_result := Ok tt |}.

End HostScenario.

Import HostScenario.

(** * Properties *)

(** ** Proof tools *)

Ltac munfold :=
  unfold run, bind, ret, raise, try_except, get_self, assign, now_toronto,
    now, log, call, call_for, create_task, task_done,
    webuser_session_expired in *.

Lemma winter_month_spec (m : Z) : winter_month m = true <-> m ∈ [12; 1; 2; 3].
Proof.
  unfold winter_month. rewrite !elem_of_cons, elem_of_nil. lia.
Qed.

Lemma winter_month_false (m : Z) : winter_month m = false <-> m ∉ [12; 1; 2; 3].
Proof.
  rewrite <- winter_month_spec. destruct (winter_month m); split; congruence.
Qed.

Lemma time_at_0 env w : time_at env w 0 = toronto (clock env (reads w)).
Proof. unfold time_at. by rewrite Nat.add_0_r. Qed.

Lemma time_at_1 env w : time_at env w 1 = toronto (clock env (S (reads w))).
Proof. unfold time_at. by rewrite Nat.add_1_r. Qed.

Lemma total_seconds_ge_spec a b n :
  total_seconds_ge a b n = true <-> n * 1000000 <= sub_us a b.
Proof. unfold total_seconds_ge. lia. Qed.

(** ** Timing policy *)

(** the seasonal gate is the first test of [_should_update_opendata] *)
Lemma should_update_opendata_off_season (env : Env) (w : World) :
  winter_month (month (toronto (clock env (reads w)))) = false ->
  run _should_update_opendata env w = (Ok false, with_reads (S (reads w)) w).
Proof.
  intros Hm. unfold _should_update_opendata, _is_winter_season. munfold.
  simpl. by rewrite Hm.
Qed.

(** C7. Off season (the month of the current time is none of 12, 1, 2, 3)
    [_should_update_opendata] answers false, whatever the stored stamp
    (set or unset) and whatever time has elapsed: the seasonal gate is the
    first test. *)
Theorem off_season_public_never_due (env : Env) (w : World) :
  month (time_at env w 0) ∉ [12; 1; 2; 3] ->
  fst (run _should_update_opendata env w) = Ok false.
Proof.
  intros Hm. apply winter_month_false in Hm. rewrite time_at_0 in Hm.
  by rewrite should_update_opendata_off_season.
Qed.

Lemma off_season_public_never_due_witness :
  fst (run _should_update_opendata (env_ok (frozen jul_1200)) w_opendata)
  = Ok false.
Proof.
  apply (off_season_public_never_due (env_ok (frozen jul_1200)) w_opendata).
  apply winter_month_false. reflexivity.
Defined.

(** C6. In season, with a stored stamp: when the minute of the current
    time is below 5 and the stamp's hour differs from the current hour,
    [_should_update_opendata] answers true; no condition on the elapsed
    time is needed, so the rule wins over the 300 s / 3600 s intervals.
    (The season is read from one clock reading, minute and hour from the
    next.) *)
Theorem hour_boundary_forces_public_update (env : Env) (w : World)
    (last : datetime) :
  month (time_at env w 0) ∈ [12; 1; 2; 3] ->
  _last_opendata_update (self w) = Some last ->
  minute (time_at env w 1) < 5 ->
  hour last <> hour (time_at env w 1) ->
  fst (run _should_update_opendata env w) = Ok true.
Proof.
  intros Hm Hl Hmin Hh. apply winter_month_spec in Hm.
  rewrite time_at_0 in Hm. rewrite time_at_1 in Hmin, Hh.
  unfold _should_update_opendata, _is_winter_season. munfold. simpl.
  rewrite Hm. simpl. rewrite Hl. simpl.
  destruct (Z.ltb_spec (minute (toronto (clock env (S (reads w))))) 5);
    [|lia].
  destruct (Z.eqb_spec (hour last) (hour (toronto (clock env (S (reads w))))));
    [contradiction|].
  reflexivity.
Qed.

(** Stamp 09:58, now 10:02: 240 s elapsed, below both intervals, and the
    update is due all the same. *)
Lemma hour_boundary_forces_public_update_witness :
  total_seconds_ge jan_1002 jan_0958 300 = false /\
  total_seconds_ge jan_1002 jan_0958 3600 = false /\
  fst (run _should_update_opendata (env_ok (frozen jan_1002)) w_public_0958)
  = Ok true.
Proof.
  split; [reflexivity|]. split; [reflexivity|].
  apply (hour_boundary_forces_public_update
           (env_ok (frozen jan_1002)) w_public_0958 jan_0958).
  - apply winter_month_spec. reflexivity.
  - reflexivity.
  - reflexivity.
  - discriminate.
Defined.

(** C5 as stated fails: off season, with no stamp stored,
    [_should_update_opendata] answers false. *)
Lemma first_run_off_season_not_due :
  _last_opendata_update (self w_opendata) = None /\
  fst (run _should_update_opendata (env_ok (frozen jul_1200)) w_opendata)
  = Ok false.
Proof. split; reflexivity. Qed.

(** C5, amended. With no stamp stored, [_should_update_portal] answers true
    at every time, and [_should_update_opendata] answers true at every time
    in season (month 12, 1, 2 or 3); off season it answers false. *)
Theorem first_run_rule (env : Env) (w : World) :
  (_last_portal_update (self w) = None ->
   fst (run _should_update_portal env w) = Ok true) /\
  (_last_opendata_update (self w) = None ->
   (month (time_at env w 0) ∈ [12; 1; 2; 3] ->
    fst (run _should_update_opendata env w) = Ok true) /\
   (month (time_at env w 0) ∉ [12; 1; 2; 3] ->
    fst (run _should_update_opendata env w) = Ok false)).
Proof.
  split.
  - intros Hl. unfold _should_update_portal. munfold. simpl. by rewrite Hl.
  - intros Hl. split.
    + intros Hm. apply winter_month_spec in Hm. rewrite time_at_0 in Hm.
      unfold _should_update_opendata, _is_winter_season. munfold. simpl.
      rewrite Hm. simpl. by rewrite Hl.
    + intros Hm. apply winter_month_false in Hm. rewrite time_at_0 in Hm.
      by rewrite should_update_opendata_off_season.
Qed.

Lemma first_run_rule_witness :
  fst (run _should_update_portal (env_ok (frozen jan_0958)) w_portal) = Ok true /\
  fst (run _should_update_opendata (env_ok (frozen jan_0958)) w_portal) = Ok true.
Proof.
  split.
  - apply (proj1 (first_run_rule (env_ok (frozen jan_0958)) w_portal)).
    reflexivity.
  - apply (proj2 (first_run_rule (env_ok (frozen jan_0958)) w_portal)).
    + reflexivity.
    + apply winter_month_spec. reflexivity.
Defined.

(** ** Offline warning *)

(** What one evaluation of lines 290-297 does. *)
Lemma portal_offline_log_run (env : Env) (w : World) :
  let now := time_at env w 0 in
  run portal_offline_log env w =
  (Ok tt,
   if match _portal_last_offline_log (self w) with
      | None => true
      | Some last => total_seconds_ge now last 3600
      end
   then with_self (set__portal_last_offline_log (Some now))
          (with_logs (logs w ++ [offline_warning])
             (with_reads (S (reads w)) w))
   else with_reads (S (reads w)) w).
Proof.
  simpl. rewrite time_at_0. unfold portal_offline_log. munfold. simpl.
  by destruct (_portal_last_offline_log (self w)) as [l|];
    [destruct (total_seconds_ge _ l 3600)|].
Qed.

(** C8. The offline warning is written, and the current time recorded as
    the time of the last warning, exactly when no earlier warning time is
    recorded or at least 3600 s have passed since it; otherwise neither
    the log nor the recorded time changes.  In particular, starting with
    nothing recorded, a warning at [t0] is written, one 1800 s later is
    suppressed, and one 3601 s after [t0] is written again. *)
Theorem offline_backoff :
  (forall (env : Env) (w : World),
     let now := time_at env w 0 in
     let last := _portal_last_offline_log (self w) in
     let w' := snd (run portal_offline_log env w) in
     let due := last = None \/
                exists l, last = Some l /\ 3600 * 1000000 <= sub_us now l in
     fst (run portal_offline_log env w) = Ok tt /\
     (due -> logs w' = logs w ++ [offline_warning] /\
             _portal_last_offline_log (self w') = Some now) /\
     (~ due -> logs w' = logs w /\
               _portal_last_offline_log (self w') = last)) /\
  (forall (env0 env1 env2 : Env) (w : World),
     let w1 := snd (run portal_offline_log env0 w) in
     let w2 := snd (run portal_offline_log env1 w1) in
     let w3 := snd (run portal_offline_log env2 w2) in
     let t0 := time_at env0 w 0 in
     let t1 := time_at env1 w1 0 in
     let t2 := time_at env2 w2 0 in
     _portal_last_offline_log (self w) = None ->
     sub_us t1 t0 = 1800 * 1000000 ->
     sub_us t2 t0 = 3601 * 1000000 ->
     logs w1 = logs w ++ [offline_warning] /\
     logs w2 = logs w1 /\
     logs w3 = logs w2 ++ [offline_warning] /\
     _portal_last_offline_log (self w3) = Some t2).
Proof.
  split.
  - intros env w now last w' due. subst w'.
    rewrite portal_offline_log_run. fold now. fold last. simpl.
    split; [reflexivity|]. split.
    + intros [Hn | (l & Hl & Hge)].
      * rewrite Hn. done.
      * rewrite Hl. apply total_seconds_ge_spec in Hge. rewrite Hge. done.
    + intros Hnd. destruct last as [l|] eqn:Hl.
      * destruct (total_seconds_ge now l 3600) eqn:Hge; [|done].
        exfalso. apply Hnd. right. exists l. split; [done|].
        by apply total_seconds_ge_spec.
      * exfalso. apply Hnd. by left.
  - intros env0 env1 env2 w w1 w2 w3 t0 t1 t2 Hnone H1 H2.
    assert (E1 : w1 = with_self (set__portal_last_offline_log (Some t0))
                        (with_logs (logs w ++ [offline_warning])
                           (with_reads (S (reads w)) w))).
    { subst w1. rewrite portal_offline_log_run, Hnone. done. }
    assert (E2 : w2 = with_reads (S (reads w1)) w1).
    { subst w2. rewrite portal_offline_log_run. fold t1.
      rewrite E1 at 1. simpl.
      destruct (total_seconds_ge t1 t0 3600) eqn:Hge; [|done].
      apply total_seconds_ge_spec in Hge. lia. }
    assert (E3 : w3 = with_self (set__portal_last_offline_log (Some t2))
                        (with_logs (logs w2 ++ [offline_warning])
                           (with_reads (S (reads w2)) w2))).
    { subst w3. rewrite portal_offline_log_run. fold t2.
      rewrite E2 at 1. simpl.
      replace (_portal_last_offline_log (self w1)) with (Some t0)
        by (rewrite E1; done).
      destruct (total_seconds_ge t2 t0 3600) eqn:Hge; [done|].
      apply not_true_iff_false in Hge. rewrite total_seconds_ge_spec in Hge.
      lia. }
    rewrite E3, E2. simpl. rewrite E1. simpl. done.
Qed.

Lemma offline_backoff_witness :
  let w1 := snd (run portal_offline_log (env_ok (frozen jan_0958)) w_portal) in
  let w2 := snd (run portal_offline_log (env_ok (frozen jan_1028)) w1) in
  let w3 := snd (run portal_offline_log (env_ok (frozen jan_105801)) w2) in
  logs w1 = logs w_portal ++ [offline_warning] /\
  logs w2 = logs w1 /\
  logs w3 = logs w2 ++ [offline_warning] /\
  _portal_last_offline_log (self w3) = Some jan_105801.
Proof.
  apply (proj2 offline_backoff (env_ok (frozen jan_0958))
           (env_ok (frozen jan_1028)) (env_ok (frozen jan_105801)) w_portal);
    reflexivity.
Defined.

(** ** The blocks of [_async_update_data] *)

Ltac break_match :=
  match goal with
  | |- context [match ?x with _ => _ end] =>
      lazymatch x with
      | context [match _ with _ => _ end] => fail
      | _ => destruct x eqn:?
      end
  end.

Ltac break_all := repeat (break_match; simpl in *).

(** settles what the case analysis leaves open: values of type [unit],
    and booleans known through their negation *)
Ltac fix_cases :=
  repeat match goal with u : unit |- _ => destruct u end;
  repeat match goal with
         | H : negb ?a = _ |- _ => destruct a; simpl in H; try discriminate H
         end.

(** closes the conjunctions that remain once every case is fixed *)
Ltac close_cases :=
  repeat match goal with
         | |- _ /\ _ => split
         | |- is_Some _ => eexists; reflexivity
         | |- Forall _ _ => constructor
         end;
  done.

(** Lines 242-264 never raise; they assign at most the public stamp, the
    hour of the last peak refresh and the client's peak handler; the stamp
    is assigned only after [fetch_peak_data] has succeeded, and then it is
    a reading of the clock taken during this tick. *)
Lemma opendata_part_spec (env : Env) (w : World) :
  exists w', run opendata_part env w = (Ok tt, w') /\
    tasks w' = tasks w /\ (reads w <= reads w')%nat /\
    opendata_frame (self w) (self w') /\
    (_last_opendata_update (self w') = _last_opendata_update (self w) \/
     fetch_peak_data_result env = Ok tt /\
     calls w' = calls w ++ [fetch_peak_data] /\
     exists n, (reads w <= n < reads w')%nat /\
       _last_opendata_update (self w') = Some (toronto (clock env n))).
Proof.
  destruct w as [c ts rd lg cl]. destruct c.
  unfold opendata_part, opendata_block, _should_update_opendata,
    _is_winter_season, _is_opendata_active_window, await_fetch_peak_data,
    opendata_frame.
  munfold. simpl.
  break_all; fix_cases;
    (eexists; split; [reflexivity|]; simpl;
     split; [reflexivity|]; split; [lia|]; split; [reflexivity|];
     first [ left; reflexivity
           | right; split; [done|]; split;
             [ reflexivity | eexists; split; [|reflexivity]; lia ] ]).
Qed.

(** Lines 266-275 never raise and read no clock.  Either nothing is
    started and handle and recorded count are kept, or one running
    calendar task is appended to the loop, the handle names it and the
    recorded count becomes the observed one; the latter only when the
    observed count differs from the recorded one. *)
Lemma calendar_block_spec (env : Env) (w : World) :
  exists w', run calendar_block env w = (Ok tt, w') /\
    reads w' = reads w /\ calls w' = calls w /\
    calendar_frame (self w) (self w') /\
    (tasks w' = tasks w /\
     _calendar_sync_task (self w') = _calendar_sync_task (self w) /\
     _last_peak_events_count (self w') = _last_peak_events_count (self w)
     \/
     tasks w' = tasks w ++ [mk_Task calendar_sync Running] /\
     _calendar_sync_task (self w') = Some (length (tasks w)) /\
     calendar_free w /\
     exists ph, peak_handler (self w) = Some ph /\
       _last_peak_events_count (self w') = Z.of_nat (length (_events ph)) /\
       Z.of_nat (length (_events ph)) <> _last_peak_events_count (self w)).
Proof.
  destruct w as [c ts rd lg cl]. destruct c.
  unfold calendar_block, calendar_frame, calendar_free. munfold. simpl.
  break_all;
    (eexists; split; [reflexivity|]; simpl;
     split; [reflexivity|]; split; [reflexivity|]; split; [reflexivity|];
     first [ left; done
           | right; split; [done|]; split; [done|];
             split;
             [ try match goal with
                   | H : bool_decide _ = true |- _ =>
                       apply bool_decide_eq_true in H
                   end; done |];
             eexists; split; [done|]; split; [done|];
             match goal with
             | H : negb (_ =? _) = true |- _ =>
                 apply negb_true_iff, Z.eqb_neq in H; exact H
             end ]).
Qed.

(** A calendar synchronisation is still running and the observed count
    differs from the recorded one: nothing is started, nothing recorded. *)
Lemma calendar_block_busy (env : Env) (w : World) (ph : PeakHandler) (t : nat) :
  truthy_str (_calendar_entity_id (self w)) = true ->
  peak_handler (self w) = Some ph ->
  Z.of_nat (length (_events ph)) <> _last_peak_events_count (self w) ->
  _calendar_sync_task (self w) = Some t ->
  tasks w !! t = Some (mk_Task calendar_sync Running) ->
  run calendar_block env w =
  (Ok tt,
   with_logs (logs w ++ [(DEBUG, "Calendar sync already in progress, skipping")]) w).
Proof.
  intros Hid Hph Hne Hh Ht.
  unfold calendar_block. munfold. simpl.
  rewrite Hid, Hph. apply Z.eqb_neq in Hne. rewrite Hne. simpl.
  rewrite Hh, Ht. reflexivity.
Qed.

(** No calendar synchronisation is running and the observed count differs
    from the recorded one: a task is started and the count recorded. *)
Lemma calendar_block_start (env : Env) (w : World) (ph : PeakHandler) :
  truthy_str (_calendar_entity_id (self w)) = true ->
  peak_handler (self w) = Some ph ->
  Z.of_nat (length (_events ph)) <> _last_peak_events_count (self w) ->
  (_calendar_sync_task (self w) = None \/
   exists t tk, _calendar_sync_task (self w) = Some t /\
     tasks w !! t = Some tk /\ task_state tk = Done) ->
  exists w', run calendar_block env w = (Ok tt, w') /\
    tasks w' = tasks w ++ [mk_Task calendar_sync Running] /\
    _calendar_sync_task (self w') = Some (length (tasks w)) /\
    _last_peak_events_count (self w') = Z.of_nat (length (_events ph)).
Proof.
  intros Hid Hph Hne Hfree.
  unfold calendar_block. munfold. simpl.
  rewrite Hid, Hph. apply Z.eqb_neq in Hne. rewrite Hne. simpl.
  destruct Hfree as [Hn | (t & tk & Hh & Ht & Hd)].
  - rewrite Hn. simpl. eexists. split; [reflexivity|]. done.
  - rewrite Hh, Ht, Hd. simpl. eexists. split; [reflexivity|]. done.
Qed.

(** [_should_update_portal] never raises and only reads the clock. *)
Lemma should_update_portal_run (env : Env) (w : World) :
  exists b n, run _should_update_portal env w = (Ok b, with_reads n w) /\
    (reads w <= n)%nat.
Proof.
  destruct w as [c ts rd lg cl].
  unfold _should_update_portal, _is_portal_active_window. munfold. simpl.
  break_all; eexists _, _; (split; [reflexivity|simpl; lia]).
Qed.

(** The body of the [try] (lines 285-352), outcome by outcome. *)
Lemma portal_try_spec (d : Snapshot) (env : Env) (w : World) :
  let '(r, w') := run (portal_try d) env w in
  portal_frame (self w) (self w') /\ tasks w' = tasks w /\
  (reads w <= reads w')%nat /\
  match r with
  | Ok (Next d') =>
      _webuser (self w) = None /\ d' = d /\ w' = w
      \/
      is_Some (_webuser (self w)) /\
      check_hq_portal_status_result env = Ok true /\
      Forall (fun c => call_result env c = Ok tt) base_chain /\
      d' = mk_Snapshot (_contract (self w')) (_account (self w'))
             (_customer (self w')) /\
      is_Some (_contract (self w')) /\
      _last_portal_update (self w') = Some (toronto (clock env (reads w))) /\
      reads w' = S (reads w)
  | Ok (Return d') =>
      d' = d /\ is_Some (_webuser (self w)) /\
      check_hq_portal_status_result env = Ok false /\
      _customer (self w') = _customer (self w) /\
      _account (self w') = _account (self w) /\
      _contract (self w') = _contract (self w) /\
      _last_portal_update (self w') = _last_portal_update (self w)
  | Raise e =>
      _last_portal_update (self w') = _last_portal_update (self w)
  end.
Proof.
  destruct w as [c ts rd lg cl]. destruct c.
  unfold portal_try, portal_offline_log, rate_specific, portal_frame,
    base_chain.
  munfold. simpl.
  break_all; fix_cases;
    (split; [reflexivity|]; split; [reflexivity|]; split; [lia|]);
    first [ reflexivity | left; done | right | idtac ];
    close_cases.
Qed.

(** The body of the [try] raises nothing of its own: what it raises is
    what a capability call raised. *)
Lemma portal_try_raise_origin (d : Snapshot) (env : Env) (w : World) :
  match fst (run (portal_try d) env w) with
  | Raise e => raised_by_capability env (self w) e
  | Ok _ => True
  end.
Proof.
  destruct w as [c ts rd lg cl]. destruct c.
  unfold portal_try, portal_offline_log, rate_specific, raised_by_capability.
  munfold. simpl.
  break_all; try exact I;
    first [ left; reflexivity
          | right; left; done
          | right; right; left; eexists; eassumption
          | right; right; right; left; eexists; eassumption
          | right; right; right; right; eexists; eassumption ].
Qed.

Lemma portal_except_run (e : Exn) (env : Env) (w : World) :
  run (portal_except e) env w =
  (Raise (failure_of e), with_logs (logs w ++ [failure_log e]) w).
Proof. by destruct e. Qed.

(** Lines 282-361, outcome by outcome. *)
Lemma portal_block_spec (d : Snapshot) (env : Env) (w : World) :
  let due := fst (run _should_update_portal env w) = Ok true in
  let out :=
    fst (run (portal_try d) env (snd (run _should_update_portal env w))) in
  let '(r, w') := run (portal_block d) env w in
  portal_frame (self w) (self w') /\ tasks w' = tasks w /\
  (reads w <= reads w')%nat /\
  match r with
  | Ok (Next d') =>
      fst (run _should_update_portal env w) = Ok false /\ d' = d /\
      self w' = self w
      \/
      due /\ out = Ok (Next d') /\
      _webuser (self w) = None /\ d' = d /\ self w' = self w
      \/
      due /\ out = Ok (Next d') /\ is_Some (_webuser (self w)) /\
      check_hq_portal_status_result env = Ok true /\
      Forall (fun c => call_result env c = Ok tt) base_chain /\
      d' = mk_Snapshot (_contract (self w')) (_account (self w'))
             (_customer (self w')) /\
      is_Some (_contract (self w')) /\
      exists n, (reads w <= n < reads w')%nat /\
        _last_portal_update (self w') = Some (toronto (clock env n))
  | Ok (Return d') =>
      due /\ out = Ok (Return d') /\ d' = d /\ is_Some (_webuser (self w)) /\
      check_hq_portal_status_result env = Ok false /\
      _customer (self w') = _customer (self w) /\
      _account (self w') = _account (self w) /\
      _contract (self w') = _contract (self w) /\
      _last_portal_update (self w') = _last_portal_update (self w)
  | Raise x =>
      due /\
      exists e,
        out = Raise e /\
        x = failure_of e /\ last (logs w') = Some (failure_log e) /\
        _last_portal_update (self w') = _last_portal_update (self w)
  end.
Proof.
  intros due out. subst due out.
  destruct (should_update_portal_run env w) as (b & n & Hrun & Hn).
  unfold portal_block, run, bind, try_except.
  unfold run in Hrun. rewrite Hrun. simpl.
  destruct b.
  - pose proof (portal_try_spec d env (with_reads n w)) as Hspec.
    unfold run in Hspec.
    destruct (portal_try d env (with_reads n w)) as [[[d'|d']|e] w3]; simpl in *.
    + destruct Hspec as (Hf & Ht & Hr & Hret). repeat split; try done; try lia.
      all: tauto.
    + destruct Hspec as (Hf & Ht & Hr & Hnext). repeat split; try done; try lia.
      destruct Hnext as [(Hw & Hd & Hw3) | (Hw & Hs & Hc & Hd & Hk & Hl & Hrd)].
      * right. left. subst w3. done.
      * right. right. repeat split; try done.
        exists n. split; [lia|done].
    + destruct Hspec as (Hf & Ht & Hr & Hl).
      pose proof (portal_except_run e env w3) as He. unfold run in He.
      rewrite He. simpl. repeat split; try done; try lia.
      exists e. repeat split; try done. by rewrite last_snoc.
  - unfold log, ret. simpl. destruct w as [c ts rd lg cl]. destruct c.
    unfold portal_frame. simpl in *. repeat split; try done.
    left. done.
Qed.

(** Lines 363-387 never raise: the completion time is recorded, and a
    consumption synchronisation may be started. *)
Lemma finish_block_spec (env : Env) (w : World) :
  exists w', run finish_block env w = (Ok tt, w') /\
    finish_frame (self w) (self w') /\
    last_update_success_time (self w') = Some (utc (clock env (reads w))) /\
    (reads w < reads w')%nat /\
    (tasks w' = tasks w \/
     tasks w' = tasks w ++ [mk_Task consumption_sync Running]).
Proof.
  destruct w as [c ts rd lg cl]. destruct c.
  unfold finish_block, finish_frame. munfold. simpl.
  break_all; (eexists; split; [reflexivity|]; simpl;
    split; [reflexivity|]; split; [reflexivity|]; split; [lia|]);
    first [ left; reflexivity | right; reflexivity ].
Qed.

(** The test of lines 372-387 does not look at the task attribute: when
    the mode is portal, a contract is cached, the synchronisation is
    enabled and no sync is recorded or 3600 s have passed since the
    recorded one, a new consumption task is started. *)
Lemma finish_block_starts (env : Env) (w : World) :
  is_portal_mode (self w) = true ->
  is_Some (_contract (self w)) ->
  enable_consumption_sync (self w) = true ->
  match _last_consumption_sync (self w) with
  | None => True
  | Some last => 3600 * 1000000 <= sub_us (time_at env w 1) last
  end ->
  exists w', run finish_block env w = (Ok tt, w') /\
    tasks w' = tasks w ++ [mk_Task consumption_sync Running] /\
    _regular_sync_task (self w') = Some (length (tasks w)).
Proof.
  intros Hm [k Hk] He Hl. rewrite time_at_1 in Hl.
  unfold finish_block. munfold. simpl.
  unfold is_portal_mode, enable_consumption_sync in *. simpl.
  rewrite Hm, Hk, He. simpl.
  destruct (_last_consumption_sync (self w)) as [l|].
  - apply total_seconds_ge_spec in Hl. rewrite Hl.
    eexists. split; [reflexivity|]. done.
  - eexists. split; [reflexivity|]. done.
Qed.

(** ** The tick as a whole *)

(** The shape of [_async_update_data] once the two public blocks have run. *)
Lemma tick_unfold (env : Env) (w w1 w2 : World) :
  run opendata_part env w = (Ok tt, w1) ->
  run calendar_block env w1 = (Ok tt, w2) ->
  at_calendar env w = w1 /\ at_portal env w = w2 /\
  run _async_update_data env w =
  if is_opendata_mode (self w2) then
    (Ok empty_data,
     with_logs (logs w2 ++ [(DEBUG, "OpenData mode: skipping portal data fetch")]) w2)
  else
    match run (portal_block empty_data) env w2 with
    | (Ok (Return d), w3) => (Ok d, w3)
    | (Ok (Next d), w3) =>
        match run finish_block env w3 with
        | (Ok _, w4) => (Ok d, w4)
        | (Raise e, w4) => (Raise e, w4)
        end
    | (Raise e, w3) => (Raise e, w3)
    end.
Proof.
  intros E1 E2. unfold at_calendar, at_portal, _async_update_data.
  unfold run, bind in *. rewrite E1. simpl. rewrite E2. simpl.
  split; [done|]. split; [done|].
  unfold get_self. destruct (is_opendata_mode (self w2)); [done|].
  destruct (portal_block empty_data env w2) as [[[d|d]|e] w3]; done.
Qed.

Lemma async_refresh_run (env : Env) (w : World) :
  run async_refresh env w =
  match run _async_update_data env w with
  | (Ok d, w') => (Ok tt, with_self (set_data (Some d)) w')
  | (Raise _, w') => (Ok tt, w')
  end.
Proof.
  unfold async_refresh, run, try_except, bind.
  by destruct (_async_update_data env w) as [[d|e] w'].
Qed.

(** rewriting with a frame equation, then computing the projection *)
Ltac by_frame H := rewrite H; reflexivity.

(** The world in which the authenticated section is reached, compared with
    the world at the start of the tick. *)
Lemma at_portal_spec (env : Env) (w : World) :
  exists w1 w2,
    run opendata_part env w = (Ok tt, w1) /\
    run calendar_block env w1 = (Ok tt, w2) /\
    at_calendar env w = w1 /\ at_portal env w = w2 /\
    entry (self w2) = entry (self w) /\
    _webuser (self w2) = _webuser (self w) /\
    _customer (self w2) = _customer (self w) /\
    _account (self w2) = _account (self w) /\
    _contract (self w2) = _contract (self w) /\
    _last_portal_update (self w2) = _last_portal_update (self w) /\
    last_update_success_time (self w2) = last_update_success_time (self w) /\
    data (self w2) = data (self w) /\
    (reads w <= reads w2)%nat.
Proof.
  destruct (opendata_part_spec env w) as (w1 & E1 & T1 & R1 & F1 & _).
  destruct (calendar_block_spec env w1) as (w2 & E2 & R2 & _ & F2 & _).
  destruct (tick_unfold env w w1 w2 E1 E2) as (A1 & A2 & _).
  unfold opendata_frame in F1. unfold calendar_frame in F2.
  exists w1, w2. repeat split; try done; try lia.
  all: rewrite F2; simpl; by_frame F1.
Qed.

Lemma is_opendata_mode_entry (c c' : Coordinator) :
  entry c' = entry c -> is_opendata_mode c' = is_opendata_mode c.
Proof. unfold is_opendata_mode. by intros ->. Qed.

Lemma portal_mode_not_opendata (c : Coordinator) :
  is_portal_mode c = true -> is_opendata_mode c = false.
Proof.
  unfold is_portal_mode, is_opendata_mode. by destruct (_auth_mode (entry c)).
Qed.

(** Every way one execution of [_async_update_data] can end. *)
Lemma tick_spec (env : Env) (w : World) :
  let '(r, w') := run _async_update_data env w in
  let recorded :=
    exists n, (reads w <= n < reads w')%nat /\
      last_update_success_time (self w') = Some (utc (clock env n)) in
  let kept :=
    _customer (self w') = _customer (self w) /\
    _account (self w') = _account (self w) /\
    _contract (self w') = _contract (self w) /\
    _last_portal_update (self w') = _last_portal_update (self w) in
  let unrecorded :=
    last_update_success_time (self w') = last_update_success_time (self w) in
  data (self w') = data (self w) /\
  match r with
  | Ok d =>
      is_opendata_mode (self w) = true /\ d = empty_data /\ kept /\ unrecorded
      \/
      is_opendata_mode (self w) = false /\ portal_skipped env w /\
      d = empty_data /\ kept /\ recorded
      \/
      is_opendata_mode (self w) = false /\ portal_due env w /\
      chain_outcome env w = Ok (Next d) /\
      _webuser (self w) = None /\ d = empty_data /\ kept /\ recorded
      \/
      is_opendata_mode (self w) = false /\ portal_found_offline env w /\
      chain_outcome env w = Ok (Return d) /\
      d = empty_data /\ kept /\ unrecorded
      \/
      is_opendata_mode (self w) = false /\ portal_due env w /\
      chain_outcome env w = Ok (Next d) /\
      is_Some (_webuser (self w)) /\
      check_hq_portal_status_result env = Ok true /\
      Forall (fun c => call_result env c = Ok tt) base_chain /\
      d = mk_Snapshot (_contract (self w')) (_account (self w'))
            (_customer (self w')) /\
      is_Some (contract d) /\
      (exists n, (reads w <= n < reads w')%nat /\
         _last_portal_update (self w') = Some (toronto (clock env n))) /\
      recorded
  | Raise x =>
      is_opendata_mode (self w) = false /\
      exists e, chain_raises env w e /\ x = failure_of e /\
        last (logs w') = Some (failure_log e) /\
        _last_portal_update (self w') = _last_portal_update (self w) /\
        unrecorded
  end.
Proof.
  destruct (at_portal_spec env w)
    as (w1 & w2 & E1 & E2 & A1 & A2 & He & Hw & Hcu & Hac & Hco & Hl & Hs & Hd & Hr).
  destruct (tick_unfold env w w1 w2 E1 E2) as (_ & _ & ->).
  rewrite (is_opendata_mode_entry _ _ He).
  unfold portal_skipped, portal_due, portal_found_offline, chain_raises,
    chain_outcome, at_try.
  rewrite A2.
  destruct (is_opendata_mode (self w)) eqn:Hmode.
  { simpl. split; [done|]. left. done. }
  pose proof (portal_block_spec empty_data env w2) as Hp. simpl in Hp.
  destruct (run (portal_block empty_data) env w2) as [[[d|d]|x] w3].
  - (* return data: the portal is offline *)
    destruct Hp
      as (F & T & R & Hdue & Hout & -> & Hweb & Hst & Kcu & Kac & Kco & Kl).
    unfold portal_frame in F. simpl.
    split; [rewrite F; simpl; done|].
    right. right. right. left.
    rewrite Hw in Hweb. repeat split; try done; try congruence.
    rewrite F. simpl. done.
  - (* the portal block runs through *)
    destruct Hp as (F & T & R & Hcase). unfold portal_frame in F.
    destruct (finish_block_spec env w3) as (w4 & E4 & F4 & S4 & R4 & T4).
    rewrite E4. unfold finish_frame in F4. simpl.
    assert (Hdata : data (self w4) = data (self w)).
    { rewrite F4. simpl. rewrite F. simpl. done. }
    assert (Hrec : exists n, (reads w <= n < reads w4)%nat /\
              last_update_success_time (self w4) = Some (utc (clock env n))).
    { exists (reads w3). split; [lia|done]. }
    assert (K4 : _customer (self w4) = _customer (self w3) /\
                 _account (self w4) = _account (self w3) /\
                 _contract (self w4) = _contract (self w3) /\
                 _last_portal_update (self w4) = _last_portal_update (self w3)).
    { repeat split; by_frame F4. }
    destruct K4 as (K4cu & K4ac & K4co & K4l).
    split; [done|].
    destruct Hcase as [(Hskip & -> & Hself)
      | [(Hdue & Hout & Hnone & -> & Hself)
      | (Hdue & Hout & Hweb & Hst & Hch & -> & Hk & n & Hn & Hlp)]].
    + right. left. rewrite K4cu, K4ac, K4co, K4l, Hself.
      repeat split; done.
    + right. right. left. rewrite K4cu, K4ac, K4co, K4l, Hself.
      rewrite Hw in Hnone. repeat split; done.
    + right. right. right. right.
      rewrite Hw in Hweb. rewrite K4cu, K4ac, K4co, K4l.
      repeat split; try done.
      exists n. split; [lia|done].
  - (* the try raises *)
    destruct Hp as (F & T & R & Hdue & e & Hraise & -> & Hlog & Kl).
    unfold portal_frame in F. simpl.
    split; [rewrite F; simpl; done|].
    split; [done|]. exists e. repeat split; try done; try congruence.
    rewrite F. simpl. done.
Qed.

(** With a web user and the portal reported down, the body of the [try]
    ends in [return data]. *)
Lemma portal_try_offline (d : Snapshot) (env : Env) (w : World) :
  is_Some (_webuser (self w)) ->
  check_hq_portal_status_result env = Ok false ->
  fst (run (portal_try d) env w) = Ok (Return d).
Proof.
  intros [u Hu] Hst.
  unfold portal_try, portal_offline_log. munfold. simpl.
  rewrite Hu, Hst. simpl.
  by destruct (_portal_last_offline_log (self w)) as [l|];
    [destruct (total_seconds_ge _ l 3600)|].
Qed.

Lemma at_try_webuser (env : Env) (w : World) :
  _webuser (self (at_try env w)) = _webuser (self w).
Proof.
  unfold at_try.
  destruct (should_update_portal_run env (at_portal env w)) as (b & n & -> & _).
  destruct (at_portal_spec env w)
    as (w1 & w2 & _ & _ & _ & -> & _ & Hw & _).
  done.
Qed.

Lemma at_try_entry (env : Env) (w : World) :
  entry (self (at_try env w)) = entry (self w).
Proof.
  unfold at_try.
  destruct (should_update_portal_run env (at_portal env w)) as (b & n & -> & _).
  destruct (at_portal_spec env w) as (w1 & w2 & _ & _ & _ & -> & He & _).
  done.
Qed.

(** When the body of the [try] raises on a tick, a capability call of
    that tick raised it. *)
Lemma chain_raises_origin (env : Env) (w : World) (e : Exn) :
  chain_raises env w e -> raised_by_capability env (self w) e.
Proof.
  intros (_ & Hout). unfold chain_outcome in Hout.
  pose proof (portal_try_raise_origin empty_data env (at_try env w)) as Ho.
  rewrite Hout in Ho. unfold raised_by_capability in *.
  by rewrite at_try_entry in Ho.
Qed.

(** ** Snapshot and authenticated fields *)

(** C1 as stated fails.  After a first refresh that published contract,
    account and customer, a tick on which the portal update is skipped,
    and likewise a tick on which the portal is reported down, publishes a
    snapshot whose three authenticated fields are null. *)
Lemma stale_tick_publishes_null :
  is_portal_mode (self w_first) = true /\
  data (self w_first) = Some first_data /\
  portal_skipped (env_ok (frozen jan_1003)) w_first /\
  data (self (snd (run async_refresh (env_ok (frozen jan_1003)) w_first)))
  = Some empty_data /\
  portal_found_offline (env_offline (frozen jan_1300)) w_first /\
  data (self (snd (run async_refresh (env_offline (frozen jan_1300)) w_first)))
  = Some empty_data.
Proof.
  repeat split; try (vm_compute; reflexivity). eexists. reflexivity.
Qed.

(** C1, amended. In portal mode, on a tick where the portal update is
    skipped (not yet due) or the portal is reported unavailable,
    [_async_update_data] returns the fresh snapshot with which it started,
    contract, account and customer all null, and that is what is
    published; the values fetched earlier stay, unchanged, only in the
    coordinator's own [_contract], [_account] and [_customer]. *)
Theorem stale_tick_publishes_empty_snapshot (env : Env) (w : World) :
  is_portal_mode (self w) = true ->
  portal_skipped env w \/ portal_found_offline env w ->
  exists w', run _async_update_data env w = (Ok empty_data, w') /\
    _contract (self w') = _contract (self w) /\
    _account (self w') = _account (self w) /\
    _customer (self w') = _customer (self w) /\
    data (self (snd (run async_refresh env w))) = Some empty_data.
Proof.
  intros Hmode Hstale. apply portal_mode_not_opendata in Hmode.
  pose proof (tick_spec env w) as Hspec. rewrite async_refresh_run.
  destruct (run _async_update_data env w) as [[d|x] w']; simpl in Hspec.
  - destruct Hspec as (_ & [Ha | [Hb | [Hc | [Hd | He]]]]).
    + destruct Ha as (Ha & _). congruence.
    + destruct Hb as (_ & _ & -> & (? & ? & ? & ?) & _).
      exists w'. done.
    + destruct Hc as (_ & Hdue & _ & Hnone & _). exfalso.
      destruct Hstale as [Hskip | (_ & [u Hu] & _)].
      * unfold portal_skipped, portal_due in *. congruence.
      * congruence.
    + destruct Hd as (_ & _ & _ & -> & (? & ? & ? & ?) & _).
      exists w'. done.
    + destruct He as (_ & Hdue & _ & _ & Hst & _). exfalso.
      destruct Hstale as [Hskip | (_ & _ & Hoff)].
      * unfold portal_skipped, portal_due in *. congruence.
      * congruence.
  - destruct Hspec as (_ & _ & e & (Hdue & Hout) & _). exfalso.
    destruct Hstale as [Hskip | (_ & Hweb & Hoff)].
    + unfold portal_skipped, portal_due in *. congruence.
    + unfold chain_outcome in Hout.
      rewrite <- (at_try_webuser env w) in Hweb.
      rewrite (portal_try_offline _ _ _ Hweb Hoff) in Hout. discriminate.
Qed.

Lemma stale_tick_publishes_empty_snapshot_witness :
  exists w',
    run _async_update_data (env_ok (frozen jan_1003)) w_first
    = (Ok empty_data, w') /\
    _contract (self w') = Some the_contract /\
    _account (self w') = Some the_account /\
    _customer (self w') = Some the_customer /\
    data (self (snd (run async_refresh (env_ok (frozen jan_1003)) w_first)))
    = Some empty_data.
Proof.
  apply (stale_tick_publishes_empty_snapshot (env_ok (frozen jan_1003)) w_first).
  - reflexivity.
  - left. reflexivity.
Defined.

(** C2. When the authenticated update is due and a step of the body of
    the [try] raises [e] (the status check, the login, the hierarchy, the
    periods, the outages or a rate-specific call), the tick ends in
    [UpdateFailed], with the message and the error record of the
    transport class when [e] is a [HydroQcHTTPError] and those of the
    other class otherwise; the portal stamp is what it was before the
    tick, and so is the snapshot observers read, during the tick and
    after the host has handled the failure. *)
Theorem failed_chain_leaves_snapshot (env : Env) (w : World) (e : Exn) :
  is_portal_mode (self w) = true ->
  chain_raises env w e ->
  exists w', run _async_update_data env w = (Raise (failure_of e), w') /\
    last (logs w') = Some (failure_log e) /\
    _last_portal_update (self w') = _last_portal_update (self w) /\
    data (self w') = data (self w) /\
    data (self (snd (run async_refresh env w))) = data (self w) /\
    _last_portal_update (self (snd (run async_refresh env w)))
    = _last_portal_update (self w).
Proof.
  intros Hmode (Hdue & Hout). apply portal_mode_not_opendata in Hmode.
  pose proof (tick_spec env w) as Hspec. rewrite async_refresh_run.
  destruct (run _async_update_data env w) as [[d|x] w']; simpl in Hspec.
  - exfalso.
    destruct Hspec as (_ & [Ha | [Hb | [Hc | [Hd | He]]]]).
    + destruct Ha as (Ha & _). congruence.
    + destruct Hb as (_ & Hskip & _).
      unfold portal_skipped, portal_due in *. congruence.
    + destruct Hc as (_ & _ & Ho & _). congruence.
    + destruct Hd as (_ & _ & Ho & _). congruence.
    + destruct He as (_ & _ & Ho & _). congruence.
  - destruct Hspec as (Hdata & _ & e' & (_ & Hout') & -> & Hlog & Hl & _).
    assert (e' = e) as -> by congruence.
    exists w'. done.
Qed.

(** The outage refresh fails with an HTTP error three hours after a first
    successful refresh: the contract had already been fetched again, yet
    stamp and published snapshot are those of 09:58. *)
Lemma failed_chain_leaves_snapshot_witness :
  let env := env_failing (frozen jan_1300) refresh_outages
               (HydroQcHTTPError "503") in
  exists w',
    run _async_update_data env w_first
    = (Raise (UpdateFailed "Error fetching Hydro-Québec data: 503"), w') /\
    last (logs w')
    = Some (ERROR, "HTTP error fetching Hydro-Québec data: %s") /\
    _last_portal_update (self w') = Some jan_0958 /\
    data (self w') = Some first_data /\
    data (self (snd (run async_refresh env w_first))) = Some first_data /\
    _last_portal_update (self (snd (run async_refresh env w_first)))
    = Some jan_0958.
Proof.
  apply (failed_chain_leaves_snapshot
           (env_failing (frozen jan_1300) refresh_outages
              (HydroQcHTTPError "503"))
           w_first (HydroQcHTTPError "503")).
  - reflexivity.
  - split; vm_compute; reflexivity.
Defined.

(** The coordinator's own attributes are another matter: on the very
    first tick, with the outage refresh failing, customer, account and
    contract have been assigned by the time the exception is raised,
    while nothing is published and no stamp is set. *)
Example failed_chain_assigns_private_attributes :
  let env := env_failing (frozen jan_0958) refresh_outages
               (OtherException "timeout") in
  let w' := snd (run async_refresh env w_portal) in
  _contract (self w_portal) = None /\
  _contract (self w') = Some the_contract /\
  _account (self w') = Some the_account /\
  _customer (self w') = Some the_customer /\
  data (self w') = None /\
  _last_portal_update (self w') = None.
Proof. repeat split; vm_compute; reflexivity. Qed.

(** ** Completion of a tick *)

(** C4 as stated fails.  A tick on which the portal is found unavailable
    returns its snapshot, which is published, but the completion time is
    not recorded; neither is it on a tick in public-data-only mode. *)
Lemma early_return_records_no_completion_time :
  portal_found_offline (env_offline (frozen jan_0958)) w_portal /\
  fst (run _async_update_data (env_offline (frozen jan_0958)) w_portal)
  = Ok empty_data /\
  last_update_success_time
    (self (snd (run async_refresh (env_offline (frozen jan_0958)) w_portal)))
  = None /\
  fst (run _async_update_data (env_ok (frozen jan_0958)) w_opendata)
  = Ok empty_data /\
  last_update_success_time
    (self (snd (run async_refresh (env_ok (frozen jan_0958)) w_opendata)))
  = None.
Proof.
  repeat split; try (vm_compute; reflexivity). eexists. reflexivity.
Qed.

(** C4, amended. Every tick that does not abort with a tick-level failure
    has its snapshot published.  The completion time is recorded on such a
    tick when the mode is not public-data-only and the portal was not
    found unavailable (the portal update was skipped as not due, or ran to
    success); a tick in public-data-only mode and a tick on which the
    portal is found unavailable return before that statement and leave
    the completion time as it was. *)
Theorem completed_tick_published (env : Env) (w w' : World) (d : Snapshot) :
  run _async_update_data env w = (Ok d, w') ->
  data (self (snd (run async_refresh env w))) = Some d /\
  (is_opendata_mode (self w) = true \/ portal_found_offline env w ->
   last_update_success_time (self w') = last_update_success_time (self w)) /\
  (is_opendata_mode (self w) = false -> ~ portal_found_offline env w ->
   exists n, (reads w <= n < reads w')%nat /\
     last_update_success_time (self w') = Some (utc (clock env n))).
Proof.
  intros Hrun. pose proof (tick_spec env w) as Hspec.
  rewrite async_refresh_run, Hrun in *. simpl in Hspec.
  destruct Hspec as (_ & Hcases).
  split; [done|].
  destruct Hcases as [Ha | [Hb | [Hc | [Hd | He]]]].
  - destruct Ha as (Hm & _ & _ & Hun). split.
    + done.
    + congruence.
  - destruct Hb as (Hm & Hskip & _ & _ & Hrec). split; [|done].
    intros [Ho | (Hdue & _)]; [congruence|].
    unfold portal_skipped, portal_due in *. congruence.
  - destruct Hc as (Hm & _ & _ & Hnone & _ & _ & Hrec). split; [|done].
    intros [Ho | (_ & [u Hu] & _)]; congruence.
  - destruct Hd as (Hm & Hoff & _ & _ & _ & Hun). split; done.
  - destruct He as (Hm & _ & _ & _ & Hst & _ & _ & _ & _ & Hrec).
    split; [|done].
    intros [Ho | (_ & _ & Hoff)]; congruence.
Qed.

Lemma completed_tick_published_witness :
  data (self (snd (run async_refresh (env_ok (frozen jan_1003)) w_first)))
  = Some empty_data /\
  exists n, (reads w_first <= n)%nat /\
    last_update_success_time
      (self (snd (run _async_update_data (env_ok (frozen jan_1003)) w_first)))
    = Some (utc (clock (env_ok (frozen jan_1003)) n)).
Proof.
  destruct (completed_tick_published (env_ok (frozen jan_1003)) w_first
              (snd (run _async_update_data (env_ok (frozen jan_1003)) w_first))
              empty_data) as (Hpub & _ & Hrec).
  - vm_compute. reflexivity.
  - split; [exact Hpub|].
    destruct Hrec as (n & Hn & Hs).
    + reflexivity.
    + intros (Hdue & _). vm_compute in Hdue. discriminate.
    + exists n. split; [lia|exact Hs].
Defined.

(** ** Stamps of the two sources *)

Lemma finish_frame_refl (c : Coordinator) : finish_frame c c.
Proof. by destruct c. Qed.

(** From the point where the authenticated section is reached to the end
    of the tick, only the attributes of the portal block and of the final
    block can change, and at most one consumption task is added. *)
Lemma tick_tail (env : Env) (w : World) :
  let w2 := at_portal env w in
  let w' := snd (run _async_update_data env w) in
  exists c3, portal_frame (self w2) c3 /\ finish_frame c3 (self w') /\
    (tasks w' = tasks w2 \/
     tasks w' = tasks w2 ++ [mk_Task consumption_sync Running]) /\
    (reads w2 <= reads w')%nat.
Proof.
  destruct (at_portal_spec env w) as (w1 & w2 & E1 & E2 & _ & A2 & _).
  destruct (tick_unfold env w w1 w2 E1 E2) as (_ & _ & ->).
  rewrite A2. simpl.
  destruct (is_opendata_mode (self w2)).
  { exists (self w2). simpl. split; [by destruct (self w2)|].
    split; [apply finish_frame_refl|]. split; [by left|lia]. }
  pose proof (portal_block_spec empty_data env w2) as Hp. simpl in Hp.
  destruct (run (portal_block empty_data) env w2) as [[[d|d]|x] w3].
  - destruct Hp as (F & T & R & _). exists (self w3). simpl.
    split; [done|]. split; [apply finish_frame_refl|]. split; [by left|lia].
  - destruct Hp as (F & T & R & _).
    destruct (finish_block_spec env w3) as (w4 & -> & F4 & _ & R4 & T4).
    exists (self w3). simpl. split; [done|]. split; [done|].
    rewrite <- T. split; [done|lia].
  - destruct Hp as (F & T & R & _). exists (self w3). simpl.
    split; [done|]. split; [apply finish_frame_refl|]. split; [by left|lia].
Qed.

Lemma sub_us_refl (l : datetime) : sub_us l l = 0.
Proof. unfold sub_us. lia. Qed.

(** C9. Over one tick, for each of the two sources: the stamp either
    stays as it was or becomes a reading of the clock taken during the
    tick, the latter only when the fetch of that source was made and
    succeeded; when the fetch fails the stamp is exactly what it was
    before; and the stamp does not move backwards as long as the clock
    does not read a time before the stored stamp. *)
Theorem stamps_advance_only_on_success (env : Env) (w : World) :
  let w' := snd (run _async_update_data env w) in
  let forward (old new : option datetime) :=
    forall l l', old = Some l -> new = Some l' ->
      (forall n, (reads w <= n)%nat -> DateTime.le l (toronto (clock env n))) ->
      DateTime.le l l' in
  (* the public source *)
  (_last_opendata_update (self w') = _last_opendata_update (self w) \/
   fetch_peak_data_result env = Ok tt /\
   calls (at_calendar env w) = calls w ++ [fetch_peak_data] /\
   exists n, (reads w <= n < reads w')%nat /\
     _last_opendata_update (self w') = Some (toronto (clock env n))) /\
  (forall e, fetch_peak_data_result env = Raise e ->
     _last_opendata_update (self w') = _last_opendata_update (self w)) /\
  forward (_last_opendata_update (self w)) (_last_opendata_update (self w')) /\
  (* the authenticated source *)
  (_last_portal_update (self w') = _last_portal_update (self w) \/
   exists d, fst (run _async_update_data env w) = Ok d /\
     chain_outcome env w = Ok (Next d) /\
     check_hq_portal_status_result env = Ok true /\
     Forall (fun c => call_result env c = Ok tt) base_chain /\
     exists n, (reads w <= n < reads w')%nat /\
       _last_portal_update (self w') = Some (toronto (clock env n))) /\
  (forall e, chain_raises env w e ->
     _last_portal_update (self w') = _last_portal_update (self w)) /\
  (forall x, fst (run _async_update_data env w) = Raise x ->
     _last_portal_update (self w') = _last_portal_update (self w)) /\
  forward (_last_portal_update (self w)) (_last_portal_update (self w')).
Proof.
  intros w' forward.
  (* public *)
  assert (Hpub :
    _last_opendata_update (self w') = _last_opendata_update (self w) \/
    fetch_peak_data_result env = Ok tt /\
    calls (at_calendar env w) = calls w ++ [fetch_peak_data] /\
    exists n, (reads w <= n < reads w')%nat /\
      _last_opendata_update (self w') = Some (toronto (clock env n))).
  { destruct (opendata_part_spec env w) as (w1 & E1 & T1 & R1 & F1 & Hst).
    destruct (calendar_block_spec env w1) as (w2 & E2 & R2 & _ & F2 & _).
    destruct (tick_unfold env w w1 w2 E1 E2) as (A1 & A2 & _).
    destruct (tick_tail env w) as (c3 & F3 & F4 & _ & R4).
    fold w' in F4, R4. rewrite A2 in F3, R4.
    assert (Hsame : _last_opendata_update (self w')
                    = _last_opendata_update (self w1)).
    { rewrite F4. simpl. rewrite F3. simpl. by_frame F2. }
    rewrite Hsame, A1.
    destruct Hst as [Hst | (Hok & Hcalls & n & Hn & Hst)]; [by left|].
    right. repeat split; try done. exists n. split; [lia|done]. }
  (* portal *)
  assert (Hpor :
    _last_portal_update (self w') = _last_portal_update (self w) \/
    exists d, fst (run _async_update_data env w) = Ok d /\
      chain_outcome env w = Ok (Next d) /\
      check_hq_portal_status_result env = Ok true /\
      Forall (fun c => call_result env c = Ok tt) base_chain /\
      exists n, (reads w <= n < reads w')%nat /\
        _last_portal_update (self w') = Some (toronto (clock env n))).
  { pose proof (tick_spec env w) as Hspec. subst w'.
    destruct (run _async_update_data env w) as [[d|x] w']; simpl in *.
    - destruct Hspec as (_ & [Ha | [Hb | [Hc | [Hd | He]]]]).
      + left. tauto.
      + left. tauto.
      + left. tauto.
      + left. tauto.
      + right. exists d.
        destruct He as (_ & _ & Ho & _ & Hst & Hch & _ & _ & Hn & _). done.
    - left. destruct Hspec as (_ & _ & e & _ & _ & _ & Hl & _). done. }
  assert (Hfw : forall old new,
    (new = old \/ exists n, (reads w <= n)%nat /\
                   new = Some (toronto (clock env n))) ->
    forward old new).
  { intros old new Hcase l l' Hold Hnew Hclock.
    destruct Hcase as [-> | (n & Hn & ->)].
    - assert (l' = l) as -> by congruence.
      unfold DateTime.le. rewrite sub_us_refl. lia.
    - injection Hnew as <-. by apply Hclock. }
  split; [exact Hpub|]. split.
  { intros e He. destruct Hpub as [Hsame | (Hok & _)]; [done|congruence]. }
  split.
  { apply Hfw. destruct Hpub as [Hsame | (_ & _ & n & Hn & Hst)]; [by left|].
    right. exists n. split; [lia|done]. }
  split; [exact Hpor|]. split.
  { intros e (_ & Hout).
    destruct Hpor as [Hsame | (d & _ & Ho & _)]; [done|congruence]. }
  split.
  { intros x Hx. destruct Hpor as [Hsame | (d & Hd & _)]; [done|congruence]. }
  apply Hfw. destruct Hpor as [Hsame | (d & _ & _ & _ & _ & n & Hn & Hst)];
    [by left|].
  right. exists n. split; [lia|done].
Qed.

(** At 13:00, three hours after the first refresh, both fetches succeed
    and both stamps move from 09:58 to 13:00; when the outage refresh
    fails instead, the portal stamp stays at 09:58. *)
Lemma stamps_advance_only_on_success_witness :
  let w' := snd (run _async_update_data (env_ok (frozen jan_1300)) w_first) in
  let w'' := snd (run _async_update_data
                    (env_failing (frozen jan_1300) refresh_outages
                       (OtherException "boom")) w_first) in
  _last_opendata_update (self w') = Some jan_1300 /\
  _last_portal_update (self w') = Some jan_1300 /\
  DateTime.le jan_0958 jan_1300 /\
  _last_portal_update (self w'') = _last_portal_update (self w_first).
Proof.
  destruct (stamps_advance_only_on_success (env_ok (frozen jan_1300)) w_first)
    as (_ & _ & Hf & _).
  destruct (stamps_advance_only_on_success
              (env_failing (frozen jan_1300) refresh_outages
                 (OtherException "boom")) w_first)
    as (_ & _ & _ & _ & Hr & _).
  split; [vm_compute; reflexivity|]. split; [vm_compute; reflexivity|]. split.
  - apply (Hf jan_0958 jan_1300).
    + vm_compute. reflexivity.
    + vm_compute. reflexivity.
    + intros n _. vm_compute. discriminate.
  - apply (Hr (OtherException "boom")). split; vm_compute; reflexivity.
Defined.

(** ** Background tasks *)

Lemma running_snoc_other (n m : TaskName) (s : TaskState) (ts : list Task) :
  m <> n -> running n (ts ++ [mk_Task m s]) = running n ts.
Proof.
  intros Hne. unfold running. rewrite filter_app, length_app. simpl.
  rewrite filter_cons_False, filter_nil; [simpl; lia|].
  simpl. intros [? _]. done.
Qed.

(** What a whole tick does to the calendar trigger: exactly what lines
    266-275 do in the world reached after the public fetch. *)
Lemma tick_calendar (env : Env) (w : World) :
  let w' := snd (run _async_update_data env w) in
  exists w1 w2,
    at_calendar env w = w1 /\ run calendar_block env w1 = (Ok tt, w2) /\
    tasks w1 = tasks w /\
    _calendar_entity_id (self w1) = _calendar_entity_id (self w) /\
    _last_peak_events_count (self w1) = _last_peak_events_count (self w) /\
    _calendar_sync_task (self w1) = _calendar_sync_task (self w) /\
    _calendar_entity_id (self w') = _calendar_entity_id (self w) /\
    _last_peak_events_count (self w') = _last_peak_events_count (self w2) /\
    _calendar_sync_task (self w') = _calendar_sync_task (self w2) /\
    (tasks w' = tasks w2 \/
     tasks w' = tasks w2 ++ [mk_Task consumption_sync Running]).
Proof.
  intros w'.
  destruct (opendata_part_spec env w) as (w1 & E1 & T1 & R1 & F1 & _).
  destruct (calendar_block_spec env w1) as (w2 & E2 & R2 & _ & F2 & _).
  destruct (tick_unfold env w w1 w2 E1 E2) as (A1 & A2 & _).
  destruct (tick_tail env w) as (c3 & F3 & F4 & T4 & _).
  fold w' in F4, T4. rewrite A2 in F3, T4.
  unfold opendata_frame in F1. unfold calendar_frame in F2.
  unfold portal_frame in F3. unfold finish_frame in F4.
  exists w1, w2. repeat split; try done.
  - by_frame F1.
  - by_frame F1.
  - by_frame F1.
  - rewrite F4. simpl. rewrite F3. simpl. rewrite F2. simpl. by_frame F1.
  - rewrite F4. simpl. by_frame F3.
  - rewrite F4. simpl. by_frame F3.
Qed.

Lemma lookup_tasks_tail (ts ts' : list Task) (i : nat) (tk : Task) (x : Task) :
  ts' = ts \/ ts' = ts ++ [x] ->
  ts !! i = Some tk -> ts' !! i = Some tk.
Proof.
  intros [-> | ->] H; [done|]. by apply lookup_app_l_Some.
Qed.

(** A tick during which the calendar synchronisation named by the handle
    is still running, while the observed count differs from the recorded
    one: no calendar task is started and the recorded count is kept. *)
Lemma tick_calendar_busy (env : Env) (w : World) (ph : PeakHandler) (t : nat) :
  truthy_str (_calendar_entity_id (self w)) = true ->
  peak_handler (self (at_calendar env w)) = Some ph ->
  Z.of_nat (length (_events ph)) <> _last_peak_events_count (self w) ->
  _calendar_sync_task (self w) = Some t ->
  tasks w !! t = Some (mk_Task calendar_sync Running) ->
  let w' := snd (run _async_update_data env w) in
  _last_peak_events_count (self w') = _last_peak_events_count (self w) /\
  _calendar_sync_task (self w') = Some t /\
  _calendar_entity_id (self w') = _calendar_entity_id (self w) /\
  tasks w' !! t = Some (mk_Task calendar_sync Running) /\
  running calendar_sync (tasks w') = running calendar_sync (tasks w).
Proof.
  intros Hid Hph Hne Hh Ht w'.
  destruct (tick_calendar env w)
    as (w1 & w2 & A1 & E2 & T1 & Kid & Kc & Kh & Kid' & Kc' & Kh' & T').
  fold w' in Kid', Kc', Kh', T'. rewrite A1 in Hph.
  rewrite (calendar_block_busy env w1 ph t) in E2
    by (rewrite ?Kid, ?Kc, ?Kh, ?T1; done).
  injection E2 as <-. simpl in *.
  rewrite Kc', Kh', Kid', Kc, Kh, Hh. repeat split; try done.
  - apply (lookup_tasks_tail (tasks w1) _ _ _ _ T'). by rewrite T1.
  - destruct T' as [-> | ->].
    + by rewrite T1.
    + rewrite running_snoc_other by done. by rewrite T1.
Qed.

(** A tick on which the observed count differs from the recorded one and
    no calendar synchronisation is running: a calendar task is started and
    the observed count recorded. *)
Lemma tick_calendar_start (env : Env) (w : World) (ph : PeakHandler) :
  truthy_str (_calendar_entity_id (self w)) = true ->
  peak_handler (self (at_calendar env w)) = Some ph ->
  Z.of_nat (length (_events ph)) <> _last_peak_events_count (self w) ->
  (_calendar_sync_task (self w) = None \/
   exists t tk, _calendar_sync_task (self w) = Some t /\
     tasks w !! t = Some tk /\ task_state tk = Done) ->
  let w' := snd (run _async_update_data env w) in
  _last_peak_events_count (self w') = Z.of_nat (length (_events ph)) /\
  _calendar_sync_task (self w') = Some (length (tasks w)) /\
  tasks w' !! length (tasks w) = Some (mk_Task calendar_sync Running).
Proof.
  intros Hid Hph Hne Hfree w'.
  destruct (tick_calendar env w)
    as (w1 & w2 & A1 & E2 & T1 & Kid & Kc & Kh & Kid' & Kc' & Kh' & T').
  fold w' in Kid', Kc', Kh', T'. rewrite A1 in Hph.
  destruct (calendar_block_start env w1 ph) as (w2' & E2' & T2 & H2 & C2).
  { by rewrite Kid. }
  { done. }
  { by rewrite Kc. }
  { by rewrite Kh, T1. }
  assert (w2' = w2) as -> by congruence.
  rewrite Kc', Kh', C2, H2, T1. repeat split; try done.
  apply (lookup_tasks_tail (tasks w2) _ _ _ _ T').
  rewrite T2, T1. by apply list_lookup_middle.
Qed.

Lemma finish_task_spec (t : nat) (w : World) (tk : Task) :
  tasks w !! t = Some tk ->
  self (finish_task t w) = self w /\
  tasks (finish_task t w) !! t = Some (mk_Task (task_name tk) Done) /\
  length (tasks (finish_task t w)) = length (tasks w).
Proof.
  intros Ht. unfold finish_task. rewrite Ht. simpl.
  split; [done|]. split.
  - apply list_lookup_insert_eq. by eapply lookup_lt_Some.
  - apply length_insert.
Qed.

(** C10. The recorded peak-event count changes during a tick only when
    that tick starts a calendar synchronisation (which then is the task
    the handle names, and the count recorded is the observed one).  When
    the observed count differs from the recorded one but the earlier
    synchronisation is still running, the tick starts none and keeps the
    recorded count; once that task has finished, the next tick on which
    the observed count still differs from the recorded one starts a new
    task and records the count. *)
Theorem calendar_trigger_deferred :
  (forall (env : Env) (w : World),
     let w' := snd (run _async_update_data env w) in
     _last_peak_events_count (self w') <> _last_peak_events_count (self w) ->
     exists ph, peak_handler (self (at_calendar env w)) = Some ph /\
       _last_peak_events_count (self w') = Z.of_nat (length (_events ph)) /\
       _calendar_sync_task (self w') = Some (length (tasks w)) /\
       tasks w' !! length (tasks w) = Some (mk_Task calendar_sync Running)) /\
  (forall (env1 env2 : Env) (w : World) (ph1 ph2 : PeakHandler) (t : nat),
     truthy_str (_calendar_entity_id (self w)) = true ->
     peak_handler (self (at_calendar env1 w)) = Some ph1 ->
     Z.of_nat (length (_events ph1)) <> _last_peak_events_count (self w) ->
     _calendar_sync_task (self w) = Some t ->
     tasks w !! t = Some (mk_Task calendar_sync Running) ->
     let w1 := snd (run _async_update_data env1 w) in
     let w2 := finish_task t w1 in
     let w3 := snd (run _async_update_data env2 w2) in
     (* the first tick defers *)
     (_last_peak_events_count (self w1) = _last_peak_events_count (self w) /\
      _calendar_sync_task (self w1) = Some t /\
      running calendar_sync (tasks w1) = running calendar_sync (tasks w)) /\
     (* the tick after the task has finished starts the synchronisation *)
     (peak_handler (self (at_calendar env2 w2)) = Some ph2 ->
      Z.of_nat (length (_events ph2)) <> _last_peak_events_count (self w) ->
      _last_peak_events_count (self w3) = Z.of_nat (length (_events ph2)) /\
      exists t', t' <> t /\ _calendar_sync_task (self w3) = Some t' /\
        tasks w3 !! t' = Some (mk_Task calendar_sync Running))).
Proof.
  split.
  - intros env w w' Hchg.
    destruct (tick_calendar env w)
      as (w1 & w2 & A1 & E2 & T1 & Kid & Kc & Kh & Kid' & Kc' & Kh' & T').
    fold w' in Kid', Kc', Kh', T'.
    destruct (calendar_block_spec env w1) as (w2' & E2' & _ & _ & _ & Hcase).
    assert (w2' = w2) as -> by congruence.
    destruct Hcase as [(_ & _ & Hsame) | (T2 & H2 & _ & ph & Hph & C2 & _)].
    + exfalso. apply Hchg. congruence.
    + exists ph. rewrite A1, Kc', Kh', C2, H2, T1. repeat split; try done.
      apply (lookup_tasks_tail (tasks w2) _ _ _ _ T').
      rewrite T2, T1. by apply list_lookup_middle.
  - intros env1 env2 w ph1 ph2 t Hid Hph Hne Hh Ht w1 w2 w3.
    destruct (tick_calendar_busy env1 w ph1 t Hid Hph Hne Hh Ht)
      as (Kc & Kh & Kid & Kt & Kr).
    fold w1 in Kc, Kh, Kid, Kt, Kr.
    split; [done|]. intros Hph2 Hne2.
    destruct (finish_task_spec t w1 _ Kt) as (Fs & Ft & Fl).
    fold w2 in Fs, Ft, Fl.
    destruct (tick_calendar_start env2 w2 ph2) as (C3 & H3 & T3).
    { by rewrite Fs, Kid. }
    { done. }
    { by rewrite Fs, Kc. }
    { right. exists t, (mk_Task calendar_sync Done).
      rewrite Fs. done. }
    fold w3 in C3, H3, T3.
    split; [done|]. exists (length (tasks w2)). repeat split; try done.
    apply lookup_lt_Some in Ft. lia.
Qed.

(** Two events were recorded at 09:58 and task 0 synchronises them.  At
    10:03 a third event is observed while task 0 still runs: nothing is
    started, the recorded count stays 2.  Task 0 finishes; at 10:08 the
    count observed is still 3: task 1 is started and 3 is recorded. *)
Lemma calendar_trigger_deferred_witness :
  let env1 := env_peaks (frozen jan_1003) [1; 2; 3]%N in
  let env2 := env_peaks (frozen jan_1008) [1; 2; 3]%N in
  let w1 := snd (run _async_update_data env1 w_calendar) in
  let w2 := finish_task 0 w1 in
  let w3 := snd (run _async_update_data env2 w2) in
  _last_peak_events_count (self w_calendar) = 2 /\
  (_last_peak_events_count (self w1) = _last_peak_events_count (self w_calendar) /\
   _calendar_sync_task (self w1) = Some 0%nat /\
   running calendar_sync (tasks w1) = running calendar_sync (tasks w_calendar)) /\
  _last_peak_events_count (self w3) = 3 /\
  exists t', t' <> 0%nat /\ _calendar_sync_task (self w3) = Some t' /\
    tasks w3 !! t' = Some (mk_Task calendar_sync Running).
Proof.
  destruct (proj2 calendar_trigger_deferred
              (env_peaks (frozen jan_1003) [1; 2; 3]%N)
              (env_peaks (frozen jan_1008) [1; 2; 3]%N)
              w_calendar (mk_PeakHandler [1; 2; 3]%N)
              (mk_PeakHandler [1; 2; 3]%N) 0%nat)
    as (Hdefer & Hstart).
  - vm_compute. reflexivity.
  - vm_compute. reflexivity.
  - vm_compute. discriminate.
  - vm_compute. reflexivity.
  - vm_compute. reflexivity.
  - split; [vm_compute; reflexivity|]. split; [exact Hdefer|].
    apply Hstart.
    + vm_compute. reflexivity.
    + vm_compute. discriminate.
Defined.

(** C3 fails on the code for the consumption synchronisation.  The first
    refresh at 09:58 started consumption task 0; it is still running at
    11:00, when 3600 s have passed: that tick starts task 1 beside it, and
    two consumption synchronisations run at once. *)
Theorem consumption_sync_started_while_running :
  let w1 := snd (run async_refresh (env_ok (frozen jan_1100)) w_first) in
  tasks w_first = [mk_Task consumption_sync Running] /\
  _regular_sync_task (self w_first) = Some 0%nat /\
  tasks w1 = [mk_Task consumption_sync Running; mk_Task consumption_sync Running] /\
  _regular_sync_task (self w1) = Some 1%nat /\
  running consumption_sync (tasks w1) = 2%nat.
Proof.
  repeat split; vm_compute; reflexivity.
Qed.

(** *** The calendar synchronisation keeps to one running instance

    The guard of line 270 is what the consumption path lacks: with it,
    every running calendar task is the one the handle names, on every
    tick and whenever a task finishes. *)

Lemma calendar_single_init (c : Coordinator) : calendar_single (init_world c).
Proof. intros i tk Hl. simpl in Hl. by rewrite lookup_nil in Hl. Qed.

Lemma calendar_single_tick (env : Env) (w : World) :
  calendar_single w -> calendar_single (snd (run _async_update_data env w)).
Proof.
  intros Hinv.
  destruct (tick_calendar env w)
    as (w1 & w2 & A1 & E2 & T1 & Kid & Kc & Kh & Kid' & Kc' & Kh' & T').
  destruct (calendar_block_spec env w1) as (w2' & E2' & _ & _ & _ & Hcase).
  assert (w2' = w2) as -> by congruence.
  assert (Hinv2 : calendar_single w2).
  { destruct Hcase as [(T2 & H2 & _) | (T2 & H2 & Hfree & _)].
    - intros i tk Hl Hn Hs. rewrite H2, Kh. apply (Hinv i tk); try done.
      by rewrite <- T1, <- T2.
    - intros i tk Hl Hn Hs. rewrite H2. rewrite T2 in Hl.
      apply lookup_app_Some in Hl as [Hl | (Hge & Hl)].
      + exfalso. rewrite T1 in Hl.
        pose proof (Hinv i tk Hl Hn Hs) as Hh.
        unfold calendar_free in Hfree. rewrite Kh, Hh, T1, Hl in Hfree.
        congruence.
      + destruct (i - length (tasks w1))%nat as [|k] eqn:Hk; [|done].
        f_equal. lia. }
  intros i tk Hl Hn Hs. rewrite Kh'.
  destruct T' as [T' | T']; rewrite T' in Hl.
  - by apply (Hinv2 i tk).
  - apply lookup_app_Some in Hl as [Hl | (Hge & Hl)].
    + by apply (Hinv2 i tk).
    + destruct (i - length (tasks w2))%nat as [|k]; [|done].
      injection Hl as <-. done.
Qed.

Lemma calendar_single_finish (t : nat) (w : World) :
  calendar_single w -> calendar_single (finish_task t w).
Proof.
  intros Hinv i tk Hl Hn Hs. unfold finish_task in *.
  destruct (tasks w !! t) as [tk0|] eqn:Ht; [|by apply (Hinv i tk)].
  simpl in *. destruct (decide (i = t)) as [->|Hne].
  - rewrite list_lookup_insert_eq in Hl by (by eapply lookup_lt_Some).
    injection Hl as <-. done.
  - rewrite list_lookup_insert_ne in Hl by done. by apply (Hinv i tk).
Qed.

Lemma filter_none {A} (P : A -> Prop) `{!forall x, Decision (P x)} (l : list A) :
  (forall i x, l !! i = Some x -> ~ P x) -> filter P l = [].
Proof.
  induction l as [|a l IH]; intros Hall; [done|].
  rewrite filter_cons_False by (apply (Hall 0%nat); done).
  apply IH. intros i x Hl. by apply (Hall (S i)).
Qed.

Lemma filter_at_most_one {A} (P : A -> Prop) `{!forall x, Decision (P x)}
    (l : list A) (k : nat) :
  (forall i x, l !! i = Some x -> P x -> i = k) ->
  (length (filter P l) <= 1)%nat.
Proof.
  revert k. induction l as [|a l IH]; intros k Hall; [simpl; lia|].
  destruct (decide (P a)) as [Ha|Ha].
  - rewrite filter_cons_True by done. simpl.
    rewrite filter_none; [simpl; lia|].
    intros i x Hl Hx. pose proof (Hall 0%nat a eq_refl Ha).
    pose proof (Hall (S i) x Hl Hx). lia.
  - rewrite filter_cons_False by done.
    apply (IH (pred k)). intros i x Hl Hx.
    pose proof (Hall (S i) x Hl Hx). lia.
Qed.

(** At most one calendar synchronisation runs at any time. *)
Lemma calendar_sync_single_instance (w : World) :
  calendar_single w -> (running calendar_sync (tasks w) <= 1)%nat.
Proof.
  intros Hinv. unfold running.
  destruct (_calendar_sync_task (self w)) as [k|] eqn:Hh.
  - apply (filter_at_most_one _ _ k). intros i x Hl [Hn Hs].
    pose proof (Hinv i x Hl Hn Hs). congruence.
  - rewrite filter_none; [simpl; lia|].
    intros i x Hl [Hn Hs]. pose proof (Hinv i x Hl Hn Hs). congruence.
Qed.

(** * Further properties of the coordinator *)

(** ** Anatomy of a tick *)

(** The decision of [_should_update_portal], spelled out on the two
    readings it takes. *)
Lemma should_update_portal_detail (env : Env) (w : World) :
  exists n, (reads w <= n)%nat /\
    run _should_update_portal env w =
    (Ok match _last_portal_update (self w) with
        | None => true
        | Some last =>
            total_seconds_ge (time_at env w 0) last
              (if (0 <=? hour (time_at env w 1)) && (hour (time_at env w 1) <? 8)
               then 3600 else 10800)
        end, with_reads n w).
Proof.
  rewrite time_at_0, time_at_1. destruct w as [c ts rd lg cl].
  unfold _should_update_portal, _is_portal_active_window. munfold. simpl.
  break_all; eexists; (split; [|reflexivity]); simpl; lia.
Qed.

(** How a tick decomposes into its blocks. *)
Lemma tick_anatomy (env : Env) (w : World) :
  exists w1 w2,
    run opendata_part env w = (Ok tt, w1) /\
    run calendar_block env w1 = (Ok tt, w2) /\
    at_calendar env w = w1 /\ at_portal env w = w2 /\
    is_opendata_mode (self w2) = is_opendata_mode (self w) /\
    (is_opendata_mode (self w) = true /\
     run _async_update_data env w =
     (Ok empty_data,
      with_logs (logs w2 ++ [(DEBUG, "OpenData mode: skipping portal data fetch")])
        w2)
     \/
     is_opendata_mode (self w) = false /\
     exists b n, (reads w2 <= n)%nat /\
       run _should_update_portal env w2 = (Ok b, with_reads n w2) /\
       at_try env w = with_reads n w2 /\
       (b = false /\
        (exists w4,
           run finish_block env
             (with_logs
                (logs w2 ++ [(DEBUG, "[Portal] Skipped (too soon since last update)")])
                (with_reads n w2)) = (Ok tt, w4) /\
           run _async_update_data env w = (Ok empty_data, w4))
        \/
        b = true /\
        match run (portal_try empty_data) env (with_reads n w2) with
        | (Ok (Return d), w3) => run _async_update_data env w = (Ok d, w3)
        | (Ok (Next d), w3) =>
            exists w4, run finish_block env w3 = (Ok tt, w4) /\
              run _async_update_data env w = (Ok d, w4)
        | (Raise e, w3) =>
            run _async_update_data env w =
            (Raise (failure_of e), with_logs (logs w3 ++ [failure_log e]) w3)
        end)).
Proof.
  destruct (at_portal_spec env w)
    as (w1 & w2 & E1 & E2 & A1 & A2 & He & _).
  destruct (tick_unfold env w w1 w2 E1 E2) as (_ & _ & Ht).
  exists w1, w2. repeat split; try done.
  { by apply is_opendata_mode_entry. }
  rewrite Ht, (is_opendata_mode_entry _ _ He).
  destruct (is_opendata_mode (self w)) eqn:Hmode; [by left|right].
  split; [done|].
  destruct (should_update_portal_run env w2) as (b & n & Hrun & Hn).
  exists b, n. split; [done|]. split; [done|].
  split; [unfold at_try; by rewrite A2, Hrun|].
  unfold portal_block, run, bind, try_except in *. rewrite Hrun.
  destruct b.
  - right. split; [done|].
    destruct (portal_try empty_data env (with_reads n w2)) as [[[d|d]|e] w3].
    + done.
    + destruct (finish_block_spec env w3) as (w4 & E4 & _).
      unfold run in E4. exists w4. by rewrite E4.
    + pose proof (portal_except_run e env w3) as Hx. unfold run in Hx.
      by rewrite Hx.
  - left. split; [done|]. simpl. unfold log, ret.
    match goal with
    | |- context [finish_block env ?w3] =>
        destruct (finish_block_spec env w3) as (w4 & E4 & _)
    end.
    unfold run in E4. exists w4. by rewrite E4.
Qed.

(** ** The blocks of a tick in detail *)

Lemma time_at_2 env w : time_at env w 2 = toronto (clock env (S (S (reads w)))).
Proof. unfold time_at. do 2 f_equal. lia. Qed.

Lemma time_at_3 env w :
  time_at env w 3 = toronto (clock env (S (S (S (reads w))))).
Proof. unfold time_at. do 2 f_equal. lia. Qed.

(** Lines 242-264 in full: whether the public fetch is made, why, and
    what it leaves behind. *)
Lemma opendata_part_detail (env : Env) (w : World) :
  let h := hour (local (clock env (reads w))) in
  let old := _last_opendata_update (self w) in
  exists w1, run opendata_part env w = (Ok tt, w1) /\
  (calls w1 = calls w /\ self w1 = self w /\
   (winter_month (month (time_at env w 1)) = false \/
    exists l, old = Some l /\ hour_boundary (time_at env w 2) l = false /\
      total_seconds_ge (time_at env w 2) l (public_interval (time_at env w 3))
      = false)
   \/
   calls w1 = calls w ++ [fetch_peak_data] /\
   winter_month (month (time_at env w 1)) = true /\
   (old = None \/
    exists l, old = Some l /\
      (hour_boundary (time_at env w 2) l = true \/
       total_seconds_ge (time_at env w 2) l (public_interval (time_at env w 3))
       = true)) /\
   peak_handler (self w1) = peak_handler_after_fetch env /\
   (fetch_peak_data_result env = Ok tt /\
    _last_peak_update_hour (self w1) = Some h /\
    (exists n, (reads w < n < reads w1)%nat /\
       _last_opendata_update (self w1) = Some (toronto (clock env n)))
    \/
    (exists e, fetch_peak_data_result env = Raise e) /\
    _last_peak_update_hour (self w1) = _last_peak_update_hour (self w) /\
    _last_opendata_update (self w1) = old /\
    last (logs w1)
    = Some (WARNING, "[OpenData] Failed to fetch public peak data: %s"))).
Proof.
  rewrite time_at_1, time_at_2, time_at_3.
  destruct w as [c ts rd lg cl].
  unfold opendata_part, opendata_block, _should_update_opendata,
    _is_winter_season, _is_opendata_active_window, await_fetch_peak_data,
    hour_boundary, public_interval, hour_differs.
  munfold. simpl.
  break_all;
    repeat match goal with
           | H : negb (_ =? _) = false |- _ =>
               apply negb_false_iff, Z.eqb_eq in H; subst
           end;
    fix_cases; (eexists; split; [reflexivity|]; simpl).
  all: first
    [ left; split; [reflexivity|]; split; [reflexivity|];
      first [ left; done | right; eexists; split; [reflexivity|]; done ]
    | right; split; [reflexivity|]; split; [done|]; split;
      [ first [ left; done
              | right; eexists; split; [reflexivity|];
                first [ left; done | right; done ] ] |];
      split; [reflexivity|];
      first [ left; split; [done|]; split; [done|];
              eexists; split; [|reflexivity]; simpl; lia
            | right; split; [eexists; reflexivity|];
              split; [done|]; split; [done|]; by rewrite last_snoc ] ].
Qed.

(** The body of the [try] in full: the calls it makes, what it assigns
    and what it hands back. *)
Lemma portal_try_detail (d : Snapshot) (env : Env) (w : World) :
  exists r w', run (portal_try d) env w = (r, w') /\
    (_customer (self w') = _customer (self w) \/ is_Some (_customer (self w'))) /\
    (_account (self w') = _account (self w) \/ is_Some (_account (self w'))) /\
    (_contract (self w') = _contract (self w) \/ is_Some (_contract (self w'))) /\
    match r with
    | Ok (Return d') =>
        calls w' = calls w ++ [check_hq_portal_status] /\
        _portal_available (self w') = Some false
    | Ok (Next d') =>
        _webuser (self w) = None /\ calls w' = calls w
        \/
        exists cu ac k,
          get_customer_result env (_customer_id (entry (self w))) = Ok cu /\
          get_account_result env cu (_account_id (entry (self w))) = Ok ac /\
          get_contract_result env ac (_contract_id (entry (self w))) = Ok k /\
          d' = mk_Snapshot (Some k) (Some ac) (Some cu) /\
          _customer (self w') = Some cu /\ _account (self w') = Some ac /\
          _contract (self w') = Some k /\
          _portal_available (self w') = Some true /\
          calls w' = calls w ++ chain_calls (session_expired env) (self w) k
    | Raise e =>
        exists l, calls w' = calls w ++ check_hq_portal_status :: l
    end.
Proof.
  destruct w as [c ts rd lg cl].
  unfold portal_try, portal_offline_log, rate_specific, chain_calls, rate_calls.
  munfold. simpl.
  break_all; fix_cases; (eexists _, _; split; [reflexivity|]; simpl).
  all: do 3 (split; [first [left; reflexivity | right; eexists; reflexivity]|]).
  all: try (split; reflexivity).
  all: try (left; split; reflexivity).
  all: try (eexists; repeat rewrite <- app_assoc; simpl; reflexivity).
  all: right;
    match goal with
    | H1 : get_customer_result _ _ = Ok ?cu,
      H2 : get_account_result _ _ _ = Ok ?ac,
      H3 : get_contract_result _ _ _ = Ok ?k |- _ => exists cu, ac, k
    end;
    repeat match goal with
           | |- _ /\ _ => split; [first [reflexivity | assumption]|]
           end;
    repeat match goal with
           | H : isinstance _ _ = _ |- _ => rewrite H
           end;
    simpl; repeat rewrite <- app_assoc; reflexivity.
Qed.

(** Lines 363-387 in full. *)
Lemma finish_block_detail (env : Env) (w : World) :
  exists w', run finish_block env w = (Ok tt, w') /\
    calls w' = calls w /\ (reads w < reads w')%nat /\
    (tasks w' = tasks w /\
     _regular_sync_task (self w') = _regular_sync_task (self w) /\
     _last_consumption_sync (self w') = _last_consumption_sync (self w)
     \/
     tasks w' = tasks w ++ [mk_Task consumption_sync Running] /\
     _regular_sync_task (self w') = Some (length (tasks w)) /\
     _last_consumption_sync (self w') = Some (time_at env w 1) /\
     reads w' = S (S (reads w)) /\
     is_portal_mode (self w) = true /\ is_Some (_contract (self w)) /\
     enable_consumption_sync (self w) = true /\
     (_last_consumption_sync (self w) = None \/
      exists l, _last_consumption_sync (self w) = Some l /\
        3600 * 1000000 <= sub_us (time_at env w 1) l)).
Proof.
  rewrite time_at_1. destruct w as [c ts rd lg cl].
  unfold finish_block, hasattr_first_refresh_done. munfold. simpl.
  break_all;
    (eexists; split; [reflexivity|]; simpl; split; [reflexivity|];
     split; [lia|]).
  all: try (left; done).
  all: right; repeat (split; [reflexivity|]);
    match goal with
    | H : _ && _ && true && _ = true |- _ =>
        rewrite andb_true_r in H;
        apply andb_true_iff in H as [H He];
        apply andb_true_iff in H as [Hm Hc]
    end;
    destruct (_contract c) eqn:Hk; [|discriminate];
    repeat (split; [done|]).
  - right. eexists. split; [reflexivity|]. by apply total_seconds_ge_spec.
  - by left.
Qed.

Lemma chain_calls_entry (b : bool) (c c' : Coordinator) (k : Contract) :
  entry c' = entry c -> chain_calls b c' k = chain_calls b c k.
Proof.
  intros He. unfold chain_calls, rate_calls, rate, rate_option. by rewrite He.
Qed.

(** what the final block keeps *)
Lemma finish_block_keeps (env : Env) (w w4 : World) :
  run finish_block env w = (Ok tt, w4) ->
  calls w4 = calls w /\ (reads w < reads w4)%nat /\
  entry (self w4) = entry (self w) /\
  _webuser (self w4) = _webuser (self w) /\
  _customer (self w4) = _customer (self w) /\
  _account (self w4) = _account (self w) /\
  _contract (self w4) = _contract (self w) /\
  _portal_available (self w4) = _portal_available (self w) /\
  _last_portal_update (self w4) = _last_portal_update (self w) /\
  data (self w4) = data (self w).
Proof.
  intros E.
  destruct (finish_block_spec env w) as (w4' & E' & F & _).
  destruct (finish_block_detail env w) as (w4'' & E'' & Hc & Hr & _).
  assert (w4' = w4) as -> by congruence.
  assert (w4'' = w4) as -> by congruence.
  unfold finish_frame in F.
  repeat split; try done; by_frame F.
Qed.

(** Every way a tick can deal with the authenticated source: the calls
    it adds after the public part, what it returns and what it assigns. *)
Lemma tick_portal_detail (env : Env) (w : World) :
  exists r w' p, run _async_update_data env w = (r, w') /\
    calls w' = calls (at_portal env w) ++ p /\
    let kept :=
      _portal_available (self w') = _portal_available (self w) /\
      _customer (self w') = _customer (self w) /\
      _account (self w') = _account (self w) /\
      _contract (self w') = _contract (self w) in
    (is_opendata_mode (self w) = true /\ r = Ok empty_data /\ p = [] /\ kept)
    \/
    (is_opendata_mode (self w) = false /\ portal_skipped env w /\
     r = Ok empty_data /\ p = [] /\ kept)
    \/
    (is_opendata_mode (self w) = false /\ portal_due env w /\
     chain_outcome env w = Ok (Next empty_data) /\
     _webuser (self w) = None /\ r = Ok empty_data /\ p = [] /\ kept)
    \/
    (is_opendata_mode (self w) = false /\ portal_found_offline env w /\
     chain_outcome env w = Ok (Return empty_data) /\
     r = Ok empty_data /\ p = [check_hq_portal_status] /\
     _portal_available (self w') = Some false)
    \/
    (is_opendata_mode (self w) = false /\ portal_due env w /\
     is_Some (_webuser (self w)) /\
     exists cu ac k,
       get_customer_result env (_customer_id (entry (self w))) = Ok cu /\
       get_account_result env cu (_account_id (entry (self w))) = Ok ac /\
       get_contract_result env ac (_contract_id (entry (self w))) = Ok k /\
       chain_outcome env w = Ok (Next (mk_Snapshot (Some k) (Some ac) (Some cu))) /\
       r = Ok (mk_Snapshot (Some k) (Some ac) (Some cu)) /\
       _customer (self w') = Some cu /\ _account (self w') = Some ac /\
       _contract (self w') = Some k /\
       _portal_available (self w') = Some true /\
       p = chain_calls (session_expired env) (self w) k)
    \/
    (is_opendata_mode (self w) = false /\
     exists e l, chain_raises env w e /\ r = Raise (failure_of e) /\
       p = check_hq_portal_status :: l).
Proof.
  destruct (tick_anatomy env w)
    as (w1 & w2 & E1 & E2 & A1 & A2 & Hm2 & Hcases).
  destruct (at_portal_spec env w)
    as (w1' & w2' & E1' & E2' & _ & A2' & He & Hw & Hcu & Hac & Hco & _).
  assert (w2' = w2) as -> by congruence. clear w1' E1' E2' A2'.
  assert (Hpa : _portal_available (self w2) = _portal_available (self w)).
  { destruct (opendata_part_spec env w) as (w1' & E1' & _ & _ & F1 & _).
    destruct (calendar_block_spec env w1) as (w2' & E2' & _ & _ & F2 & _).
    assert (w1' = w1) as -> by congruence.
    assert (w2' = w2) as -> by congruence.
    unfold opendata_frame in F1. unfold calendar_frame in F2.
    rewrite F2. simpl. by_frame F1. }
  unfold portal_found_offline, chain_raises, portal_skipped, portal_due,
    chain_outcome.
  rewrite A2.
  destruct Hcases as [(Hmode & Ht) | (Hmode & b & n & Hn & Hsup & Htry & Hb)].
  { eexists _, _, []. split; [exact Ht|]. simpl. rewrite app_nil_r.
    split; [done|]. left. repeat split; done. }
  rewrite Htry, Hsup. simpl.
  destruct Hb as [(-> & w4 & E4 & Ht) | (-> & Hdue)].
  { apply finish_block_keeps in E4
      as (Kc & _ & _ & _ & Kcu & Kac & Kco & Kpa & _).
    simpl in *.
    eexists _, w4, []. split; [exact Ht|]. rewrite app_nil_r.
    split; [done|]. right. left. repeat split; try done; congruence. }
  pose proof (portal_try_spec empty_data env (with_reads n w2)) as Hs.
  destruct (portal_try_detail empty_data env (with_reads n w2))
    as (r & w3 & Er & _ & _ & _ & Hd).
  rewrite Er in Hdue, Hs. simpl in Hs. rewrite Er. simpl.
  destruct Hs as (F & _ & _ & Hs). unfold portal_frame in F.
  destruct r as [[d|d]|e].
  - (* return data *)
    destruct Hs as (-> & Hweb & Hst & _). destruct Hd as (Hcalls & Hav).
    eexists _, w3, _. split; [exact Hdue|]. split; [exact Hcalls|].
    right. right. right. left. rewrite <- Hw. simpl in *.
    split; [done|]. split; [by repeat split|]. by repeat split.
  - (* next *)
    destruct Hdue as (w4 & E4 & Ht).
    apply finish_block_keeps in E4
      as (Kc & _ & _ & _ & Kcu & Kac & Kco & Kpa & _).
    destruct Hd as [(Hnone & Hcalls) | (cu & ac & k & Gcu & Gac & Gk & -> & Dcu & Dac & Dk & Dav & Hcalls)].
    + destruct Hs as [(_ & -> & ->) | ([u Hu] & _)]; [|simpl in *; congruence].
      simpl in *.
      eexists _, w4, []. split; [exact Ht|]. rewrite app_nil_r.
      split; [congruence|]. right. right. left.
      repeat split; try done; congruence.
    + destruct Hs as [(_ & _ & Hw3) | (Hweb & _)].
      { exfalso. subst w3. apply (f_equal length) in Hcalls.
        rewrite length_app in Hcalls. unfold chain_calls in Hcalls.
        simpl in Hcalls. lia. }
      simpl in *.
      eexists _, w4, (chain_calls (session_expired env) (self w) k).
      split; [exact Ht|].
      split; [rewrite Kc, Hcalls; f_equal; by apply chain_calls_entry|].
      right. right. right. right. left.
      rewrite <- Hw, <- He. split; [done|]. split; [done|]. split; [done|].
      exists cu, ac, k. repeat split; try done; try congruence.
  - (* raise *)
    destruct Hd as (l & Hcalls).
    eexists _, _, _. split; [exact Hdue|]. simpl. split; [exact Hcalls|].
    do 5 right. split; [done|]. exists e, l. done.
Qed.

(** ** Outcome and calls of a tick *)

(** the calendar block makes no capability call *)
Lemma at_portal_calls (env : Env) (w : World) :
  calls (at_portal env w) = calls (at_calendar env w).
Proof.
  destruct (tick_anatomy env w) as (w1 & w2 & E1 & E2 & -> & -> & _).
  destruct (calendar_block_spec env w1) as (w2' & E2' & _ & Hc & _).
  congruence.
Qed.

(** the public part makes at most one call, the fetch of the feed *)
Lemma at_calendar_calls (env : Env) (w : World) :
  exists pub, (pub = [] \/ pub = [fetch_peak_data]) /\
    calls (at_calendar env w) = calls w ++ pub.
Proof.
  destruct (opendata_part_detail env w) as (w1 & E1 & Hcase).
  unfold at_calendar. rewrite E1. simpl.
  destruct Hcase as [(Hc & _) | (Hc & _)].
  - exists []. rewrite app_nil_r. split; [by left|done].
  - exists [fetch_peak_data]. split; [by right|done].
Qed.

(** the cases of [tick_portal_detail] exclude one another *)
Ltac clash :=
  exfalso;
  repeat match goal with
         | H : portal_found_offline _ _ |- _ => destruct H as (? & ? & ?)
         | H : chain_raises _ _ _ |- _ => destruct H as (? & ?)
         | H : is_Some _ |- _ => destruct H as [? ?]
         end;
  unfold portal_skipped, portal_due in *; congruence.

(** X1. A tick fails exactly when the mode is not public-data-only, the
    authenticated update is due and the body of its [try] raises; the
    exception is then the [UpdateFailed] built from what was raised.  In
    particular no failure of the public fetch makes a tick fail. *)
Theorem tick_fails_exactly_when_chain_raises (env : Env) (w : World) (x : Exn) :
  fst (run _async_update_data env w) = Raise x <->
  is_opendata_mode (self w) = false /\
  exists e, chain_raises env w e /\ x = failure_of e.
Proof.
  destruct (tick_portal_detail env w) as (r & w' & p & Er & _ & Hcase).
  rewrite Er. simpl. split.
  - intros ->.
    destruct Hcase as [(_ & Hr & _) | [(_ & _ & Hr & _)
      | [(_ & _ & _ & _ & Hr & _) | [(_ & _ & _ & Hr & _)
      | [(_ & _ & _ & cu & ac & k & _ & _ & _ & _ & Hr & _)
      | (Hm & e & l & Hch & Hr & _)]]]]]; try discriminate Hr.
    split; [done|]. exists e. split; [done|]. congruence.
  - intros (Hm & e & Hch & ->).
    destruct Hcase as [(Hm' & _) | [(_ & Hskip & _)
      | [(_ & _ & Hout & _) | [(_ & _ & Hout & _)
      | [(_ & _ & _ & cu & ac & k & _ & _ & _ & Hout & _)
      | (_ & e' & l & Hch' & Hr & _)]]]]]; try clash.
    destruct Hch as (_ & Ho), Hch' as (_ & Ho').
    assert (e' = e) as -> by congruence. done.
Qed.

(** X2. The snapshot a tick returns is either the empty one or holds
    exactly the customer, the account and the contract that the portal
    handed out during this same tick, which are then also the
    coordinator's private attributes: fields of two ticks never mix. *)
Theorem returned_snapshot_is_of_one_tick (env : Env) (w w' : World)
    (d : Snapshot) :
  run _async_update_data env w = (Ok d, w') ->
  d = empty_data \/
  exists cu ac k,
    get_customer_result env (_customer_id (entry (self w))) = Ok cu /\
    get_account_result env cu (_account_id (entry (self w))) = Ok ac /\
    get_contract_result env ac (_contract_id (entry (self w))) = Ok k /\
    d = mk_Snapshot (Some k) (Some ac) (Some cu) /\
    _customer (self w') = Some cu /\ _account (self w') = Some ac /\
    _contract (self w') = Some k.
Proof.
  intros Hrun.
  destruct (tick_portal_detail env w) as (r & w'' & p & Er & _ & Hcase).
  rewrite Hrun in Er. injection Er as <- <-.
  destruct Hcase as [(_ & Hr & _) | [(_ & _ & Hr & _)
    | [(_ & _ & _ & _ & Hr & _) | [(_ & _ & _ & Hr & _)
    | [(_ & _ & _ & cu & ac & k & Gcu & Gac & Gk & _ & Hr & Dcu & Dac & Dk & _)
    | (_ & e & l & _ & Hr & _)]]]]]; try (left; congruence);
    try discriminate Hr.
  right. exists cu, ac, k. injection Hr as ->. done.
Qed.

Lemma returned_snapshot_is_of_one_tick_witness :
  first_data = empty_data \/
  exists cu ac k,
    get_customer_result (env_ok (frozen jan_0958)) "cust" = Ok cu /\
    get_account_result (env_ok (frozen jan_0958)) cu "acct" = Ok ac /\
    get_contract_result (env_ok (frozen jan_0958)) ac "ctr" = Ok k /\
    first_data = mk_Snapshot (Some k) (Some ac) (Some cu) /\
    _customer (self w_first) = Some cu /\ _account (self w_first) = Some ac /\
    _contract (self w_first) = Some k.
Proof.
  destruct (returned_snapshot_is_of_one_tick (env_ok (frozen jan_0958)) w_portal
              (snd (run _async_update_data (env_ok (frozen jan_0958)) w_portal))
              first_data) as [He | (cu & ac & k & Hcu & Hac & Hk & Hd & _)].
  - vm_compute. reflexivity.
  - by left.
  - right. exists cu, ac, k. injection Hd as <- <- <-.
    repeat split; try done; vm_compute; reflexivity.
Defined.

(** X3. A tick in public-data-only mode, and a tick on which the portal
    update is skipped, call no capability of the authenticated client; a
    tick on which the portal is found offline calls exactly one, the
    status check, and records the portal as unavailable.  Before that the
    only call is the fetch of the public feed, when it is made. *)
Theorem quiet_tick_calls (env : Env) (w : World) :
  let w' := snd (run _async_update_data env w) in
  exists pub, (pub = [] \/ pub = [fetch_peak_data]) /\
    (is_opendata_mode (self w) = true \/ portal_skipped env w ->
     calls w' = calls w ++ pub) /\
    (is_opendata_mode (self w) = false -> portal_found_offline env w ->
     calls w' = calls w ++ pub ++ [check_hq_portal_status] /\
     _portal_available (self w') = Some false).
Proof.
  intros w'. subst w'.
  destruct (at_calendar_calls env w) as (pub & Hpub & Hc1).
  exists pub. split; [done|].
  destruct (tick_portal_detail env w) as (r & w' & p & Er & Hc & Hcase).
  rewrite Er. simpl. rewrite at_portal_calls, Hc1 in Hc.
  split.
  - intros Hq.
    destruct Hcase as [(Hm & _ & -> & _) | [(_ & _ & _ & -> & _)
      | [(Hm & Hdue & _) | [(Hm & Hoff & _)
      | [(Hm & Hdue & _)
      | (Hm & e & l & Hch & _)]]]]];
      try (by rewrite app_nil_r in Hc);
      destruct Hq as [Hq | Hq]; try congruence; clash.
  - intros Hm Hoff.
    destruct Hcase as [(Hm' & _) | [(_ & Hskip & _)
      | [(_ & _ & _ & Hnone & _) | [(_ & _ & _ & _ & -> & Hav)
      | [(_ & _ & _ & cu & ac & k & _ & _ & _ & Hout & _)
      | (_ & e & l & Hch & _)]]]]]; try clash.
    + split; [by rewrite <- app_assoc in Hc|done].
    + exfalso. destruct Hoff as (_ & Hweb & Hst).
      rewrite <- (at_try_webuser env w) in Hweb.
      unfold chain_outcome in Hout.
      rewrite (portal_try_offline _ _ _ Hweb Hst) in Hout. discriminate.
    + exfalso. destruct Hoff as (_ & Hweb & Hst), Hch as (_ & Hout).
      rewrite <- (at_try_webuser env w) in Hweb.
      unfold chain_outcome in Hout.
      rewrite (portal_try_offline _ _ _ Hweb Hst) in Hout. discriminate.
Qed.

(** X4. On a tick that returns a non-empty snapshot, the capabilities of
    the authenticated client are called in this order and no other: the
    status check; the login, only when the session had expired; the
    hierarchy (user, customers, customer, account, contract), the periods
    and the outages; last the calls of the configured rate, made only
    when the contract handed out is of the class of that rate. *)
Theorem successful_chain_call_order (env : Env) (w w' : World) (d : Snapshot) :
  run _async_update_data env w = (Ok d, w') ->
  d <> empty_data ->
  exists pub k, (pub = [] \/ pub = [fetch_peak_data]) /\
    contract d = Some k /\
    calls w' = calls w ++ pub ++ chain_calls (session_expired env) (self w) k.
Proof.
  intros Hrun Hne.
  destruct (at_calendar_calls env w) as (pub & Hpub & Hc1).
  destruct (tick_portal_detail env w) as (r & w'' & p & Er & Hc & Hcase).
  rewrite Hrun in Er. injection Er as <- <-.
  rewrite at_portal_calls, Hc1 in Hc.
  destruct Hcase as [(_ & Hr & _) | [(_ & _ & Hr & _)
    | [(_ & _ & _ & _ & Hr & _) | [(_ & _ & _ & Hr & _)
    | [(_ & _ & _ & cu & ac & k & _ & _ & _ & _ & Hr & _ & _ & _ & _ & ->)
    | (_ & e & l & _ & Hr & _)]]]]]; try congruence.
  exists pub, k. injection Hr as ->. split; [done|]. split; [done|].
  by rewrite <- app_assoc in Hc.
Qed.

Lemma successful_chain_call_order_witness :
  exists pub k, (pub = [] \/ pub = [fetch_peak_data]) /\
    contract first_data = Some k /\
    calls (snd (run _async_update_data (env_ok (frozen jan_0958)) w_portal))
    = calls w_portal ++ pub
      ++ chain_calls (session_expired (env_ok (frozen jan_0958)))
           (self w_portal) k.
Proof.
  apply (successful_chain_call_order (env_ok (frozen jan_0958)) w_portal
           (snd (run _async_update_data (env_ok (frozen jan_0958)) w_portal))
           first_data).
  - vm_compute. reflexivity.
  - discriminate.
Defined.

(** ** Timing of the two sources *)

Lemma public_interval_bounds (t : datetime) :
  300 <= public_interval t <= 3600.
Proof. unfold public_interval. destruct (_ && _); lia. Qed.

Lemma portal_interval_bounds (t : datetime) :
  3600 <= portal_interval t <= 10800.
Proof. unfold portal_interval. destruct (_ && _); lia. Qed.

(** the stamps and the mode with which the authenticated section is
    reached are those of the start of the tick *)
Lemma at_portal_stamp (env : Env) (w : World) :
  _last_portal_update (self (at_portal env w)) = _last_portal_update (self w).
Proof.
  destruct (at_portal_spec env w)
    as (w1 & w2 & _ & _ & _ & -> & _ & _ & _ & _ & _ & Hl & _).
  done.
Qed.

(** X5. The public feed is fetched only in season and, once a stamp is
    stored, only at an hour boundary (minute below 5, hour other than the
    stamp's) or at least 300 s after the stamp; and in season it is
    fetched whenever no stamp is stored or at least 3600 s have passed.
    (The season is read from the second reading of the tick, the current
    time from the third.) *)
Theorem public_fetch_bounds (env : Env) (w : World) :
  let attempted := calls (at_calendar env w) = calls w ++ [fetch_peak_data] in
  let season := winter_month (month (time_at env w 1)) = true in
  let now := time_at env w 2 in
  (attempted ->
   season /\
   forall l, _last_opendata_update (self w) = Some l ->
     hour_boundary now l = true \/ 300 * 1000000 <= sub_us now l) /\
  (season ->
   match _last_opendata_update (self w) with
   | None => True
   | Some l => 3600 * 1000000 <= sub_us now l
   end ->
   attempted).
Proof.
  intros attempted season now. subst attempted season now.
  destruct (opendata_part_detail env w) as (w1 & E1 & Hcase).
  unfold at_calendar. rewrite E1. simpl. split.
  - intros Hatt.
    destruct Hcase as [(Hc & _) | (_ & Hs & Hwhy & _)].
    { exfalso. rewrite Hc in Hatt. apply (f_equal length) in Hatt.
      rewrite length_app in Hatt. simpl in Hatt. lia. }
    split; [done|]. intros l Hl.
    destruct Hwhy as [Hn | (l' & Hl' & Hwhy)]; [congruence|].
    assert (l' = l) as -> by congruence.
    destruct Hwhy as [Hb | Hge]; [by left|right].
    apply total_seconds_ge_spec in Hge.
    pose proof (public_interval_bounds (time_at env w 3)). lia.
  - intros Hs Hold.
    destruct Hcase as [(_ & _ & Hwhy) | (Hc & _)]; [|done].
    exfalso. destruct Hwhy as [Hoff | (l & Hl & _ & Hlt)]; [congruence|].
    rewrite Hl in Hold.
    apply not_true_iff_false in Hlt. apply Hlt.
    apply total_seconds_ge_spec.
    pose proof (public_interval_bounds (time_at env w 3)). lia.
Qed.

(** X6. The authenticated client is called only when no portal stamp is
    stored or at least 3600 s have passed since it; and, outside
    public-data-only mode and with a web user, its status check is made
    on every tick on which no stamp is stored or at least 10800 s have
    passed.  (The current time is the first reading taken after the
    public part of the tick.) *)
Theorem portal_fetch_bounds (env : Env) (w : World) :
  let w' := snd (run _async_update_data env w) in
  let now := time_at env (at_portal env w) 0 in
  (calls w' <> calls (at_calendar env w) ->
   forall l, _last_portal_update (self w) = Some l ->
     3600 * 1000000 <= sub_us now l) /\
  (is_opendata_mode (self w) = false -> is_Some (_webuser (self w)) ->
   match _last_portal_update (self w) with
   | None => True
   | Some l => 10800 * 1000000 <= sub_us now l
   end ->
   exists l, calls w' = calls (at_calendar env w) ++ check_hq_portal_status :: l).
Proof.
  intros w' now. subst w' now.
  destruct (should_update_portal_detail env (at_portal env w))
    as (n & _ & Hsup).
  rewrite at_portal_stamp in Hsup.
  fold (portal_interval (time_at env (at_portal env w) 1)) in Hsup.
  pose proof (portal_interval_bounds (time_at env (at_portal env w) 1)) as Hb.
  destruct (tick_portal_detail env w) as (r & w' & p & Er & Hc & Hcase).
  rewrite Er. simpl. rewrite at_portal_calls in Hc.
  assert (Hdue : portal_due env w ->
    forall l, _last_portal_update (self w) = Some l ->
      3600 * 1000000 <= sub_us (time_at env (at_portal env w) 0) l).
  { unfold portal_due. rewrite Hsup. simpl. intros Hd l Hl.
    rewrite Hl in Hd. injection Hd as Hd.
    apply total_seconds_ge_spec in Hd. lia. }
  split.
  - intros Hne.
    destruct Hcase as [(_ & _ & -> & _) | [(_ & _ & _ & -> & _)
      | [(_ & _ & _ & _ & _ & -> & _) | [(_ & (Hd & _) & _)
      | [(_ & Hd & _)
      | (_ & e & l & (Hd & _) & _)]]]]];
      try (exfalso; apply Hne; by rewrite Hc, app_nil_r);
      by apply Hdue.
  - intros Hm Hweb Hold.
    assert (Hd : portal_due env w).
    { unfold portal_due. rewrite Hsup. simpl.
      destruct (_last_portal_update (self w)) as [l|]; [|done].
      f_equal. apply total_seconds_ge_spec. lia. }
    destruct Hcase as [(Hm' & _) | [(_ & Hskip & _)
      | [(_ & _ & _ & Hnone & _) | [(_ & _ & _ & _ & -> & _)
      | [(_ & _ & _ & cu & ac & k & _ & _ & _ & _ & _ & _ & _ & _ & _ & ->)
      | (_ & e & l & _ & _ & ->)]]]]]; try clash.
    + by exists [].
    + eexists. rewrite Hc. unfold chain_calls. simpl. reflexivity.
    + by exists l.
Qed.

(** X7. After a tick on which the public fetch succeeds, the marker of
    the last peak-refresh hour is the local hour read at the start of the
    tick, and the peak handler is the one the fetch left; when the fetch
    fails, marker and stamp are kept and a warning is logged; when no
    fetch is made, the coordinator's attributes are not touched by the
    public part. *)
Theorem peak_hour_marker (env : Env) (w : World) :
  let w1 := at_calendar env w in
  let attempted := calls w1 = calls w ++ [fetch_peak_data] in
  (attempted -> fetch_peak_data_result env = Ok tt ->
   _last_peak_update_hour (self w1) = Some (hour (local (clock env (reads w)))) /\
   peak_handler (self w1) = peak_handler_after_fetch env) /\
  (attempted -> (exists e, fetch_peak_data_result env = Raise e) ->
   _last_peak_update_hour (self w1) = _last_peak_update_hour (self w) /\
   _last_opendata_update (self w1) = _last_opendata_update (self w) /\
   last (logs w1)
   = Some (WARNING, "[OpenData] Failed to fetch public peak data: %s")) /\
  (~ attempted -> self w1 = self w).
Proof.
  intros w1 attempted. subst w1 attempted.
  destruct (opendata_part_detail env w) as (w1 & E1 & Hcase).
  unfold at_calendar. rewrite E1. simpl.
  destruct Hcase as [(Hc & Hs & _) | (Hc & _ & _ & Hph & Hres)].
  - assert (Hno : calls w1 <> calls w ++ [fetch_peak_data]).
    { intros Hatt. rewrite Hc in Hatt. apply (f_equal length) in Hatt.
      rewrite length_app in Hatt. simpl in Hatt. lia. }
    repeat split; try done.
  - split; [|split].
    + intros _ Hok.
      destruct Hres as [(_ & Hh & _) | ((e & He) & _)]; [done|congruence].
    + intros _ (e & He).
      destruct Hres as [(Hok & _) | (_ & Hh & Hst & Hlog)];
        [congruence|done].
    + intros Hn. by destruct Hn.
Qed.

(** ** The consumption synchronisation *)

Lemma is_portal_mode_entry (c c' : Coordinator) :
  entry c' = entry c -> is_portal_mode c' = is_portal_mode c.
Proof. unfold is_portal_mode. by intros ->. Qed.

Lemma enable_consumption_sync_entry (c c' : Coordinator) :
  entry c' = entry c -> enable_consumption_sync c' = enable_consumption_sync c.
Proof. unfold enable_consumption_sync. by intros ->. Qed.

Lemma running_snoc_same (n : TaskName) (ts : list Task) :
  running n (ts ++ [mk_Task n Running]) = S (running n ts).
Proof.
  unfold running. rewrite filter_app, length_app.
  rewrite filter_cons_True by done. rewrite filter_nil. simpl. lia.
Qed.

(** what the public part of a tick keeps of the consumption bookkeeping *)
Lemma at_portal_consumption (env : Env) (w : World) :
  let w2 := at_portal env w in
  entry (self w2) = entry (self w) /\
  _regular_sync_task (self w2) = _regular_sync_task (self w) /\
  _last_consumption_sync (self w2) = _last_consumption_sync (self w) /\
  running consumption_sync (tasks w2) = running consumption_sync (tasks w) /\
  (reads w <= reads w2)%nat.
Proof.
  destruct (opendata_part_spec env w) as (w1 & E1 & T1 & R1 & F1 & _).
  destruct (calendar_block_spec env w1) as (w2 & E2 & R2 & _ & F2 & Hcase).
  destruct (tick_unfold env w w1 w2 E1 E2) as (_ & -> & _).
  unfold opendata_frame in F1. unfold calendar_frame in F2. simpl.
  split; [rewrite F2; simpl; by_frame F1|].
  split; [rewrite F2; simpl; by_frame F1|].
  split; [rewrite F2; simpl; by_frame F1|].
  split; [|lia].
  destruct Hcase as [(-> & _) | (-> & _)].
  - by rewrite T1.
  - rewrite running_snoc_other by done. by rewrite T1.
Qed.

(** X8. A tick starts at most one consumption synchronisation, and only
    when the mode is portal, a contract is cached, the synchronisation is
    enabled in the configuration and the tick itself does not fail; the
    time of the start, a reading of this tick, is then recorded, and it
    lies at least 3600 s after the previously recorded start.  Otherwise
    the tick leaves handle, recorded time and running tasks as they were. *)
Theorem consumption_sync_gating (env : Env) (w : World) :
  let w' := snd (run _async_update_data env w) in
  running consumption_sync (tasks w') = running consumption_sync (tasks w) /\
  _regular_sync_task (self w') = _regular_sync_task (self w) /\
  _last_consumption_sync (self w') = _last_consumption_sync (self w)
  \/
  running consumption_sync (tasks w') = S (running consumption_sync (tasks w)) /\
  is_portal_mode (self w) = true /\ is_Some (_contract (self w')) /\
  enable_consumption_sync (self w) = true /\
  (exists d, fst (run _async_update_data env w) = Ok d) /\
  exists n, (reads w <= n < reads w')%nat /\
    _last_consumption_sync (self w') = Some (toronto (clock env n)) /\
    forall l, _last_consumption_sync (self w) = Some l ->
      3600 * 1000000 <= sub_us (toronto (clock env n)) l.
Proof.
  intros w'. subst w'.
  destruct (at_portal_consumption env w) as (He & Hh & Hs & Hr & Hrd).
  destruct (tick_anatomy env w)
    as (w1 & w2 & E1 & E2 & A1 & A2 & Hm2 & Hcases).
  rewrite A2 in *.
  (* what the final block does, started from a world [w3] that still has
     the bookkeeping of [w2] *)
  assert (Hfin : forall w3 w4 d,
    run finish_block env w3 = (Ok tt, w4) ->
    run _async_update_data env w = (Ok d, w4) ->
    entry (self w3) = entry (self w2) ->
    _regular_sync_task (self w3) = _regular_sync_task (self w2) ->
    _last_consumption_sync (self w3) = _last_consumption_sync (self w2) ->
    tasks w3 = tasks w2 -> (reads w2 <= reads w3)%nat ->
    running consumption_sync (tasks w4) = running consumption_sync (tasks w) /\
    _regular_sync_task (self w4) = _regular_sync_task (self w) /\
    _last_consumption_sync (self w4) = _last_consumption_sync (self w)
    \/
    running consumption_sync (tasks w4)
    = S (running consumption_sync (tasks w)) /\
    is_portal_mode (self w) = true /\ is_Some (_contract (self w4)) /\
    enable_consumption_sync (self w) = true /\
    exists n, (reads w <= n < reads w4)%nat /\
      _last_consumption_sync (self w4) = Some (toronto (clock env n)) /\
      forall l, _last_consumption_sync (self w) = Some l ->
        3600 * 1000000 <= sub_us (toronto (clock env n)) l).
  { intros w3 w4 d E4 Ht Ke Kh Ks Kt Kr.
    destruct (finish_block_detail env w3) as (w4' & E4' & _ & _ & Hcase).
    assert (w4' = w4) as -> by congruence.
    pose proof (finish_block_keeps env w3 w4 E4) as (_ & _ & _ & _ & _ & _ & Kco & _).
    destruct Hcase as [(T4 & H4 & S4) | (T4 & H4 & S4 & R4 & Hm & Hk & Hen & Hold)].
    - left. rewrite T4, H4, S4, Kt. repeat split; congruence.
    - right. rewrite time_at_1 in S4, Hold.
      split.
      { rewrite T4, Kt, running_snoc_same. lia. }
      split; [by rewrite <- (is_portal_mode_entry (self w) (self w3)) by congruence|].
      split; [by rewrite Kco|].
      split; [by rewrite <- (enable_consumption_sync_entry (self w) (self w3)) by congruence|].
      exists (S (reads w3)). split; [lia|]. split; [done|].
      intros l Hl. destruct Hold as [Hn | (l' & Hl' & Hge)]; [congruence|].
      assert (l' = l) as -> by congruence. done. }
  destruct Hcases as [(Hmode & Ht) | (Hmode & b & n & Hn & Hsup & Htry & Hb)].
  { rewrite Ht. simpl. left. done. }
  destruct Hb as [(-> & w4 & E4 & Ht) | (-> & Hdue)].
  { rewrite Ht. simpl.
    destruct (Hfin _ w4 empty_data E4 Ht) as [Hl | Hr']; try done.
    - by left.
    - right. destruct Hr' as (? & ? & ? & ? & ?). repeat split; try done.
      by exists empty_data. }
  pose proof (portal_try_spec empty_data env (with_reads n w2)) as Hs3.
  destruct (run (portal_try empty_data) env (with_reads n w2))
    as [[[d|d]|e] w3]; simpl in Hs3; destruct Hs3 as (F & T3 & R3 & _);
    unfold portal_frame in F; simpl in *.
  - rewrite Hdue. simpl. left. rewrite T3.
    split; [done|]. split; [rewrite <- Hh|rewrite <- Hs]; by_frame F.
  - destruct Hdue as (w4 & E4 & Ht). rewrite Ht. simpl.
    destruct (Hfin w3 w4 d E4 Ht) as [Hl | Hr']; try done;
      try (by_frame F); try lia.
    + by left.
    + right. destruct Hr' as (? & ? & ? & ? & ?). repeat split; try done.
      by exists d.
  - rewrite Hdue. simpl. left. rewrite T3.
    split; [done|]. split; [rewrite <- Hh|rewrite <- Hs]; by_frame F.
Qed.

(** ** Invariants of the runs *)

Lemma step_tick (env : Env) (w : World) :
  step w (Tick env) =
  match run _async_update_data env w with
  | (Ok d, w') => with_self (set_data (Some d)) w'
  | (Raise _, w') => w'
  end.
Proof.
  simpl. rewrite async_refresh_run.
  by destruct (run _async_update_data env w) as [[d|x] w'].
Qed.

(** tasks and calendar handle after the public part of a tick *)
Lemma at_portal_tasks (env : Env) (w : World) :
  let w2 := at_portal env w in
  _regular_sync_task (self w2) = _regular_sync_task (self w) /\
  (tasks w2 = tasks w /\
   _calendar_sync_task (self w2) = _calendar_sync_task (self w)
   \/
   tasks w2 = tasks w ++ [mk_Task calendar_sync Running] /\
   _calendar_sync_task (self w2) = Some (length (tasks w))).
Proof.
  destruct (opendata_part_spec env w) as (w1 & E1 & T1 & R1 & F1 & _).
  destruct (calendar_block_spec env w1) as (w2 & E2 & R2 & _ & F2 & Hcase).
  destruct (tick_unfold env w w1 w2 E1 E2) as (_ & -> & _).
  unfold opendata_frame in F1. unfold calendar_frame in F2. simpl.
  split; [rewrite F2; simpl; by_frame F1|].
  destruct Hcase as [(-> & -> & _) | (-> & -> & _)].
  - left. split; [done|by_frame F1].
  - right. by rewrite T1.
Qed.

(** tasks and handles after the whole tick, from the public part on *)
Lemma tick_tasks (env : Env) (w : World) :
  let w2 := at_portal env w in
  let w' := snd (run _async_update_data env w) in
  entry (self w') = entry (self w) /\
  _webuser (self w') = _webuser (self w) /\
  _calendar_sync_task (self w') = _calendar_sync_task (self w2) /\
  (tasks w' = tasks w2 /\
   _regular_sync_task (self w') = _regular_sync_task (self w)
   \/
   tasks w' = tasks w2 ++ [mk_Task consumption_sync Running] /\
   _regular_sync_task (self w') = Some (length (tasks w2))).
Proof.
  intros w2 w'. subst w2 w'.
  destruct (at_portal_tasks env w) as (Hh & _).
  destruct (at_portal_spec env w)
    as (w1 & w2 & E1 & E2 & _ & A2 & He & Hw & _).
  rewrite A2 in *.
  destruct (tick_anatomy env w)
    as (w1' & w2' & E1' & E2' & _ & A2' & _ & Hcases).
  assert (w2' = w2) as -> by congruence. clear w1' E1' E2' A2'.
  assert (Hfin : forall w3 w4,
    run finish_block env w3 = (Ok tt, w4) ->
    entry (self w3) = entry (self w2) ->
    _webuser (self w3) = _webuser (self w2) ->
    _calendar_sync_task (self w3) = _calendar_sync_task (self w2) ->
    _regular_sync_task (self w3) = _regular_sync_task (self w2) ->
    tasks w3 = tasks w2 ->
    entry (self w4) = entry (self w) /\
    _webuser (self w4) = _webuser (self w) /\
    _calendar_sync_task (self w4) = _calendar_sync_task (self w2) /\
    (tasks w4 = tasks w2 /\
     _regular_sync_task (self w4) = _regular_sync_task (self w)
     \/
     tasks w4 = tasks w2 ++ [mk_Task consumption_sync Running] /\
     _regular_sync_task (self w4) = Some (length (tasks w2)))).
  { intros w3 w4 E4 Ke Kw Kc Kr Kt.
    destruct (finish_block_spec env w3) as (w4' & E4' & F & _).
    destruct (finish_block_detail env w3) as (w4'' & E4'' & _ & _ & Hcase).
    assert (w4' = w4) as -> by congruence.
    assert (w4'' = w4) as -> by congruence.
    unfold finish_frame in F.
    split; [rewrite <- He, <- Ke; by_frame F|].
    split; [rewrite <- Hw, <- Kw; by_frame F|].
    split; [rewrite <- Kc; by_frame F|].
    destruct Hcase as [(T4 & H4 & _) | (T4 & H4 & _)].
    - left. rewrite T4, H4. split; congruence.
    - right. rewrite T4, H4, Kt. done. }
  destruct Hcases as [(Hmode & Ht) | (Hmode & b & n & Hn & Hsup & Htry & Hb)].
  { rewrite Ht. simpl. repeat split; try done. by left. }
  destruct Hb as [(-> & w4 & E4 & Ht) | (-> & Hdue)].
  { rewrite Ht. simpl. by apply (Hfin _ w4 E4). }
  pose proof (portal_try_spec empty_data env (with_reads n w2)) as Hs3.
  destruct (run (portal_try empty_data) env (with_reads n w2))
    as [[[d|d]|e] w3]; simpl in Hs3; destruct Hs3 as (F & T3 & R3 & _);
    unfold portal_frame in F; simpl in *.
  - rewrite Hdue. simpl.
    split; [rewrite <- He; by_frame F|].
    split; [rewrite <- Hw; by_frame F|].
    split; [by_frame F|]. left. split; [done|]. rewrite <- Hh. by_frame F.
  - destruct Hdue as (w4 & E4 & Ht). rewrite Ht. simpl.
    apply (Hfin w3 w4 E4); try done; by_frame F.
  - rewrite Hdue. simpl.
    split; [rewrite <- He; by_frame F|].
    split; [rewrite <- Hw; by_frame F|].
    split; [by_frame F|]. left. split; [done|]. rewrite <- Hh. by_frame F.
Qed.

(** the cached objects are never reset, and a stored portal stamp is new
    only when the tick returns the three objects it cached *)
Lemma tick_caches (env : Env) (w : World) :
  let r := fst (run _async_update_data env w) in
  let w' := snd (run _async_update_data env w) in
  (is_Some (_customer (self w)) -> is_Some (_customer (self w'))) /\
  (is_Some (_account (self w)) -> is_Some (_account (self w'))) /\
  (is_Some (_contract (self w)) -> is_Some (_contract (self w'))) /\
  (_last_portal_update (self w') = _last_portal_update (self w) \/
   is_Some (_customer (self w')) /\ is_Some (_account (self w')) /\
   is_Some (_contract (self w'))) /\
  match r with
  | Ok d => d = empty_data \/ full d
  | Raise _ => True
  end.
Proof.
  intros r w'. subst r w'.
  destruct (at_portal_spec env w)
    as (w1 & w2 & E1 & E2 & _ & A2 & He & Hw & Hcu & Hac & Hco & Hst & _).
  destruct (tick_anatomy env w)
    as (w1' & w2' & E1' & E2' & _ & A2' & _ & Hcases).
  assert (w2' = w2) as -> by congruence. clear w1' E1' E2' A2'.
  destruct Hcases as [(Hmode & Ht) | (Hmode & b & n & Hn & Hsup & Htry & Hb)].
  { rewrite Ht. simpl. rewrite Hcu, Hac, Hco, Hst.
    repeat split; try done; by left. }
  destruct Hb as [(-> & w4 & E4 & Ht) | (-> & Hdue)].
  { rewrite Ht. simpl.
    apply finish_block_keeps in E4
      as (_ & _ & _ & _ & Kcu & Kac & Kco & _ & Kst & _). simpl in *.
    rewrite Kcu, Kac, Kco, Kst, Hcu, Hac, Hco, Hst.
    repeat split; try done; by left. }
  pose proof (portal_try_spec empty_data env (with_reads n w2)) as Hs3.
  destruct (portal_try_detail empty_data env (with_reads n w2))
    as (r & w3 & Er & Mcu & Mac & Mco & Hd).
  rewrite Er in Hdue, Hs3. simpl in *. rewrite Hcu, Hac, Hco in *.
  destruct Hs3 as (_ & _ & _ & Hs3).
  assert (Hmono :
    (is_Some (_customer (self w)) -> is_Some (_customer (self w3))) /\
    (is_Some (_account (self w)) -> is_Some (_account (self w3))) /\
    (is_Some (_contract (self w)) -> is_Some (_contract (self w3)))).
  { repeat split; intros Hsome.
    - destruct Mcu as [-> | ?]; done.
    - destruct Mac as [-> | ?]; done.
    - destruct Mco as [-> | ?]; done. }
  destruct Hmono as (M1 & M2 & M3).
  destruct r as [[d|d]|e].
  - rewrite Hdue. simpl. destruct Hs3 as (-> & _ & _ & _ & _ & _ & Kst).
    rewrite Kst, Hst. repeat split; try done; by left.
  - destruct Hdue as (w4 & E4 & Ht). rewrite Ht. simpl.
    apply finish_block_keeps in E4
      as (_ & _ & _ & _ & Kcu & Kac & Kco & _ & Kst & _).
    rewrite Kcu, Kac, Kco, Kst.
    destruct Hd as [(Hnone & _) | (cu & ac & k & _ & _ & _ & -> & Dcu & Dac & Dk & _)].
    + destruct Hs3 as [(_ & -> & ->) | (Hsome & _)].
      * simpl. rewrite Hcu, Hac, Hco, Hst. repeat split; try done; by left.
      * simpl in Hsome, Hnone. rewrite Hnone in Hsome. by destruct Hsome.
    + rewrite Dcu, Dac, Dk. repeat split; try done.
      * right. repeat split; done.
      * right. repeat split; simpl; done.
  - rewrite Hdue. simpl. rewrite Hs3, Hst. repeat split; try done. by left.
Qed.

Lemma at_portal_available (env : Env) (w : World) :
  _portal_available (self (at_portal env w)) = _portal_available (self w).
Proof.
  destruct (opendata_part_spec env w) as (w1 & E1 & _ & _ & F1 & _).
  destruct (calendar_block_spec env w1) as (w2 & E2 & _ & _ & F2 & _).
  destruct (tick_unfold env w w1 w2 E1 E2) as (_ & -> & _).
  unfold opendata_frame in F1. unfold calendar_frame in F2.
  rewrite F2. simpl. by_frame F1.
Qed.

Lemma reachable_entry (e : Entry) (user pass : string)
    (calendar_entity_id : option string) (w : World) :
  reachable e user pass calendar_entity_id w -> entry (self w) = e.
Proof.
  induction 1 as [|w s _ IH]; [done|].
  destruct s as [env|t].
  - rewrite step_tick.
    destruct (tick_tasks env w) as (He & _).
    destruct (run _async_update_data env w) as [[d|x] w']; simpl in *;
      congruence.
  - simpl. unfold finish_task. by destruct (tasks w !! t).
Qed.

(** X9. A coordinator in public-data-only mode never touches the
    authenticated source, whatever the environments of its ticks: the only
    capability it ever calls is the fetch of the public feed, it caches no
    customer, account or contract, stores no portal stamp, no portal
    status and no completion time, publishes nothing but the empty
    snapshot and starts no task other than calendar synchronisations. *)
Theorem public_only_never_touches_portal (e : Entry) (user pass : string)
    (calendar_entity_id : option string) (w : World) :
  _auth_mode e = AUTH_MODE_OPENDATA ->
  reachable e user pass calendar_entity_id w ->
  untouched_by_portal w.
Proof.
  intros Hmode Hreach.
  pose proof (reachable_entry _ _ _ _ _ Hreach) as Hentry.
  induction Hreach as [|w s Hreach IH].
  { unfold untouched_by_portal. simpl. repeat split; try done; by left. }
  pose proof (reachable_entry _ _ _ _ _ Hreach) as He.
  specialize (IH He).
  destruct IH as (Ic & Icu & Iac & Ico & Ist & Iav & Iok & Id & It).
  destruct s as [env|t].
  - rewrite step_tick.
    assert (Hopen : is_opendata_mode (self w) = true).
    { unfold is_opendata_mode. by rewrite He, Hmode. }
    destruct (tick_anatomy env w)
      as (w1 & w2 & E1 & E2 & A1 & A2 & _ & [(_ & Ht) | (Hno & _)]);
      [|congruence].
    rewrite Ht.
    destruct (at_portal_spec env w)
      as (w1' & w2' & _ & _ & _ & A2' & _ & _ & Hcu & Hac & Hco & Hst & Hok & _).
    assert (w2' = w2) as -> by congruence.
    pose proof (at_portal_available env w) as Hav.
    pose proof (at_portal_calls env w) as Hcalls.
    destruct (at_calendar_calls env w) as (pub & Hpub & Hcal).
    destruct (at_portal_tasks env w) as (_ & Htasks).
    rewrite A2 in *. unfold untouched_by_portal. simpl.
    split.
    { rewrite Hcalls, Hcal. apply Forall_app. split; [done|].
      destruct Hpub as [-> | ->]; by repeat constructor. }
    repeat split; try congruence; [by right|].
    destruct Htasks as [(-> & _) | (-> & _)]; [done|].
    apply Forall_app. split; [done|]. by repeat constructor.
  - simpl. unfold finish_task.
    destruct (tasks w !! t) as [tk|] eqn:Hl; unfold untouched_by_portal; simpl.
    + repeat split; try done.
      apply Forall_insert; [done|]. simpl.
      by apply (Forall_lookup_1 _ _ _ _ It Hl).
    + repeat split; done.
Qed.

Lemma public_only_never_touches_portal_witness :
  untouched_by_portal
    (step (init_world (init entry_opendata "" "" (Some "calendar.hydroqc")))
       (Tick (env_peaks (frozen jan_0958) [1; 2]%N))).
Proof.
  apply (public_only_never_touches_portal entry_opendata "" ""
           (Some "calendar.hydroqc")).
  - reflexivity.
  - apply reachable_step. apply reachable_init.
Defined.

Lemma coherent_init (c : Coordinator) :
  data c = None -> _last_portal_update c = None -> coherent (init_world c).
Proof.
  intros Hd Hs. unfold coherent. simpl. rewrite Hd, Hs.
  split; [done|]. intros [? ?]. done.
Qed.

(** X10. In every world a coordinator can reach, the published snapshot is
    the empty one or has its three fields set, never a mixture, and a
    portal stamp is stored only once customer, account and contract are
    cached. *)
Theorem reachable_coherent (e : Entry) (user pass : string)
    (calendar_entity_id : option string) (w : World) :
  reachable e user pass calendar_entity_id w -> coherent w.
Proof.
  induction 1 as [|w s _ (Id & Is)]; [by apply coherent_init|].
  destruct s as [env|t].
  - rewrite step_tick.
    destruct (tick_caches env w) as (Mcu & Mac & Mco & Hst & Hr).
    pose proof (tick_spec env w) as Hspec.
    destruct (run _async_update_data env w) as [[d|x] w'];
      simpl in *; destruct Hspec as (Hdata & _).
    + split; simpl; [done|]. intros Hsome.
      destruct Hst as [Hst | (? & ? & ?)]; [|done].
      rewrite Hst in Hsome. destruct (Is Hsome) as (? & ? & ?). auto.
    + unfold coherent. rewrite Hdata. split; [done|]. intros Hsome.
      destruct Hst as [Hst | (? & ? & ?)]; [|done].
      rewrite Hst in Hsome. destruct (Is Hsome) as (? & ? & ?). auto.
  - simpl. unfold finish_task.
    destruct (tasks w !! t); unfold coherent; simpl; done.
Qed.

Lemma reachable_coherent_witness :
  coherent
    (step (init_world (init entry_portal "u" "p" None))
       (Tick (env_ok (frozen jan_0958)))).
Proof.
  apply (reachable_coherent entry_portal "u" "p" None).
  apply reachable_step. apply reachable_init.
Defined.

(** X11. In every world a coordinator can reach, the calendar handle names
    a calendar task of the loop and the regular handle a consumption
    task: a handle never dangles and never names a task of the other
    kind. *)
Theorem reachable_handles_valid (e : Entry) (user pass : string)
    (calendar_entity_id : option string) (w : World) :
  reachable e user pass calendar_entity_id w -> handles_valid w.
Proof.
  induction 1 as [|w s _ (Ic & Ir)]; [by split; intros t Ht|].
  destruct s as [env|t0].
  - rewrite step_tick.
    destruct (at_portal_tasks env w) as (Hr2 & H2).
    destruct (tick_tasks env w) as (_ & _ & Hc' & H').
    assert (Hv : handles_valid (snd (run _async_update_data env w))).
    { set (w2 := at_portal env w) in *.
      set (w' := snd (run _async_update_data env w)) in *.
      assert (Hc2 : forall t, _calendar_sync_task (self w2) = Some t ->
        exists tk, tasks w2 !! t = Some tk /\ task_name tk = calendar_sync).
      { intros t Ht. destruct H2 as [(T2 & C2) | (T2 & C2)].
        - rewrite T2. apply Ic. congruence.
        - rewrite C2 in Ht. injection Ht as <-. rewrite T2.
          exists (mk_Task calendar_sync Running).
          by rewrite list_lookup_middle. }
      assert (Hr2' : forall t, _regular_sync_task (self w) = Some t ->
        exists tk, tasks w2 !! t = Some tk /\ task_name tk = consumption_sync).
      { intros t Ht. destruct (Ir t Ht) as (tk & Hl & Hn). exists tk.
        split; [|done].
        destruct H2 as [(T2 & _) | (T2 & _)]; rewrite T2; [done|].
        by apply lookup_app_l_Some. }
      split.
      - intros t Ht. rewrite Hc' in Ht. destruct (Hc2 t Ht) as (tk & Hl & Hn).
        exists tk. split; [|done].
        destruct H' as [(T' & _) | (T' & _)]; rewrite T'; [done|].
        by apply lookup_app_l_Some.
      - intros t Ht. destruct H' as [(T' & R') | (T' & R')].
        + rewrite T'. apply Hr2'. congruence.
        + rewrite R' in Ht. injection Ht as <-. rewrite T'.
          exists (mk_Task consumption_sync Running).
          by rewrite list_lookup_middle. }
    destruct (run _async_update_data env w) as [[d|x] w']; simpl in *; done.
  - simpl. unfold finish_task.
    destruct (tasks w !! t0) as [tk0|] eqn:Hl0; unfold handles_valid; simpl;
      [|done].
    split; intros t Ht.
    + destruct (Ic t Ht) as (tk & Hl & Hn).
      destruct (decide (t = t0)) as [->|Hne].
      * exists (mk_Task (task_name tk0) Done).
        rewrite list_lookup_insert_eq by (by eapply lookup_lt_Some).
        split; [done|]. simpl. congruence.
      * exists tk. by rewrite list_lookup_insert_ne.
    + destruct (Ir t Ht) as (tk & Hl & Hn).
      destruct (decide (t = t0)) as [->|Hne].
      * exists (mk_Task (task_name tk0) Done).
        rewrite list_lookup_insert_eq by (by eapply lookup_lt_Some).
        split; [done|]. simpl. congruence.
      * exists tk. by rewrite list_lookup_insert_ne.
Qed.

Lemma reachable_handles_valid_witness :
  handles_valid
    (step
       (step (init_world (init entry_portal "u" "p" (Some "calendar.hydroqc")))
          (Tick (env_peaks (frozen jan_0958) [1; 2]%N)))
       (Finish 0)).
Proof.
  apply (reachable_handles_valid entry_portal "u" "p" (Some "calendar.hydroqc")).
  apply reachable_step. apply reachable_step. apply reachable_init.
Defined.

(** X12. Along every run at most one calendar synchronisation is running,
    however the ticks and the completions of tasks interleave. *)
Theorem reachable_calendar_single_instance (e : Entry) (user pass : string)
    (calendar_entity_id : option string) (w : World) :
  reachable e user pass calendar_entity_id w ->
  (running calendar_sync (tasks w) <= 1)%nat.
Proof.
  intros Hreach. apply calendar_sync_single_instance.
  induction Hreach as [|w s _ IH]; [apply calendar_single_init|].
  destruct s as [env|t].
  - rewrite step_tick. pose proof (calendar_single_tick env w IH) as Ht.
    destruct (run _async_update_data env w) as [[d|x] w']; simpl in *; done.
  - by apply calendar_single_finish.
Qed.

Lemma reachable_calendar_single_instance_witness :
  (running calendar_sync
     (tasks
        (step
           (step (init_world (init entry_opendata "" "" (Some "calendar.hydroqc")))
              (Tick (env_peaks (frozen jan_0958) [1; 2]%N)))
           (Tick (env_peaks (frozen jan_1003) [1; 2; 3]%N))))
   <= 1)%nat.
Proof.
  apply (reachable_calendar_single_instance entry_opendata "" ""
           (Some "calendar.hydroqc")).
  apply reachable_step. apply reachable_step. apply reachable_init.
Defined.

(** X13. The configuration entry is never replaced, and the web user is
    the one built at construction, with the credentials given then: it
    exists exactly in portal mode, and no tick creates, replaces or drops
    it. *)
Theorem reachable_webuser (e : Entry) (user pass : string)
    (calendar_entity_id : option string) (w : World) :
  reachable e user pass calendar_entity_id w ->
  entry (self w) = e /\
  _webuser (self w)
  = (if is_portal_mode (self w) then Some (mk_WebUser user pass) else None).
Proof.
  induction 1 as [|w s _ (IHe & IHw)].
  { split; [done|]. unfold is_portal_mode. simpl.
    by destruct (_auth_mode e). }
  destruct s as [env|t].
  - rewrite step_tick.
    destruct (tick_tasks env w) as (He & Hw & _).
    destruct (run _async_update_data env w) as [[d|x] w']; simpl in *.
    + split; [congruence|].
      change (is_portal_mode (set_data (Some d) (self w')))
        with (is_portal_mode (self w')).
      rewrite (is_portal_mode_entry (self w) (self w') He). congruence.
    + split; [congruence|].
      rewrite (is_portal_mode_entry (self w) (self w') He). congruence.
  - simpl. unfold finish_task. by destruct (tasks w !! t).
Qed.

Lemma reachable_webuser_witness :
  entry
    (self (step (init_world (init entry_portal "u" "p" None))
             (Tick (env_ok (frozen jan_0958)))))
  = entry_portal /\
  _webuser
    (self (step (init_world (init entry_portal "u" "p" None))
             (Tick (env_ok (frozen jan_0958)))))
  = (if is_portal_mode
          (self (step (init_world (init entry_portal "u" "p" None))
                   (Tick (env_ok (frozen jan_0958)))))
     then Some (mk_WebUser "u" "p") else None).
Proof.
  apply (reachable_webuser entry_portal "u" "p" None).
  apply reachable_step. apply reachable_init.
Defined.

(** ** The calendar arithmetic *)

Lemma month_day_table :
  forallb (fun n =>
    forallb (fun leap =>
      let '(m, d) := month_day leap (Z.of_nat n) in
      (1 <=? m) && (m <=? 12) && (1 <=? d) &&
      (nth (Z.to_nat m) [0; 0; 31; 59; 90; 120; 151; 181; 212; 243; 273; 304; 334] 0
       + (if (2 <? m) && leap then 1 else 0) + d =? Z.of_nat n + 1))
      [false; true]) (seq 0 366) = true.
Proof. vm_compute. reflexivity. Qed.

(** [month_day] inverts the table of days before a month, on every day
    of a year *)
Lemma month_day_spec (leap : bool) (n : Z) :
  0 <= n < 366 ->
  let '(m, d) := month_day leap n in
  1 <= m <= 12 /\ 1 <= d /\
  nth (Z.to_nat m) [0; 0; 31; 59; 90; 120; 151; 181; 212; 243; 273; 304; 334] 0
  + (if (2 <? m) && leap then 1 else 0) + d = n + 1.
Proof.
  intros Hn. pose proof month_day_table as H.
  rewrite forallb_forall in H. specialize (H (Z.to_nat n)).
  rewrite Z2Nat.id in H by lia.
  assert (Hin : In (Z.to_nat n) (seq 0 366)) by (apply in_seq; lia).
  apply H in Hin. rewrite forallb_forall in Hin.
  assert (Hl : In leap [false; true]) by (destruct leap; simpl; tauto).
  apply Hin in Hl. destruct (month_day leap n) as [m d].
  repeat (apply andb_true_iff in Hl as [Hl ?]). lia.
Qed.

(** [date.fromordinal(n).toordinal() == n] *)
Lemma toordinal_ord2ymd (n h m s us : Z) :
  1 <= n ->
  let '(y, mo, d) := ord2ymd n in
  toordinal (mk_datetime y mo d h m s us) = n.
Proof.
  intros Hn. unfold ord2ymd.
  set (n0 := n - 1).
  set (n400 := n0 / 146097). set (r1 := n0 mod 146097).
  set (n100 := r1 / 36524). set (r2 := r1 mod 36524).
  set (n4 := r2 / 1461). set (r3 := r2 mod 1461).
  set (n1 := r3 / 365). set (r4 := r3 mod 365).
  assert (H400 : n0 = 146097 * n400 + r1 /\ 0 <= r1 < 146097 /\ 0 <= n400).
  { subst n400 r1. pose proof (Z.div_mod n0 146097).
    pose proof (Z.mod_pos_bound n0 146097).
    assert (0 <= n0 / 146097) by (apply Z.div_pos; lia). lia. }
  assert (H100 : r1 = 36524 * n100 + r2 /\ 0 <= r2 < 36524 /\ 0 <= n100 <= 4).
  { subst n100 r2. pose proof (Z.div_mod r1 36524).
    pose proof (Z.mod_pos_bound r1 36524).
    assert (0 <= r1 / 36524) by (apply Z.div_pos; lia).
    assert (r1 / 36524 < 5) by (apply Z.div_lt_upper_bound; lia). lia. }
  assert (H4 : r2 = 1461 * n4 + r3 /\ 0 <= r3 < 1461 /\ 0 <= n4 <= 24).
  { subst n4 r3. pose proof (Z.div_mod r2 1461).
    pose proof (Z.mod_pos_bound r2 1461).
    assert (0 <= r2 / 1461) by (apply Z.div_pos; lia).
    assert (r2 / 1461 < 25) by (apply Z.div_lt_upper_bound; lia). lia. }
  assert (H1 : r3 = 365 * n1 + r4 /\ 0 <= r4 < 365 /\ 0 <= n1 <= 4).
  { subst n1 r4. pose proof (Z.div_mod r3 365).
    pose proof (Z.mod_pos_bound r3 365).
    assert (0 <= r3 / 365) by (apply Z.div_pos; lia).
    assert (r3 / 365 < 5) by (apply Z.div_lt_upper_bound; lia). lia. }
  clearbody n400 r1 n100 r2 n4 r3 n1 r4.
  destruct ((n1 =? 4) || (n100 =? 4)) eqn:Hend.
  - unfold toordinal, days_before_year, days_before_month, is_leap.
    simpl year. simpl month. simpl day. simpl nth.
    apply orb_true_iff in Hend.
    assert (n1 = 4 /\ r4 = 0 \/ n100 = 4 /\ r2 = 0) as Hc.
    { destruct Hend as [H|H]; apply Z.eqb_eq in H; [left|right]; lia. }
    replace (2 <? 12) with true by reflexivity. simpl andb.
    repeat match goal with
           | |- context [?a =? ?b] => destruct (Z.eqb_spec a b)
           end; simpl; Z.div_mod_to_equations; lia.
  - apply orb_false_iff in Hend as [He1 He2].
    apply Z.eqb_neq in He1, He2.
    set (leapyear := (n1 =? 3) && (negb (n4 =? 24) || (n100 =? 3))).
    pose proof (month_day_spec leapyear r4 ltac:(lia)) as Hmd.
    destruct (month_day leapyear r4) as [mo d].
    destruct Hmd as (_ & _ & Hmd).
    unfold toordinal, days_before_year, days_before_month.
    simpl year. simpl month. simpl day.
    assert (Hleap : is_leap (n400 * 400 + 1 + n100 * 100 + n4 * 4 + n1)
                    = leapyear).
    { subst leapyear. unfold is_leap.
      repeat match goal with
             | |- context [?a =? ?b] => destruct (Z.eqb_spec a b)
             end; simpl; try reflexivity; exfalso;
        Z.div_mod_to_equations; lia. }
    rewrite Hleap.
    Z.div_mod_to_equations; lia.
Qed.

(** the next top of the hour: strictly after [now], at most an hour later *)
Lemma next_hour_spec (now : datetime) :
  well_formed now ->
  toordinal now < MAXORDINAL \/ hour now < 23 ->
  exists nx, next_hour now = Some nx /\
    minute nx = 0 /\ second nx = 0 /\ microsecond nx = 0 /\
    0 <= hour nx < 24 /\
    0 < sub_us nx now <= 3600 * 1000000 /\
    sub_us nx now
    = 3600 * 1000000
      - ((minute now * 60 + second now) * 1000000 + microsecond now).
Proof.
  intros (Ho & Hh & Hm & Hs & Hu) Hlast.
  unfold next_hour, add_hours, seconds_of_day.
  set (o := toordinal now) in *.
  set (total := (o * 86400 + (second now + minute now * 60 + hour now * 3600))
                * 1000000 + microsecond now + 1 * 3600 * 1000000).
  set (days := total / 86400000000).
  set (rest := total mod 86400000000).
  set (secs := rest / 1000000).
  set (h' := secs / 3600).
  assert (Hd : total = 86400000000 * days + rest /\ 0 <= rest < 86400000000).
  { subst days rest. pose proof (Z.div_mod total 86400000000).
    pose proof (Z.mod_pos_bound total 86400000000). lia. }
  assert (Hsec : rest = 1000000 * secs + rest mod 1000000 /\
                 0 <= rest mod 1000000 < 1000000).
  { subst secs. pose proof (Z.div_mod rest 1000000).
    pose proof (Z.mod_pos_bound rest 1000000). lia. }
  assert (Hh' : secs = 3600 * h' + secs mod 3600 /\ 0 <= secs mod 3600 < 3600).
  { subst h'. pose proof (Z.div_mod secs 3600).
    pose proof (Z.mod_pos_bound secs 3600). lia. }
  unfold MAXORDINAL in *.
  assert (Hrange : 0 < days <= 3652059) by (subst total; lia).
  assert (Hrem : secs mod 3600 = minute now * 60 + second now /\
                 rest mod 1000000 = microsecond now).
  { subst total. clearbody days rest secs h'.
    generalize dependent (secs mod 3600). generalize dependent (rest mod 1000000).
    intros. lia. }
  replace ((0 <? days) && (days <=? 3652059)) with true by lia.
  pose proof (toordinal_ord2ymd days h' 0 0 0 ltac:(lia)) as Hord.
  destruct (ord2ymd days) as [[y mo] d].
  eexists. split; [reflexivity|]. simpl.
  repeat split; try lia.
  all: unfold sub_us, seconds_of_day; simpl hour; simpl minute; simpl second;
    simpl microsecond; fold o.
  all: replace (toordinal (mk_datetime y mo d h' 0 0 0)) with days.
  all: subst total; lia.
Qed.

Lemma jan_0958_well_formed : well_formed jan_0958.
Proof. unfold well_formed. vm_compute. repeat split; discriminate. Qed.

(** ** The hourly schedule *)

(** X14. [_schedule_hourly_update] registers exactly one point in time:
    the next top of the hour, which lies strictly after the reading of the
    clock and at most one hour after it (so a reading taken exactly on the
    hour schedules the following hour); it leaves the coordinator, the
    sessions and the refresh requests alone.  The reading must not fall in
    the last hour of the last representable day, where the addition
    overflows. *)
Theorem schedule_registers_next_top_of_hour (now : datetime) (h : Host) :
  well_formed now ->
  toordinal now < MAXORDINAL \/ hour now < 23 ->
  exists nx h', _schedule_hourly_update now h = (Ok tt, h') /\
    tracked h' = tracked h ++ [nx] /\
    minute nx = 0 /\ second nx = 0 /\ microsecond nx = 0 /\
    0 < sub_us nx now <= 3600 * 1000000 /\
    sub_us nx now
    = 3600 * 1000000
      - ((minute now * 60 + second now) * 1000000 + microsecond now) /\
    self (world h') = self (world h) /\ tasks (world h') = tasks (world h) /\
    closed h' = closed h /\ refresh_requests h' = refresh_requests h.
Proof.
  intros Hwf Hlast.
  destruct (next_hour_spec now Hwf Hlast)
    as (nx & Hnx & Hm & Hs & Hu & _ & Hlt & Heq).
  unfold _schedule_hourly_update. rewrite Hnx.
  exists nx. eexists. split; [reflexivity|]. simpl. repeat split; done || lia.
Qed.

Lemma schedule_registers_next_top_of_hour_witness :
  exists nx h', _schedule_hourly_update jan_0958 host_both = (Ok tt, h') /\
    tracked h' = tracked host_both ++ [nx] /\
    minute nx = 0 /\ second nx = 0 /\ microsecond nx = 0 /\
    0 < sub_us nx jan_0958 <= 3600 * 1000000 /\
    sub_us nx jan_0958
    = 3600 * 1000000
      - ((minute jan_0958 * 60 + second jan_0958) * 1000000
         + microsecond jan_0958) /\
    self (world h') = self (world host_both) /\
    tasks (world h') = tasks (world host_both) /\
    closed h' = closed host_both /\
    refresh_requests h' = refresh_requests host_both.
Proof.
  apply (schedule_registers_next_top_of_hour jan_0958 host_both).
  - apply jan_0958_well_formed.
  - right. vm_compute. reflexivity.
Defined.

(** X15. [_async_hourly_update] requests one refresh and then schedules
    the next top of the hour; when the refresh request raises, the
    exception leaves the method and no further update is scheduled, so
    the hourly chain ends there. *)
Theorem hourly_update_chain (refresh : Outcome unit) (now : datetime)
    (h : Host) :
  well_formed now ->
  toordinal now < MAXORDINAL \/ hour now < 23 ->
  exists r h', _async_hourly_update refresh now h = (r, h') /\
    refresh_requests h' = S (refresh_requests h) /\
    self (world h') = self (world h) /\
    match refresh with
    | Ok _ =>
        r = Ok tt /\
        exists nx, tracked h' = tracked h ++ [nx] /\
          minute nx = 0 /\ second nx = 0 /\ microsecond nx = 0 /\
          0 < sub_us nx now <= 3600 * 1000000
    | Raise e => r = Raise e /\ tracked h' = tracked h
    end.
Proof.
  intros Hwf Hlast.
  destruct (next_hour_spec now Hwf Hlast)
    as (nx & Hnx & Hm & Hs & Hu & _ & Hlt & _).
  unfold _async_hourly_update, _schedule_hourly_update, and_then, host_log.
  rewrite Hnx. destruct refresh as [[]|e]; simpl.
  - eexists _, _. split; [reflexivity|]. simpl. repeat split.
    exists nx. repeat split; done || lia.
  - eexists _, _. split; [reflexivity|]. simpl. repeat split.
Qed.

Lemma hourly_update_chain_witness :
  exists r h',
    _async_hourly_update (Raise (OtherException "refresh failed")) jan_0958
      host_both = (r, h') /\
    refresh_requests h' = S (refresh_requests host_both) /\
    self (world h') = self (world host_both) /\
    r = Raise (OtherException "refresh failed") /\
    tracked h' = tracked host_both.
Proof.
  apply (hourly_update_chain (Raise (OtherException "refresh failed"))
           jan_0958 host_both).
  - apply jan_0958_well_formed.
  - right. vm_compute. reflexivity.
Defined.

(** ** Shutdown *)

(** Lines 394-401 *)
Lemma shutdown_csv_import_spec (senv : ShutdownEnv) (h : Host) :
  exists r h', shutdown_csv_import senv h = (r, h') /\
    self (world h') = self (world h) /\ tasks (world h') = tasks (world h) /\
    calls (world h') = calls (world h) /\
    closed h' = closed h /\ tracked h' = tracked h /\
    _csv_import_task h' <> Some Running /\
    match r with
    | Ok _ =>
        _csv_import_task h = Some Running ->
        forall e, await_csv_import senv <> AwaitRaised e
    | Raise e =>
        _csv_import_task h = Some Running /\
        await_csv_import senv = AwaitRaised e
    end.
Proof.
  unfold shutdown_csv_import, awaited, host_log, skip.
  destruct (_csv_import_task h) as [[|]|] eqn:Hcsv;
    [destruct (await_csv_import senv) as [| |e1] eqn:Ha1 | |];
    eexists _, _; (split; [reflexivity|]); simpl; rewrite ?Hcsv;
    repeat split; done.
Qed.

(** Lines 403-410 *)
Lemma shutdown_regular_sync_spec (senv : ShutdownEnv) (h : Host) :
  exists r h', shutdown_regular_sync senv h = (r, h') /\
    self (world h') = self (world h) /\
    calls (world h') = calls (world h) /\
    closed h' = closed h /\ tracked h' = tracked h /\
    _csv_import_task h' = _csv_import_task h /\
    (tasks (world h') = tasks (world h) \/
     exists t tk, _regular_sync_task (self (world h)) = Some t /\
       tasks (world h) !! t = Some tk /\ task_state tk = Running /\
       tasks (world h')
       = <[t := mk_Task (task_name tk) Done]> (tasks (world h))) /\
    (forall t tk, _regular_sync_task (self (world h')) = Some t ->
       tasks (world h') !! t = Some tk -> task_state tk = Done) /\
    match r with
    | Ok _ =>
        forall t tk, _regular_sync_task (self (world h)) = Some t ->
          tasks (world h) !! t = Some tk -> task_state tk = Running ->
          forall e, await_regular_sync senv <> AwaitRaised e
    | Raise e =>
        await_regular_sync senv = AwaitRaised e /\
        exists t tk, _regular_sync_task (self (world h)) = Some t /\
          tasks (world h) !! t = Some tk /\ task_state tk = Running
    end.
Proof.
  unfold shutdown_regular_sync.
  destruct (_regular_sync_task (self (world h))) as [t|] eqn:Hh.
  2:{ eexists _, _. split; [reflexivity|]. rewrite Hh.
      repeat split; try done. by left. }
  destruct (tasks (world h) !! t) as [tk|] eqn:Hl.
  2:{ eexists _, _. split; [reflexivity|]. rewrite Hh.
      repeat split; try done; [by left| |].
      - intros t' tk' [= <-] Hl'. congruence.
      - intros t' tk' [= <-] Hl'. congruence. }
  destruct (bool_decide (task_state tk = Done)) eqn:Hd.
  { apply bool_decide_eq_true in Hd.
    eexists _, _. split; [reflexivity|]. rewrite Hh.
    repeat split; try done; [by left| |].
    - intros t' tk' [= <-] Hl'. congruence.
    - intros t' tk' [= <-] Hl' Hs'. congruence. }
  apply bool_decide_eq_false in Hd.
  assert (Hrun : task_state tk = Running) by (by destruct (task_state tk)).
  assert (Hfin : tasks (finish_task t (world h))
                 = <[t := mk_Task (task_name tk) Done]> (tasks (world h))).
  { unfold finish_task. by rewrite Hl. }
  assert (Hself : self (finish_task t (world h)) = self (world h)).
  { unfold finish_task. by rewrite Hl. }
  assert (Hcalls : calls (finish_task t (world h)) = calls (world h)).
  { unfold finish_task. by rewrite Hl. }
  assert (Hdone : forall t' tk',
    _regular_sync_task (self (world h)) = Some t' ->
    <[t := mk_Task (task_name tk) Done]> (tasks (world h)) !! t' = Some tk' ->
    task_state tk' = Done).
  { intros t' tk' Ht' Hl'. rewrite Hh in Ht'. injection Ht' as <-.
    rewrite list_lookup_insert_eq in Hl' by (by eapply lookup_lt_Some).
    by injection Hl' as <-. }
  unfold awaited, host_log, skip.
  destruct (await_regular_sync senv) as [| |e2] eqn:Ha2;
    eexists _, _; (split; [reflexivity|]); simpl;
    rewrite ?Hself, ?Hcalls, ?Hfin;
    (split; [done|]); (split; [done|]); (split; [done|]); (split; [done|]);
    (split; [done|]); (split; [right; by exists t, tk|]);
    (split; [exact Hdone|]).
  - intros; congruence.
  - intros; congruence.
  - split; [done|]. by exists t, tk.
Qed.

Lemma running_insert_done (n : TaskName) (l : list Task) (t : nat) (tk : Task) :
  l !! t = Some tk ->
  let l' := <[t := mk_Task (task_name tk) Done]> l in
  (task_name tk <> n -> running n l' = running n l) /\
  (running n l <= S (running n l'))%nat /\
  (running n l' <= running n l)%nat /\
  (forall i, i <> t -> l' !! i = l !! i).
Proof.
  intros Hl l'. subst l'.
  pose proof (lookup_lt_Some _ _ _ Hl) as Hlt.
  assert (Hrun : forall m,
    (running m (<[t := mk_Task (task_name tk) Done]> l)
     + length (filter (fun x => task_name x = m /\ task_state x = Running) [tk])
     = running m l)%nat).
  { intros m. rewrite insert_take_drop by done.
    pose proof (take_drop_middle l t tk Hl) as Hmid.
    unfold running. rewrite <- Hmid at 3.
    rewrite !filter_app, !length_app.
    rewrite (filter_cons_False _ (mk_Task (task_name tk) Done))
      by (simpl; intros [_ ?]; done).
    destruct (decide (task_name tk = m /\ task_state tk = Running)).
    - rewrite !(filter_cons_True _ tk) by done. simpl. lia.
    - rewrite !(filter_cons_False _ tk) by done. simpl. lia. }
  pose proof (Hrun n) as Hn.
  split; [|split; [|split]].
  - intros Hne. rewrite filter_cons_False in Hn by (by intros [? _]).
    simpl in Hn. lia.
  - destruct (decide (task_name tk = n /\ task_state tk = Running)).
    + rewrite filter_cons_True in Hn by done. simpl in Hn. lia.
    + rewrite filter_cons_False in Hn by done. simpl in Hn. lia.
  - lia.
  - intros i Hne. by rewrite list_lookup_insert_ne.
Qed.

Lemma host_both_handles_valid : handles_valid (world host_both).
Proof.
  split; intros t Ht; vm_compute in Ht; injection Ht as <-;
    eexists; split; vm_compute; reflexivity.
Qed.

(** Every way [async_shutdown] can end. *)
Lemma async_shutdown_spec (senv : ShutdownEnv) (h : Host) :
  let web := if truthy (_webuser (self (world h)))
             then [webuser_session] else [] in
  exists r h', async_shutdown senv h = (r, h') /\
    self (world h') = self (world h) /\ calls (world h') = calls (world h) /\
    tracked h' = tracked h /\ _csv_import_task h' <> Some Running /\
    (tasks (world h') = tasks (world h) \/
     exists t tk, _regular_sync_task (self (world h)) = Some t /\
       tasks (world h) !! t = Some tk /\ task_state tk = Running /\
       tasks (world h')
       = <[t := mk_Task (task_name tk) Done]> (tasks (world h))) /\
    match r with
    | Ok _ =>
        closed h' = closed h ++ web ++ [public_client_session] /\
        (forall t tk, _regular_sync_task (self (world h')) = Some t ->
           tasks (world h') !! t = Some tk -> task_state tk = Done) /\
        (_csv_import_task h = Some Running ->
         forall e, await_csv_import senv <> AwaitRaised e) /\
        (forall t tk, _regular_sync_task (self (world h)) = Some t ->
           tasks (world h) !! t = Some tk -> task_state tk = Running ->
           forall e, await_regular_sync senv <> AwaitRaised e) /\
        (is_Some (_webuser (self (world h))) ->
         webuser_close_result senv = Ok tt) /\
        public_close_result senv = Ok tt
    | Raise e =>
        _csv_import_task h = Some Running /\
        await_csv_import senv = AwaitRaised e /\
        closed h' = closed h /\ tasks (world h') = tasks (world h)
        \/
        await_regular_sync senv = AwaitRaised e /\
        (exists t tk, _regular_sync_task (self (world h)) = Some t /\
           tasks (world h) !! t = Some tk /\ task_state tk = Running) /\
        closed h' = closed h
        \/
        is_Some (_webuser (self (world h))) /\
        webuser_close_result senv = Raise e /\
        closed h' = closed h ++ [webuser_session]
        \/
        public_close_result senv = Raise e /\
        closed h' = closed h ++ web ++ [public_client_session]
    end.
Proof.
  intros web. subst web.
  unfold async_shutdown, and_then at 1, host_log.
  set (h0 := with_world _ h).
  unfold and_then at 1.
  destruct (shutdown_csv_import_spec senv h0)
    as (r1 & h1 & E1 & S1 & T1 & C1 & Cl1 & Tr1 & Csv1 & Hr1).
  rewrite E1. subst h0. simpl in *.
  destruct r1 as [[]|e1].
  2:{ eexists _, _. split; [reflexivity|].
      repeat split; try done; [by left|]. left. by destruct Hr1. }
  unfold and_then at 1.
  destruct (shutdown_regular_sync_spec senv h1)
    as (r2 & h2 & E2 & S2 & C2 & Cl2 & Tr2 & Csv2 & T2 & D2 & Hr2).
  rewrite E2. rewrite S1, T1 in T2, Hr2. rewrite S1 in S2. rewrite C1 in C2.
  destruct r2 as [[]|e2].
  2:{ eexists _, _. split; [reflexivity|].
      repeat split; try congruence. right. left.
      destruct Hr2 as (? & ?). repeat split; try done; congruence. }
  unfold and_then, close_session. rewrite S2.
  destruct (_webuser (self (world h))) as [wu|] eqn:Hwu; simpl.
  - destruct (webuser_close_result senv) as [[]|e3] eqn:Hw3.
    + destruct (public_close_result senv) as [[]|e4] eqn:Hp4;
        eexists _, _; (split; [reflexivity|]); simpl;
        (split; [congruence|]); (split; [congruence|]);
        (split; [congruence|]); (split; [congruence|]); (split; [done|]).
      * rewrite Cl2, Cl1, <- app_assoc. simpl.
        split; [done|]. split; [done|]. split; [done|]. split; [done|].
        split; done.
      * right. right. right. rewrite Cl2, Cl1, <- app_assoc. done.
    + eexists _, _. split; [reflexivity|]. simpl.
      repeat split; try congruence. right. right. left.
      split; [by eexists|]. split; congruence.
  - destruct (public_close_result senv) as [[]|e4] eqn:Hp4;
      eexists _, _; (split; [reflexivity|]); simpl;
      (split; [congruence|]); (split; [congruence|]);
      (split; [congruence|]); (split; [congruence|]); (split; [done|]).
    + rewrite Cl2, Cl1. simpl.
      split; [done|]. split; [done|]. split; [done|]. split; [done|].
      split; [|done]. intros [? ?]. done.
    + right. right. right. rewrite Cl2, Cl1. done.
Qed.

(** X16. When no awaited task ends in an exception of its own and both
    sessions close, [async_shutdown] returns: the CSV import task and the
    task the regular handle names are then no longer running, the
    sessions have been closed in the order web user (if there is one),
    public client, none of them twice, and no attribute of the
    coordinator was assigned and no capability called. *)
Theorem shutdown_completes (senv : ShutdownEnv) (h : Host) :
  (forall e, await_csv_import senv <> AwaitRaised e) ->
  (forall e, await_regular_sync senv <> AwaitRaised e) ->
  webuser_close_result senv = Ok tt ->
  public_close_result senv = Ok tt ->
  exists h', async_shutdown senv h = (Ok tt, h') /\
    _csv_import_task h' <> Some Running /\
    (forall t tk, _regular_sync_task (self (world h')) = Some t ->
       tasks (world h') !! t = Some tk -> task_state tk = Done) /\
    closed h'
    = closed h ++ (if truthy (_webuser (self (world h)))
                   then [webuser_session] else [])
      ++ [public_client_session] /\
    self (world h') = self (world h) /\ calls (world h') = calls (world h) /\
    tracked h' = tracked h.
Proof.
  intros Hcsv Hreg Hweb Hpub.
  destruct (async_shutdown_spec senv h)
    as (r & h' & E & Hs & Hc & Ht & Hcsv' & _ & Hr).
  destruct r as [[]|e].
  - exists h'. destruct Hr as (Hcl & Hd & _). repeat split; done.
  - exfalso.
    destruct Hr as [(_ & Ha & _) | [(Ha & _) | [(_ & Ha & _) | (Ha & _)]]].
    + by apply (Hcsv e).
    + by apply (Hreg e).
    + congruence.
    + congruence.
Qed.

Lemma shutdown_completes_witness :
  exists h', async_shutdown senv_quiet host_both = (Ok tt, h') /\
    _csv_import_task h' <> Some Running /\
    (forall t tk, _regular_sync_task (self (world h')) = Some t ->
       tasks (world h') !! t = Some tk -> task_state tk = Done) /\
    closed h'
    = closed host_both
      ++ (if truthy (_webuser (self (world host_both)))
          then [webuser_session] else [])
      ++ [public_client_session] /\
    self (world h') = self (world host_both) /\
    calls (world h') = calls (world host_both) /\
    tracked h' = tracked host_both.
Proof.
  apply (shutdown_completes senv_quiet host_both).
  - discriminate.
  - discriminate.
  - reflexivity.
  - reflexivity.
Defined.

(** X17. [async_shutdown] raises only what an awaited task ended in or
    what the closing of a session raised, and nothing shields the steps
    that follow: after an exception from an awaited task no session is
    closed, and after one from the web user's session the public client's
    session is not closed. *)
Theorem shutdown_failure (senv : ShutdownEnv) (h h' : Host) (e : Exn) :
  async_shutdown senv h = (Raise e, h') ->
  (await_csv_import senv = AwaitRaised e \/
   await_regular_sync senv = AwaitRaised e) /\ closed h' = closed h
  \/
  webuser_close_result senv = Raise e /\
  is_Some (_webuser (self (world h))) /\
  closed h' = closed h ++ [webuser_session]
  \/
  public_close_result senv = Raise e /\
  closed h'
  = closed h ++ (if truthy (_webuser (self (world h)))
                 then [webuser_session] else [])
    ++ [public_client_session].
Proof.
  intros Hrun.
  destruct (async_shutdown_spec senv h) as (r & h'' & E & _ & _ & _ & _ & _ & Hr).
  rewrite Hrun in E. injection E as <- <-.
  destruct Hr as [(_ & Ha & Hcl & _) | [(Ha & _ & Hcl)
    | [(Hw & Ha & Hcl) | (Ha & Hcl)]]].
  - left. split; [by left|done].
  - left. split; [by right|done].
  - right. left. done.
  - right. right. done.
Qed.

Lemma shutdown_failure_witness :
  (await_csv_import senv_sync_fails = AwaitRaised (OtherException "sync failed")
   \/ await_regular_sync senv_sync_fails
      = AwaitRaised (OtherException "sync failed")) /\
  closed (snd (async_shutdown senv_sync_fails host_both)) = closed host_both
  \/
  webuser_close_result senv_sync_fails = Raise (OtherException "sync failed") /\
  is_Some (_webuser (self (world host_both))) /\
  closed (snd (async_shutdown senv_sync_fails host_both))
  = closed host_both ++ [webuser_session]
  \/
  public_close_result senv_sync_fails = Raise (OtherException "sync failed") /\
  closed (snd (async_shutdown senv_sync_fails host_both))
  = closed host_both
    ++ (if truthy (_webuser (self (world host_both)))
        then [webuser_session] else [])
    ++ [public_client_session].
Proof.
  apply (shutdown_failure senv_sync_fails host_both
           (snd (async_shutdown senv_sync_fails host_both))
           (OtherException "sync failed")).
  vm_compute. reflexivity.
Defined.

(** X18. [async_shutdown] ends no task but the CSV import and the one the
    regular handle names: a running calendar synchronisation is left
    running, every task the handle does not name is left as it is, and of
    the running consumption synchronisations at most one is ended. *)
Theorem shutdown_cancels_only_named_task (senv : ShutdownEnv) (h : Host) :
  handles_valid (world h) ->
  let h' := snd (async_shutdown senv h) in
  running calendar_sync (tasks (world h'))
  = running calendar_sync (tasks (world h)) /\
  (running consumption_sync (tasks (world h))
   <= S (running consumption_sync (tasks (world h'))))%nat /\
  length (tasks (world h')) = length (tasks (world h)) /\
  forall t, _regular_sync_task (self (world h)) <> Some t ->
    tasks (world h') !! t = tasks (world h) !! t.
Proof.
  intros (_ & Hvalid) h'. subst h'.
  destruct (async_shutdown_spec senv h)
    as (r & h' & E & _ & _ & _ & _ & Ht & _).
  rewrite E. simpl.
  destruct Ht as [-> | (t & tk & Hh & Hl & Hs & ->)].
  - repeat split; try done. lia.
  - destruct (Hvalid t Hh) as (tk' & Hl' & Hn).
    assert (tk' = tk) as -> by congruence.
    destruct (running_insert_done calendar_sync _ t tk Hl) as (Hc & _).
    destruct (running_insert_done consumption_sync _ t tk Hl)
      as (_ & Hle & _ & Hother).
    split; [apply Hc; congruence|]. split; [done|].
    split; [by rewrite length_insert|].
    intros t' Hne. apply Hother. congruence.
Qed.

Lemma shutdown_cancels_only_named_task_witness :
  let h' := snd (async_shutdown senv_quiet host_both) in
  running calendar_sync (tasks (world h'))
  = running calendar_sync (tasks (world host_both)) /\
  (running consumption_sync (tasks (world host_both))
   <= S (running consumption_sync (tasks (world h'))))%nat /\
  length (tasks (world h')) = length (tasks (world host_both)) /\
  forall t, _regular_sync_task (self (world host_both)) <> Some t ->
    tasks (world h') !! t = tasks (world host_both) !! t.
Proof.
  apply (shutdown_cancels_only_named_task senv_quiet host_both).
  apply host_both_handles_valid.
Defined.
